(** * ui-elf: component extraction, classification and scanning

    A shallow embedding of the core of the [ui-elf] command line tool:
    the type registry ([internal/registry]), the Vue and React parsers and
    the concurrent scanner ([internal/scanner]), over the data model of
    [internal/types].

    Go strings are byte sequences; they are modelled by [string], whose
    characters are the bytes.  Go [int] values that occur here (line
    numbers, slice lengths) are bounded by the size of data held in memory
    and are modelled by [Z] without wrap-around. *)

From Stdlib Require Import ZArith Ascii String Permutation Lia DecimalString.
From stdpp Require Import gmap strings list fin_maps.

Local Open Scope string_scope.
Local Open Scope list_scope.
Local Open Scope Z_scope.

(* ===================================================================== *)
(** * The fragment of Go's standard library used by the program          *)
(* ===================================================================== *)

(** [strings.ToLower] and [strings.EqualFold] both start with a byte loop
    that handles ASCII text and only hand over to the Unicode tables when
    they meet a byte [>= utf8.RuneSelf].  The byte loops are transcribed
    below; the Unicode continuations are not part of the program and are
    left abstract, as a class every development about the program is
    parametrised by. *)
Class UnicodeTables := {
  (** [strings.Map(unicode.ToLower, s)], reached from [ToLower] when [s]
      holds a non-ASCII byte *)
  mapToLower : string -> string;
  (** the rune loop after the label [hasUnicode] of [EqualFold], run on the
      remainders [s[i:]] and [t[i:]] *)
  foldUnicode : string -> string -> bool
}.

Module GoStrings.

Definition byte_of (c : ascii) : N := N_of_ascii c.

(** [utf8.RuneSelf] is 0x80 *)
Definition RuneSelf : N := 128.

Definition isUpperByte (c : ascii) : bool :=
  ((65 <=? byte_of c) && (byte_of c <=? 90))%N.

Definition isLowerByte (c : ascii) : bool :=
  ((97 <=? byte_of c) && (byte_of c <=? 122))%N.

Definition isDigitByte (c : ascii) : bool :=
  ((48 <=? byte_of c) && (byte_of c <=? 57))%N.

(** [c += 'a' - 'A'] *)
Definition lowerByte (c : ascii) : ascii :=
  if isUpperByte c then ascii_of_N (byte_of c + 32) else c.

Fixpoint isASCII (s : string) : bool :=
  match s with
  | EmptyString => true
  | String c s' => (byte_of c <? RuneSelf)%N && isASCII s'
  end.

Fixpoint hasUpper (s : string) : bool :=
  match s with
  | EmptyString => false
  | String c s' => isUpperByte c || hasUpper s'
  end.

Fixpoint mapBytes (f : ascii -> ascii) (s : string) : string :=
  match s with
  | EmptyString => EmptyString
  | String c s' => String (f c) (mapBytes f s')
  end.

(** [strings.ToLower] *)
Definition ToLower `{UnicodeTables} (s : string) : string :=
  if isASCII s then
    if hasUpper s then mapBytes lowerByte s else s
  else mapToLower s.

(** [strings.EqualFold]: the loop over [i < len(s) && i < len(t)]; it
    leaves through [hasUnicode] at the first position where either byte is
    not ASCII, and otherwise ends with [len(s) == len(t)]. *)
Fixpoint EqualFold `{UnicodeTables} (s t : string) : bool :=
  match s, t with
  | String sr s', String tr t' =>
      if (RuneSelf <=? N.lor (byte_of sr) (byte_of tr))%N then foldUnicode s t
      else if (byte_of tr =? byte_of sr)%N then EqualFold s' t'
      else
        let lo := N.min (byte_of sr) (byte_of tr) in
        let hi := N.max (byte_of sr) (byte_of tr) in
        if ((65 <=? lo) && (lo <=? 90) && (hi =? lo + 32))%N
        then EqualFold s' t'
        else false
  | EmptyString, EmptyString => true
  | _, _ => false
  end.

(** [strings.HasSuffix] *)
Definition HasSuffix (s suffix : string) : bool :=
  (String.length suffix <=? String.length s)%nat &&
  String.eqb (substring (String.length s - String.length suffix)
                        (String.length suffix) s) suffix.

(** [strings.HasPrefix] *)
Fixpoint HasPrefix (s prefix : string) : bool :=
  match prefix, s with
  | EmptyString, _ => true
  | String p prefix', String c s' => Ascii.eqb c p && HasPrefix s' prefix'
  | String _ _, EmptyString => false
  end.

Definition newline : ascii := ascii_of_N 10.

(** [strings.Count(s, "\n")] *)
Fixpoint CountNewlines (s : string) : Z :=
  match s with
  | EmptyString => 0
  | String c s' => (if Ascii.eqb c newline then 1 else 0) + CountNewlines s'
  end.

(** [strings.Split(s, "\n")]: the result is never empty, the empty string
    splits into one empty line. *)
Fixpoint SplitLines (s : string) : list string :=
  match s with
  | EmptyString => [EmptyString]
  | String c s' =>
      if Ascii.eqb c newline then EmptyString :: SplitLines s'
      else match SplitLines s' with
           | l :: ls => String c l :: ls
           | [] => [String c EmptyString]
           end
  end.

(** [strings.Index]: the byte offset of the first occurrence *)
Fixpoint Index (s sub : string) : option nat :=
  if HasPrefix s sub then Some 0%nat
  else match s with
       | EmptyString => None
       | String _ s' => option_map S (Index s' sub)
       end.

(** the slice expressions [s[:n]] and [s[n:]] *)
Fixpoint take (n : nat) (s : string) : string :=
  match n, s with
  | S n', String c s' => String c (take n' s')
  | _, _ => EmptyString
  end.

Fixpoint drop (n : nat) (s : string) : string :=
  match n, s with
  | S n', String _ s' => drop n' s'
  | _, _ => s
  end.

End GoStrings.

(** The tables restricted to nothing: an instance for running the models on
    ASCII inputs, where the continuations are never reached. *)
Definition asciiOnly : UnicodeTables :=
  {| mapToLower := fun s => s; foldUnicode := fun _ _ => false |}.

(** ** strings, path/filepath and fmt, as far as discovery, the report and
    the command line use them

    [path/filepath] is compiled per operating system; the two variants
    differ in the separator. *)
Inductive GOOS := unix | windows.

(** [filepath.Rel] is a function of its two arguments alone (it never
    looks at the disk); like the Unicode tables it is no part of the
    program and is left abstract. *)
Class FilepathRel := {
  Rel : string -> string -> string * option string
}.

Module GoPath.
Import GoStrings.

(** [strings.Contains]: [Index(s, substr) >= 0] *)
Definition Contains (s substr : string) : bool :=
  match Index s substr with
  | Some _ => true
  | None => false
  end.

(** [strings.Split(s, sep)] for a separator of one byte *)
Fixpoint Split (s : string) (sep : ascii) : list string :=
  match s with
  | EmptyString => [EmptyString]
  | String c s' =>
      if Ascii.eqb c sep then EmptyString :: Split s' sep
      else match Split s' sep with
           | part :: parts => String c part :: parts
           | [] => [String c EmptyString]
           end
  end.

(** [strings.Repeat] *)
Fixpoint Repeat (s : string) (count : nat) : string :=
  match count with
  | O => EmptyString
  | S n => s +:+ Repeat s n
  end.

Definition backslash : ascii := ascii_of_N 92.

(** [filepath.Separator] *)
Definition Separator (os : GOOS) : ascii :=
  match os with
  | unix => "/"
  | windows => backslash
  end.

(** [os.IsPathSeparator] *)
Definition IsPathSeparator (os : GOOS) (c : ascii) : bool :=
  match os with
  | unix => Ascii.eqb c "/"
  | windows => Ascii.eqb c backslash || Ascii.eqb c "/"
  end.

(** [filepath.ToSlash]: the path itself when the separator is the slash,
    [strings.ReplaceAll(path, string(Separator), "/")] otherwise *)
Definition ToSlash (os : GOOS) (path : string) : string :=
  if Ascii.eqb (Separator os) "/" then path
  else mapBytes (fun c => if Ascii.eqb c (Separator os) then "/"%char else c) path.

(** [filepath.Ext] runs from the last byte of the path towards the first,
    stops at a separator and returns the rest of the path from the first
    dot it meets.  [scanExt] tells how that loop ends on a text: on a dot,
    on a separator, or for want of bytes. *)
Inductive extScan :=
| ExtFound (ext : string)
| ExtStopped
| ExtExhausted.

Fixpoint scanExt (os : GOOS) (path : string) : extScan :=
  match path with
  | EmptyString => ExtExhausted
  | String c path' =>
      match scanExt os path' with
      | ExtFound ext => ExtFound ext
      | ExtStopped => ExtStopped
      | ExtExhausted =>
          if IsPathSeparator os c then ExtStopped
          else if Ascii.eqb c "." then ExtFound (String c path')
          else ExtExhausted
      end
  end.

Definition Ext (os : GOOS) (path : string) : string :=
  match scanExt os path with
  | ExtFound ext => ext
  | _ => EmptyString
  end.

(** the verb [%d] of [fmt] on an integer *)
Definition formatInt (n : Z) : string :=
  NilEmpty.string_of_int (Z.to_int n).

End GoPath.

(* ===================================================================== *)
(** * internal/types                                                     *)
(* ===================================================================== *)

Module ComponentMatch.
Record t := mk {
  FilePath : string;
  Line : Z;
  ComponentName : string;
  ComponentType : string
}.
End ComponentMatch.

Module ScanResult.
Record t := mk {
  Matches : list ComponentMatch.t;
  TotalCount : Z;
  ScanTimeMs : Z;
  ComponentType : string;
  ScannedFiles : Z
}.
End ScanResult.

Module CLIOptions.
Record t := mk {
  ComponentType : string;
  Directory : string;
  Filter : list string;
  OutputFormat : string   (* "terminal", "json", or "both" *)
}.
End CLIOptions.

Module FileFilter.
Record t := mk {
  ExcludePatterns : list string;
  IncludeDirectories : list string;
  FileExtensions : list string
}.
End FileFilter.

(* ===================================================================== *)
(** * internal/registry                                                  *)
(* ===================================================================== *)

Module registry.
Import GoStrings.

Record ComponentMapping := {
  Type_ : string;
  Patterns : gmap string (list string)   (* library name -> component names *)
}.

Record ComponentMappingRegistry := {
  mappings : gmap string ComponentMapping
}.

Definition formMapping : ComponentMapping :=
  {| Type_ := "form";
     Patterns := <["native" := ["form"]]>
                (<["quasar" := ["q-form"; "QForm"]]>
                (<["material" := ["v-form"; "VForm"; "Form"; "MuiForm"]]> ∅)) |}.

Definition buttonMapping : ComponentMapping :=
  {| Type_ := "button";
     Patterns := <["native" := ["button"]]>
                (<["quasar" := ["q-btn"; "QBtn"]]>
                (<["material" := ["v-btn"; "VBtn"; "Button"; "MuiButton"]]> ∅)) |}.

Definition dialogMapping : ComponentMapping :=
  {| Type_ := "dialog";
     Patterns := <["native" := ["dialog"]]>
                (<["quasar" := ["q-dialog"; "QDialog"]]>
                (<["material" := ["v-dialog"; "VDialog"; "Dialog"; "MuiDialog"]]> ∅)) |}.

(** the three assignments [registry.mappings[...] = ComponentMapping{...}]
    into the map made empty *)
Definition NewComponentMappingRegistry : ComponentMappingRegistry :=
  {| mappings :=
       <["dialog" := dialogMapping]>
      (<["button" := buttonMapping]>
      (<["form" := formMapping]> ∅)) |}.

(** [GetMapping]: the pair [(mapping, exists)] of the source is the option *)
Definition GetMapping `{UnicodeTables} (r : ComponentMappingRegistry)
    (componentType : string) : option ComponentMapping :=
  mappings r !! ToLower componentType.

(** The two nested [range] loops with their early [return true].  Go
    visits the entries of [mapping.Patterns] in an unspecified order; the
    order taken here is that of [map_to_list], and
    [MatchesComponentType_known] below shows the result does not depend
    on it. *)
Definition MatchesComponentType `{UnicodeTables} (r : ComponentMappingRegistry)
    (componentName componentType : string) : bool :=
  match GetMapping r componentType with
  | None => EqualFold componentName componentType
  | Some mapping =>
      existsb (fun entry : string * list string =>
                 existsb (fun pattern => EqualFold componentName pattern) entry.2)
              (map_to_list (Patterns mapping))
  end.

End registry.

(* ===================================================================== *)
(** * internal/scanner: the parsers                                      *)
(* ===================================================================== *)

(** Go's [error] interface; [None] stands for the nil error. *)
Definition error := string.

Module scanner.
Import GoStrings.
Import ComponentMatch.

(** ** The tag regular expressions

    Both component expressions read: the byte [<], a captured name made
    of one byte of a class [F] and then as many bytes of a class [R] as
    possible, and last either one byte of [[\s>/]] or the end of the text.
    In the template pass [F] is [[A-Za-z]] and [R] is [[A-Za-z0-9-]]; in
    the two JSX passes [F] is [[A-Z]] and [R] is [[A-Za-z0-9]].  Every
    class is ASCII, so running them on bytes or on runes is the same. *)
Record tagRegex := {
  nameStart : ascii -> bool;
  nameRest : ascii -> bool
}.

Definition isLetterByte (c : ascii) : bool := isUpperByte c || isLowerByte c.

Definition templateRegex : tagRegex :=
  {| nameStart := isLetterByte;
     nameRest := fun c => isLetterByte c || isDigitByte c || Ascii.eqb c "-" |}.

Definition jsxRegex : tagRegex :=
  {| nameStart := isUpperByte;
     nameRest := fun c => isLetterByte c || isDigitByte c |}.

(** [[\s>/]], where [\s] is [[\t\n\f\r ]] *)
Definition isTagEnd (c : ascii) : bool :=
  ((byte_of c =? 9) || (byte_of c =? 10) || (byte_of c =? 12) ||
   (byte_of c =? 13) || (byte_of c =? 32))%N
  || Ascii.eqb c ">" || Ascii.eqb c "/".

(** the longest prefix of bytes in a class, and what follows it *)
Fixpoint span (p : ascii -> bool) (s : string) : string * string :=
  match s with
  | String c s' =>
      if p c then let '(run, tl) := span p s' in (String c run, tl)
      else (EmptyString, s)
  | EmptyString => (EmptyString, EmptyString)
  end.

(** A match of the expression anchored at the first byte of [s]: the
    captured name and the number of bytes the whole match covers.  The
    star is greedy; giving bytes back never helps, since the byte after a
    shorter run is in [R], which is disjoint from [[\s>/]], and is not the
    end of the text. *)
Definition matchTag (re : tagRegex) (s : string) : option (string * nat) :=
  match s with
  | String c (String d s'') =>
      if Ascii.eqb c "<" && nameStart re d then
        let '(run, tl) := span (nameRest re) s'' in
        match tl with
        | EmptyString => Some (String d run, (2 + String.length run)%nat)
        | String e _ =>
            if isTagEnd e then Some (String d run, (3 + String.length run)%nat)
            else None
        end
      else None
  | _ => None
  end.

(** [re.FindAllStringSubmatch(line, -1)], keeping [match[1]] of every
    match: successive leftmost matches that do not overlap.  [skip] counts
    the bytes still covered by the previous match. *)
Fixpoint findAllFrom (re : tagRegex) (skip : nat) (s : string) : list string :=
  match s with
  | EmptyString => []
  | String _ s' =>
      match skip with
      | S k => findAllFrom re k s'
      | O =>
          match matchTag re s with
          | Some (name, n) => name :: findAllFrom re (n - 1) s'
          | None => findAllFrom re 0 s'
          end
      end
  end.

Definition FindAllStringSubmatch (re : tagRegex) (line : string) : list string :=
  findAllFrom re 0 line.

(** ** isHTMLTag *)

Definition htmlTagNames : list string :=
  [ "div"; "span"; "p"; "a"; "img";
    "ul"; "ol"; "li"; "table"; "tr";
    "td"; "th"; "thead"; "tbody"; "tfoot";
    "h1"; "h2"; "h3"; "h4"; "h5"; "h6";
    "header"; "footer"; "nav"; "section"; "article";
    "aside"; "main"; "input"; "textarea"; "select";
    "option"; "label"; "fieldset"; "legend";
    "strong"; "em"; "b"; "i"; "u";
    "br"; "hr"; "pre"; "code"; "blockquote";
    "iframe"; "video"; "audio"; "canvas"; "svg";
    "path"; "circle"; "rect"; "line"; "polygon";
    "template"; "slot"; "script"; "style"; "link";
    "meta"; "title"; "head"; "body"; "html";
    "button"; "form"; "dialog" ].

(** the literal [map[string]bool], every key of which is bound to [true] *)
Definition htmlTags : gmap string bool :=
  list_to_map (map (fun name => (name, true)) htmlTagNames).

Definition isHTMLTag `{UnicodeTables} (tagName : string) : bool :=
  let lowerTag := ToLower tagName in
  String.eqb lowerTag tagName && default false (htmlTags !! lowerTag).

(** ** The line loop shared by the three passes

    [parseTemplateComponents], [parseJSXComponents] and
    [parseReactJSXComponents] run the same two nested loops; they differ
    in the regular expression, and the template pass alone skips the names
    [isHTMLTag] accepts. *)

(** [seenComponents[componentName][lineIdx]], false when either key is absent *)
Definition seenAt (seen : gmap string (gmap nat bool))
    (componentName : string) (lineIdx : nat) : bool :=
  default false (default ∅ (seen !! componentName) !! lineIdx).

(** the body of the inner loop for one match of the expression *)
Definition visitMatch (skipName : string -> bool) (filePath : string)
    (baseLineNumber : Z) (lineIdx : nat)
    (st : gmap string (gmap nat bool) * list ComponentMatch.t)
    (componentName : string)
    : gmap string (gmap nat bool) * list ComponentMatch.t :=
  let '(seenComponents, matches) := st in
  if skipName componentName then st
  else
    let seenComponents :=
      match seenComponents !! componentName with
      | None => <[componentName := ∅]> seenComponents
      | Some _ => seenComponents
      end in
    if seenAt seenComponents componentName lineIdx then (seenComponents, matches)
    else
      (<[componentName :=
           <[lineIdx := true]> (default ∅ (seenComponents !! componentName))]>
         seenComponents,
       matches ++ [ {| FilePath := filePath;
                       Line := baseLineNumber + Z.of_nat lineIdx;
                       ComponentName := componentName;
                       ComponentType := "" |} ]).

(** [for lineIdx, line := range lines] *)
Fixpoint visitLines (re : tagRegex) (skipName : string -> bool)
    (filePath : string) (baseLineNumber : Z) (lineIdx : nat)
    (lines : list string)
    (st : gmap string (gmap nat bool) * list ComponentMatch.t)
    : gmap string (gmap nat bool) * list ComponentMatch.t :=
  match lines with
  | [] => st
  | line :: lines' =>
      visitLines re skipName filePath baseLineNumber (S lineIdx) lines'
        (fold_left (visitMatch skipName filePath baseLineNumber lineIdx)
                   (FindAllStringSubmatch re line) st)
  end.

Definition parseWith (re : tagRegex) (skipName : string -> bool)
    (content filePath : string) (baseLineNumber : Z) : list ComponentMatch.t :=
  (visitLines re skipName filePath baseLineNumber 0
              (SplitLines content) (∅, [])).2.

Definition parseTemplateComponents `{UnicodeTables}
    (templateContent filePath : string) (baseLineNumber : Z) :=
  parseWith templateRegex isHTMLTag templateContent filePath baseLineNumber.

Definition parseJSXComponents
    (scriptContent filePath : string) (baseLineNumber : Z) :=
  parseWith jsxRegex (fun _ => false) scriptContent filePath baseLineNumber.

Definition parseReactJSXComponents
    (content filePath : string) (baseLineNumber : Z) :=
  parseWith jsxRegex (fun _ => false) content filePath baseLineNumber.

(** ** Region extraction

    The expression for the template region and its [script] twin: an
    opening literal ([<template]), a greedy run of bytes other than [>],
    the byte [>], the lazy group of any bytes (flag [s]) up to the first
    occurrence of the closing literal ([</template>]).
    [regionHere] is a match anchored at the first byte of [s] and
    returns the bounds [match[2]], [match[3]] of the group;
    [findRegion] tries the start positions from the left, as
    [FindStringSubmatchIndex] does. *)
Definition regionHere (opening closing s : string) : option (nat * nat) :=
  if HasPrefix s opening then
    match Index (drop (String.length opening) s) ">" with
    | Some k =>
        let m2 := (String.length opening + k + 1)%nat in
        match Index (drop m2 s) closing with
        | Some r => Some (m2, (m2 + r)%nat)
        | None => None
        end
    | None => None
    end
  else None.

Fixpoint findRegion (opening closing s : string) (pos : nat) : option (nat * nat) :=
  match regionHere opening closing s with
  | Some (m2, m3) => Some ((pos + m2)%nat, (pos + m3)%nat)
  | None =>
      match s with
      | EmptyString => None
      | String _ s' => findRegion opening closing s' (S pos)
      end
  end.

Definition extractSection (opening closing content : string) : string * Z :=
  match findRegion opening closing content 0 with
  | None => (EmptyString, 0)
  | Some (m2, m3) =>
      (* content[match[2]:match[3]] *)
      let sectionContent := take (m3 - m2) (drop m2 content) in
      let startLine := CountNewlines (take m2 content) + 1 in
      (sectionContent, startLine)
  end.

Definition extractTemplateSection (content : string) : string * Z :=
  extractSection "<template" "</template>" content.

Definition extractScriptSection (content : string) : string * Z :=
  extractSection "<script" "</script>" content.

(** ** The parser interface and its two implementations *)

Record ComponentParser := {
  Parse : string -> string -> list ComponentMatch.t * option error;
  SupportsFile : string -> bool
}.

Definition VueParser_SupportsFile `{UnicodeTables} (filePath : string) : bool :=
  HasSuffix (ToLower filePath) ".vue".

Definition VueParser_Parse `{UnicodeTables} (fileContent filePath : string)
    : list ComponentMatch.t * option error :=
  let matches := [] in
  let '(templateContent, templateStartLine) := extractTemplateSection fileContent in
  let matches :=
    if String.eqb templateContent "" then matches
    else matches ++ parseTemplateComponents templateContent filePath templateStartLine in
  let '(scriptContent, scriptStartLine) := extractScriptSection fileContent in
  let matches :=
    if String.eqb scriptContent "" then matches
    else matches ++ parseJSXComponents scriptContent filePath scriptStartLine in
  (matches, None).

Definition NewVueParser `{UnicodeTables} : ComponentParser :=
  {| Parse := VueParser_Parse; SupportsFile := VueParser_SupportsFile |}.

Definition ReactParser_SupportsFile `{UnicodeTables} (filePath : string) : bool :=
  let lowerPath := ToLower filePath in
  HasSuffix lowerPath ".jsx" || HasSuffix lowerPath ".tsx".

Definition ReactParser_Parse (fileContent filePath : string)
    : list ComponentMatch.t * option error :=
  (parseReactJSXComponents fileContent filePath 1, None).

Definition NewReactParser `{UnicodeTables} : ComponentParser :=
  {| Parse := ReactParser_Parse; SupportsFile := ReactParser_SupportsFile |}.

(** ** scanner.go *)

Record ComponentScanner := {
  parsers : list ComponentParser;
  registry : registry.ComponentMappingRegistry
}.

Definition NewComponentScanner (parsers : list ComponentParser)
    (reg : registry.ComponentMappingRegistry) : ComponentScanner :=
  {| parsers := parsers; registry := reg |}.

(** [match.ComponentType = componentType] on the loop's copy of the match *)
Definition withComponentType (componentType : string) (m : ComponentMatch.t)
    : ComponentMatch.t :=
  {| FilePath := FilePath m; Line := Line m;
     ComponentName := ComponentName m; ComponentType := componentType |}.

Definition filterByComponentType `{UnicodeTables} (s : ComponentScanner)
    (matches : list ComponentMatch.t) (componentType : string)
    : list ComponentMatch.t :=
  fold_left
    (fun filtered m =>
       if registry.MatchesComponentType (registry s) (ComponentName m) componentType
       then filtered ++ [withComponentType componentType m]
       else filtered)
    matches [].

(** [os.ReadFile] on the files as they are while the scan runs: the
    content of a path, or [None] when reading it fails. *)
Definition FileSystem := string -> option string.

(** The body of the goroutine started for one path; the result is the
    value it sends on [matchChan], the nil slice being the empty list.
    ([filterByComponentType] returns nil exactly when it keeps nothing, so
    no empty slice other than nil is ever sent.) *)
Definition scanFile `{UnicodeTables} (s : ComponentScanner) (fs : FileSystem)
    (componentType path : string) : list ComponentMatch.t :=
  match find (fun p => SupportsFile p path) (parsers s) with
  | None => []
  | Some parser =>
      match fs path with
      | None => []
      | Some content =>
          match Parse parser content path with
          | (_, Some _) => []
          | (matches, None) => filterByComponentType s matches componentType
          end
      end
  end.

(** The concurrent part of [Scan].  One goroutine per path computes
    [scanFile] and sends it on the buffered channel; a further goroutine
    closes the channel once the wait group is down to zero; the caller
    ranges over the channel and appends what it receives. *)
Record scanState := {
  running : list string;                      (* goroutines yet to send *)
  matchChan : list (list ComponentMatch.t);   (* buffered values, oldest first *)
  closed : bool;
  allMatches : list ComponentMatch.t
}.

Definition scanStart (files : list string) : scanState :=
  {| running := files; matchChan := []; closed := false; allMatches := [] |}.

(** the [range] loop ends when the channel is closed and drained *)
Definition scanDone (st : scanState) : Prop :=
  running st = [] /\ matchChan st = [] /\ closed st = true.

Inductive scanStep `{UnicodeTables} (s : ComponentScanner) (fs : FileSystem)
    (componentType : string) (capacity : nat) : scanState -> scanState -> Prop :=
| step_send before path after ch all :
    (length ch < capacity)%nat ->
    scanStep s fs componentType capacity
      {| running := before ++ path :: after; matchChan := ch;
         closed := false; allMatches := all |}
      {| running := before ++ after;
         matchChan := ch ++ [scanFile s fs componentType path];
         closed := false; allMatches := all |}
| step_close ch all :
    scanStep s fs componentType capacity
      {| running := []; matchChan := ch; closed := false; allMatches := all |}
      {| running := []; matchChan := ch; closed := true; allMatches := all |}
| step_receive rest matches ch cl all :
    scanStep s fs componentType capacity
      {| running := rest; matchChan := matches :: ch; closed := cl; allMatches := all |}
      {| running := rest; matchChan := ch; closed := cl;
         allMatches := match matches with [] => all | _ => all ++ matches end |}.

(** [Scan]: any run of the goroutines to completion, any elapsed time on
    the clock, and the result built from what was collected. *)
Inductive Scan `{UnicodeTables} (s : ComponentScanner) (fs : FileSystem)
    (files : list string) (componentType : string)
    : ScanResult.t * option error -> Prop :=
| Scan_returns st scanTimeMs :
    rtc (scanStep s fs componentType (length files)) (scanStart files) st ->
    scanDone st ->
    0 <= scanTimeMs ->
    Scan s fs files componentType
      ({| ScanResult.Matches := allMatches st;
          ScanResult.TotalCount := Z.of_nat (length (allMatches st));
          ScanResult.ScanTimeMs := scanTimeMs;
          ScanResult.ComponentType := componentType;
          ScanResult.ScannedFiles := Z.of_nat (length files) |}, None).

(** The run in which the goroutines deliver in the order of [files]. *)
Definition ScanInOrder `{UnicodeTables} (s : ComponentScanner) (fs : FileSystem)
    (files : list string) (componentType : string) (scanTimeMs : Z)
    : ScanResult.t * option error :=
  let allMatches := flat_map (scanFile s fs componentType) files in
  ({| ScanResult.Matches := allMatches;
      ScanResult.TotalCount := Z.of_nat (length allMatches);
      ScanResult.ScanTimeMs := scanTimeMs;
      ScanResult.ComponentType := componentType;
      ScanResult.ScannedFiles := Z.of_nat (length files) |}, None).

End scanner.

(* ===================================================================== *)
(** * internal/discovery                                                 *)
(* ===================================================================== *)

Module discovery.
Import GoStrings GoPath.

Definition matchesPattern (os : GOOS) (filePath pattern : string) : bool :=
  let normalizedPath := ToSlash os filePath in
  if Contains normalizedPath pattern then true
  else
    let parts := Split normalizedPath "/" in
    existsb (fun part => String.eqb part pattern) parts.

Definition ShouldExcludeFile (os : GOOS) (filePath : string) (filter : FileFilter.t)
    : bool :=
  existsb (fun pattern => matchesPattern os filePath pattern)
          (FileFilter.ExcludePatterns filter).

Definition hasValidExtension (os : GOOS) (filePath : string)
    (extensions : list string) : bool :=
  match extensions with
  | [] => true
  | _ =>
      let ext := Ext os filePath in
      existsb (fun validExt => String.eqb ext validExt) extensions
  end.

Definition isInIncludedDirectory `{FilepathRel} (os : GOOS)
    (filePath rootDir : string) (includeDirectories : list string) : bool :=
  match Rel rootDir filePath with
  | (_, Some _) => false
  | (relPath, None) =>
      let normalizedRelPath := ToSlash os relPath in
      existsb
        (fun includeDir =>
           let normalizedIncludeDir := ToSlash os includeDir in
           HasPrefix normalizedRelPath (normalizedIncludeDir +:+ "/") ||
           String.eqb normalizedRelPath normalizedIncludeDir)
        includeDirectories
  end.

(** One call [filepath.Walk] makes to the function it is given: the path,
    whether [info] is a directory, and the error of the visit. *)
Record walkCall := {
  walkPath : string;
  walkIsDir : bool;
  walkErr : option error
}.

(** The function literal of [DiscoverFiles]: the value of [files] after
    the call and the error it returns. *)
Definition visit `{FilepathRel} (os : GOOS) (rootDir : string)
    (filter : FileFilter.t) (files : list string) (call : walkCall)
    : list string * option error :=
  match walkErr call with
  | Some err => (files, Some err)
  | None =>
      if walkIsDir call then (files, None)
      else if ShouldExcludeFile os (walkPath call) filter then (files, None)
      else if negb (hasValidExtension os (walkPath call)
                      (FileFilter.FileExtensions filter)) then (files, None)
      else if (0 <? length (FileFilter.IncludeDirectories filter))%nat
              && negb (isInIncludedDirectory os (walkPath call) rootDir
                         (FileFilter.IncludeDirectories filter))
           then (files, None)
      else (files ++ [walkPath call], None)
  end.

(** [filepath.Walk] on the calls the tree under the root gives rise to, in
    lexical order: it stops at the first call that returns an error and
    returns that error.  (The function of [DiscoverFiles] never returns
    [SkipDir], so that no part of the tree is left out otherwise.) *)
Fixpoint Walk `{FilepathRel} (os : GOOS) (rootDir : string)
    (filter : FileFilter.t) (calls : list walkCall) (files : list string)
    : list string * option error :=
  match calls with
  | [] => (files, None)
  | call :: calls' =>
      match visit os rootDir filter files call with
      | (files', Some err) => (files', Some err)
      | (files', None) => Walk os rootDir filter calls' files'
      end
  end.

Definition DiscoverFiles `{FilepathRel} (os : GOOS) (calls : list walkCall)
    (rootDir : string) (filter : FileFilter.t) : list string * option error :=
  Walk os rootDir filter calls [].

End discovery.

(* ===================================================================== *)
(** * internal/output                                                    *)
(* ===================================================================== *)

Module output.
Import GoStrings GoPath.

Definition lf : string := String newline EmptyString.

(** the [Fprintf] of the loop over the matches *)
Definition matchLine (m : ComponentMatch.t) : string :=
  "  " +:+ ComponentMatch.FilePath m +:+ " (line " +:+
  formatInt (ComponentMatch.Line m) +:+ "): " +:+
  ComponentMatch.ComponentName m +:+ lf.

(** The writes to the [strings.Builder], one after the other. *)
Definition FormatTerminal (result : ScanResult.t) : string :=
  (* Header *)
  (lf +:+ "Component Finder Results - " +:+ ScanResult.ComponentType result +:+ lf)
  +:+ Repeat "=" 50
  +:+ (lf +:+ lf)
  (* File paths *)
  +:+ (match ScanResult.Matches result with
       | [] => "No components found." +:+ lf
       | matches =>
           ("Found components in:" +:+ lf +:+ lf)
           +:+ String.concat EmptyString (map matchLine matches)
       end)
  (* Summary *)
  +:+ lf
  +:+ Repeat "-" 50
  +:+ lf
  +:+ ("Total components found: " +:+ formatInt (ScanResult.TotalCount result) +:+ lf)
  +:+ ("Files scanned: " +:+ formatInt (ScanResult.ScannedFiles result) +:+ lf)
  +:+ ("Scan time: " +:+ formatInt (ScanResult.ScanTimeMs result) +:+ "ms" +:+ lf).

End output.

(* ===================================================================== *)
(** * internal/cli                                                       *)
(* ===================================================================== *)

Module cli.
Import GoStrings GoPath.

(** [validateOptions].  [notExist directory] is [os.IsNotExist] of the
    error of [os.Stat(directory)].  The two literal maps are sets: every
    key is bound to [true]. *)
Definition validTypes : list string := ["form"; "button"; "dialog"; "custom"].

Definition validOutputs : list string := ["terminal"; "json"; "both"].

Definition validateOptions (notExist : string -> bool) (options : CLIOptions.t)
    : option error :=
  if negb (existsb (String.eqb (CLIOptions.ComponentType options)) validTypes) then
    Some ("invalid component type '" +:+ CLIOptions.ComponentType options +:+
          "': must be one of: form, button, dialog, custom")
  else if negb (existsb (String.eqb (CLIOptions.OutputFormat options)) validOutputs) then
    Some ("invalid output format '" +:+ CLIOptions.OutputFormat options +:+
          "': must be one of: terminal, json, both")
  else if notExist (CLIOptions.Directory options) then
    Some ("directory not found: " +:+ CLIOptions.Directory options)
  else None.

(** the filter [executeScan] builds *)
Definition scanFilter (options : CLIOptions.t) : FileFilter.t :=
  {| FileFilter.ExcludePatterns :=
       ["node_modules"; "test"; "tests"; "__tests__"; ".test."; ".spec."];
     FileFilter.IncludeDirectories := CLIOptions.Filter options;
     FileFilter.FileExtensions := [".vue"; ".jsx"; ".tsx"] |}.

(** the scanner [executeScan] creates *)
Definition scanScanner `{UnicodeTables} : scanner.ComponentScanner :=
  scanner.NewComponentScanner
    [scanner.NewVueParser; scanner.NewReactParser]
    registry.NewComponentMappingRegistry.

(** [executeScan]: the pointer to the result is nil exactly when an error
    is returned. *)
Inductive executeScan `{UnicodeTables} `{FilepathRel} (os : GOOS)
    (calls : list discovery.walkCall) (fs : scanner.FileSystem)
    (options : CLIOptions.t) : option ScanResult.t * option error -> Prop :=
| executeScan_discovery_fails files err :
    discovery.DiscoverFiles os calls (CLIOptions.Directory options)
      (scanFilter options) = (files, Some err) ->
    executeScan os calls fs options
      (None, Some ("failed to discover files: " +:+ err))
| executeScan_no_files :
    discovery.DiscoverFiles os calls (CLIOptions.Directory options)
      (scanFilter options) = ([], None) ->
    executeScan os calls fs options
      (Some {| ScanResult.Matches := [];
               ScanResult.TotalCount := 0;
               ScanResult.ScanTimeMs := 0;
               ScanResult.ComponentType := CLIOptions.ComponentType options;
               ScanResult.ScannedFiles := 0 |}, None)
| executeScan_scan_fails files result err :
    discovery.DiscoverFiles os calls (CLIOptions.Directory options)
      (scanFilter options) = (files, None) ->
    files <> [] ->
    scanner.Scan scanScanner fs files (CLIOptions.ComponentType options)
      (result, Some err) ->
    executeScan os calls fs options
      (None, Some ("scan execution failed: " +:+ err))
| executeScan_scans files result :
    discovery.DiscoverFiles os calls (CLIOptions.Directory options)
      (scanFilter options) = (files, None) ->
    files <> [] ->
    scanner.Scan scanScanner fs files (CLIOptions.ComponentType options)
      (result, None) ->
    executeScan os calls fs options (Some result, None).

End cli.

(* ===================================================================== *)
(** * Vocabulary of the statements                                       *)
(* ===================================================================== *)

(** The types with an entry in [NewComponentMappingRegistry]. *)
Definition knownTypes : list string := ["form"; "button"; "dialog"].

(** [pattern] is one of the literal names some library group lists under
    the entry of the registry for [knownType]. *)
Definition registeredUnder (r : registry.ComponentMappingRegistry)
    (knownType pattern : string) : Prop :=
  exists mapping library names,
    registry.mappings r !! knownType = Some mapping /\
    registry.Patterns mapping !! library = Some names /\
    In pattern names.

(** The match a pass records for a name found on the line of index
    [lineIdx] of the text it scans. *)
Definition matchOn (filePath : string) (baseLineNumber : Z) (lineIdx : nat)
    (componentName : string) : ComponentMatch.t :=
  {| ComponentMatch.FilePath := filePath;
     ComponentMatch.Line := baseLineNumber + Z.of_nat lineIdx;
     ComponentMatch.ComponentName := componentName;
     ComponentMatch.ComponentType := "" |}.

(** The names of [names] to keep: not skipped, not in [prev], and not kept
    before; in the order of their first occurrence. *)
Fixpoint keepFirst (skipName : string -> bool) (prev names : list string)
    : list string :=
  match names with
  | [] => []
  | name :: names' =>
      if skipName name then keepFirst skipName prev names'
      else if bool_decide (name ∈ prev) then keepFirst skipName prev names'
      else name :: keepFirst skipName (name :: prev) names'
  end.

(** What a pass yields, line after line, from the line of index [lineIdx] on. *)
Fixpoint linesMatches (re : scanner.tagRegex) (skipName : string -> bool)
    (filePath : string) (baseLineNumber : Z) (lineIdx : nat)
    (lines : list string) : list ComponentMatch.t :=
  match lines with
  | [] => []
  | line :: lines' =>
      map (matchOn filePath baseLineNumber lineIdx)
          (keepFirst skipName [] (scanner.FindAllStringSubmatch re line))
      ++ linesMatches re skipName filePath baseLineNumber (S lineIdx) lines'
  end.

(** The matches of a result reported for a name at a line number. *)
Definition matchesAt (matches : list ComponentMatch.t) (line : Z)
    (componentName : string) : list ComponentMatch.t :=
  filter (fun m => ComponentMatch.Line m = line /\
                   ComponentMatch.ComponentName m = componentName) matches.

(** The fields of a match that [filterByComponentType] has no business with. *)
Definition located (m : ComponentMatch.t) : string * Z * string :=
  (ComponentMatch.FilePath m, ComponentMatch.Line m, ComponentMatch.ComponentName m).

(** What one path is due to add to a scan: nothing when no parser supports
    it, when it cannot be read or when its parser fails, and otherwise the
    raw matches of the first parser that supports it, those the registry
    accepts for the requested type, stamped with that type. *)
Definition contribution `{UnicodeTables} (s : scanner.ComponentScanner)
    (fs : scanner.FileSystem) (requestedType path : string)
    : list ComponentMatch.t :=
  match find (fun p => scanner.SupportsFile p path) (scanner.parsers s) with
  | None => []
  | Some parser =>
      match fs path with
      | None => []
      | Some content =>
          match scanner.Parse parser content path with
          | (raw, None) =>
              map (scanner.withComponentType requestedType)
                  (List.filter
                     (fun m => registry.MatchesComponentType (scanner.registry s)
                                 (ComponentMatch.ComponentName m) requestedType)
                     raw)
          | (_, Some _) => []
          end
      end
  end.

(** Everything a state of the scan still holds or is yet to produce. *)
Definition scanTotal `{UnicodeTables} (s : scanner.ComponentScanner)
    (fs : scanner.FileSystem) (componentType : string) (st : scanner.scanState)
    : list ComponentMatch.t :=
  scanner.allMatches st ++ concat (scanner.matchChan st) ++
  flat_map (scanner.scanFile s fs componentType) (scanner.running st).



(** A path whose goroutine gets as far as filtering: a parser supports it,
    it can be read, and the parser reports no error. *)
Definition parsedFine (s : scanner.ComponentScanner) (fs : scanner.FileSystem)
    (path : string) : bool :=
  match find (fun p => scanner.SupportsFile p path) (scanner.parsers s) with
  | None => false
  | Some parser =>
      match fs path with
      | None => false
      | Some content =>
          match scanner.Parse parser content path with
          | (_, None) => true
          | (_, Some _) => false
          end
      end
  end.

(** The files of [TestComponentScanner_Scan] and the scanner it sets up. *)
Module fixtures.

Definition joinLines (lines : list string) : string :=
  String.concat (String GoStrings.newline EmptyString) lines.

Definition quoted (text : string) : string :=
  String (ascii_of_N 34) (text +:+ String (ascii_of_N 34) EmptyString).

Definition vueContent : string :=
  joinLines [ "<template>";
              "  <div>";
              "    <q-form>";
              "      <input type=" +:+ quoted "text" +:+ " />";
              "    </q-form>";
              "  </div>";
              "</template>" ].

Definition reactContent : string :=
  joinLines [ "import React from 'react';";
              "";
              "function MyComponent() {";
              "  return (";
              "    <div>";
              "      <Button onClick={handleClick}>Click me</Button>";
              "    </div>";
              "  );";
              "}" ].

Definition testFS : scanner.FileSystem :=
  fun path =>
    if String.eqb path "test.vue" then Some vueContent
    else if String.eqb path "test.jsx" then Some reactContent
    else if String.eqb path "test.txt" then Some "some text"
    else None.

Definition testScanner `{UnicodeTables} : scanner.ComponentScanner :=
  scanner.NewComponentScanner
    [scanner.NewVueParser; scanner.NewReactParser]
    registry.NewComponentMappingRegistry.

End fixtures.

(** The line of the file that bears the number reported by a match holds
    the tag of the match: a [<] followed by the name. *)
Definition onReportedLine (fileContent : string) (m : ComponentMatch.t) : Prop :=
  exists fileLine before after,
    GoStrings.SplitLines fileContent !! Z.to_nat (ComponentMatch.Line m - 1) =
      Some fileLine /\
    fileLine = before +:+ String "<" (ComponentMatch.ComponentName m +:+ after).

(** Every byte of a string is in a class. *)
Fixpoint allBytes (p : ascii -> bool) (s : string) : bool :=
  match s with
  | EmptyString => true
  | String c s' => p c && allBytes p s'
  end.

(** What the tag expressions say of a text read from its first byte: a
    [<], a name made of a byte of the first class and bytes of the second,
    and then the end of the text or a byte of the closing class; [n] bytes
    are matched in all. *)
Definition tagMatches (re : scanner.tagRegex) (s name : string) (n : nat) : Prop :=
  exists d run tail,
    s = String "<" (name +:+ tail) /\ name = String d run /\
    scanner.nameStart re d = true /\ allBytes (scanner.nameRest re) run = true /\
    (tail = EmptyString /\ n = (1 + String.length name)%nat \/
     exists e tail', tail = String e tail' /\ scanner.isTagEnd e = true /\
                     n = (2 + String.length name)%nat).

(** The files [DiscoverFiles] lets through: no directory, not excluded,
    with one of the extensions, and inside an included directory when any
    is given. *)
Definition accepted `{FilepathRel} (os : GOOS) (rootDir : string)
    (filter : FileFilter.t) (call : discovery.walkCall) : bool :=
  negb (discovery.walkIsDir call)
  && negb (discovery.ShouldExcludeFile os (discovery.walkPath call) filter)
  && discovery.hasValidExtension os (discovery.walkPath call)
       (FileFilter.FileExtensions filter)
  && (match FileFilter.IncludeDirectories filter with
      | [] => true
      | dirs => discovery.isInIncludedDirectory os (discovery.walkPath call)
                  rootDir dirs
      end).

(** [filepath.Rel] from the root ["."] on clean relative paths, which it
    returns as they are: an instance to run discovery on such paths. *)
Definition relFromDot : FilepathRel :=
  {| Rel := fun _ targpath => (targpath, None) |}.

(** The calls of [filepath.Walk] on a small tree, in lexical order. *)
Definition sampleWalk : list discovery.walkCall :=
  [ {| discovery.walkPath := "."; discovery.walkIsDir := true;
       discovery.walkErr := None |};
    {| discovery.walkPath := "node_modules/pkg/index.jsx";
       discovery.walkIsDir := false; discovery.walkErr := None |};
    {| discovery.walkPath := "src"; discovery.walkIsDir := true;
       discovery.walkErr := None |};
    {| discovery.walkPath := "src/App.vue"; discovery.walkIsDir := false;
       discovery.walkErr := None |};
    {| discovery.walkPath := "src/Login.tsx"; discovery.walkIsDir := false;
       discovery.walkErr := None |};
    {| discovery.walkPath := "src/Login.test.tsx"; discovery.walkIsDir := false;
       discovery.walkErr := None |};
    {| discovery.walkPath := "src/util.ts"; discovery.walkIsDir := false;
       discovery.walkErr := None |} ].

(** The contents of the two files of that tree the controller keeps. *)
Definition sampleFS : scanner.FileSystem :=
  fun path =>
    if String.eqb path "src/App.vue" then Some fixtures.vueContent
    else if String.eqb path "src/Login.tsx" then Some fixtures.reactContent
    else None.

Definition sampleOptions : CLIOptions.t :=
  {| CLIOptions.ComponentType := "button"; CLIOptions.Directory := ".";
     CLIOptions.Filter := []; CLIOptions.OutputFormat := "terminal" |}.

(** The line of the terminal report for a match, without its newline. *)
Definition matchText (m : ComponentMatch.t) : string :=
  "  " +:+ ComponentMatch.FilePath m +:+ " (line " +:+
  GoPath.formatInt (ComponentMatch.Line m) +:+ "): " +:+
  ComponentMatch.ComponentName m.

(** The terminal report as a reader sees it, line by line; the last line
    is empty since the report ends in a newline. *)
Definition reportLines (result : ScanResult.t) : list string :=
  [ ""; "Component Finder Results - " +:+ ScanResult.ComponentType result;
    GoPath.Repeat "=" 50; "" ]
  ++ (match ScanResult.Matches result with
      | [] => [ "No components found." ]
      | matches => [ "Found components in:"; "" ] ++ map matchText matches
      end)
  ++ [ ""; GoPath.Repeat "-" 50;
       "Total components found: " +:+ GoPath.formatInt (ScanResult.TotalCount result);
       "Files scanned: " +:+ GoPath.formatInt (ScanResult.ScannedFiles result);
       "Scan time: " +:+ GoPath.formatInt (ScanResult.ScanTimeMs result) +:+ "ms";
       "" ].

(** A match with the requested type written into its type field, the
    other three fields as they are. *)
Definition typedAs (requestedType : string) (m : ComponentMatch.t)
    : ComponentMatch.t :=
  {| ComponentMatch.FilePath := ComponentMatch.FilePath m;
     ComponentMatch.Line := ComponentMatch.Line m;
     ComponentMatch.ComponentName := ComponentMatch.ComponentName m;
     ComponentMatch.ComponentType := requestedType |}.

(** What parsing a path produces: the raw matches of the first parser that
    supports it, on the content read; nothing when no parser supports the
    path, when it cannot be read or when the parser fails. *)
Definition rawMatches (s : scanner.ComponentScanner) (fs : scanner.FileSystem)
    (path : string) : list ComponentMatch.t :=
  match find (fun p => scanner.SupportsFile p path) (scanner.parsers s) with
  | None => []
  | Some parser =>
      match fs path with
      | None => []
      | Some content =>
          match scanner.Parse parser content path with
          | (raw, None) => raw
          | (_, Some _) => []
          end
      end
  end.

(** The matches a scan owes for a path: its raw matches that the registry
    accepts for the requested type, each typed as requested. *)
Definition due `{UnicodeTables} (s : scanner.ComponentScanner)
    (fs : scanner.FileSystem) (requestedType path : string)
    : list ComponentMatch.t :=
  map (typedAs requestedType)
      (List.filter
         (fun m => registry.MatchesComponentType (scanner.registry s)
                     (ComponentMatch.ComponentName m) requestedType)
         (rawMatches s fs path)).

(** A Vue file with a template region and, after it, a script region. *)
Definition vueWithScript : string :=
  fixtures.joinLines [ "<template>";
                       "  <div>";
                       "    <q-form />";
                       "  </div>";
                       "</template>";
                       "";
                       "<script setup>";
                       "const count = 1";
                       "const view = <CustomComponent />";
                       "</script>" ].

(** That file in parts: what stands before its script tag, and the
    script region itself, from the end of the line of the tag on. *)
Definition vueBeforeScript : string :=
  fixtures.joinLines [ "<template>";
                       "  <div>";
                       "    <q-form />";
                       "  </div>";
                       "</template>";
                       "";
                       "" ].

Definition vueScriptRegion : string :=
  fixtures.joinLines [ "";
                       "const count = 1";
                       "const view = <CustomComponent />";
                       "" ].

(* ===================================================================== *)
(** * Properties of the library fragment                                 *)
(* ===================================================================== *)

Section GoStringsFacts.
Import GoStrings.
Context `{U : UnicodeTables}.

Lemma byte_of_inj (a b : ascii) : byte_of a = byte_of b -> a = b.
Proof.
  unfold byte_of. intros E.
  rewrite <- (ascii_N_embedding a), <- (ascii_N_embedding b). by rewrite E.
Qed.

Lemma byte_of_lt_256 (a : ascii) : (byte_of a < 256)%N.
Proof. apply N_ascii_bounded. Qed.

Lemma byte_of_lowerByte (c : ascii) :
  byte_of (lowerByte c) =
  if isUpperByte c then (byte_of c + 32)%N else byte_of c.
Proof.
  unfold lowerByte. destruct (isUpperByte c) eqn:E; [|done].
  unfold isUpperByte in E. apply andb_true_iff in E as [_ E2].
  apply N.leb_le in E2. unfold byte_of at 1. apply N_ascii_embedding. lia.
Qed.

(** One step of the byte loop of [EqualFold] agrees with comparing the
    lowered bytes. *)
Lemma fold_byte_step (a b : ascii) :
  ((byte_of b =? byte_of a) ||
   ((65 <=? N.min (byte_of a) (byte_of b)) &&
    (N.min (byte_of a) (byte_of b) <=? 90) &&
    (N.max (byte_of a) (byte_of b) =? N.min (byte_of a) (byte_of b) + 32)))%N
  = Ascii.eqb (lowerByte a) (lowerByte b).
Proof.
  apply eq_true_iff_eq. rewrite Ascii.eqb_eq.
  rewrite orb_true_iff, !andb_true_iff, N.eqb_eq, !N.leb_le, N.eqb_eq.
  split.
  - intros Hc. apply byte_of_inj. rewrite !byte_of_lowerByte.
    unfold isUpperByte.
    destruct Hc as [Hc | [[H1 H2] H3]]; [by rewrite Hc|].
    repeat (case_match; try rewrite andb_true_iff in *;
            try rewrite andb_false_iff in *;
            rewrite ?N.leb_le, ?N.leb_gt in *); lia.
  - intros Hc. apply (f_equal byte_of) in Hc. rewrite !byte_of_lowerByte in Hc.
    unfold isUpperByte in Hc.
    repeat (case_match; try rewrite andb_true_iff in *;
            try rewrite andb_false_iff in *;
            rewrite ?N.leb_le, ?N.leb_gt in *); lia.
Qed.

Lemma lor_lt_RuneSelf (a b : ascii) :
  (byte_of a <? RuneSelf)%N = true -> (byte_of b <? RuneSelf)%N = true ->
  (RuneSelf <=? N.lor (byte_of a) (byte_of b))%N = false.
Proof.
  intros Ha Hb. apply N.ltb_lt in Ha, Hb. apply N.leb_gt.
  unfold RuneSelf in *.
  assert (Hlog : forall n : N, (n < 128)%N <-> n = 0%N \/ (N.log2 n < 7)%N).
  { intros n. destruct (N.eq_dec n 0%N) as [->|Hn]; [split; [auto | lia]|].
    rewrite (N.log2_lt_pow2 n 7) by lia.
    change (2 ^ 7)%N with 128%N. split; [auto | intros [?|?]; [lia|done]]. }
  destruct (N.eq_dec (byte_of a) 0%N) as [Ea|Na].
  { rewrite Ea, N.lor_0_l. done. }
  destruct (N.eq_dec (byte_of b) 0%N) as [Eb|Nb].
  { rewrite Eb, N.lor_0_r. done. }
  apply Hlog. right. rewrite N.log2_lor.
  apply Hlog in Ha as [Ha|Ha]; [lia|]. apply Hlog in Hb as [Hb|Hb]; [lia|]. lia.
Qed.

(** On ASCII text [EqualFold] is equality of the lowered strings: same
    length, bytes equal up to the case of the letters A to Z. *)
Lemma EqualFold_ascii (s t : string) :
  isASCII s = true -> isASCII t = true ->
  EqualFold s t = String.eqb (mapBytes lowerByte s) (mapBytes lowerByte t).
Proof.
  revert t. induction s as [|a s IH]; intros [|b t]; simpl; try done.
  rewrite !andb_true_iff. intros [Ha Hs] [Hb Ht].
  rewrite lor_lt_RuneSelf by done.
  rewrite <- fold_byte_step, IH by done.
  destruct (byte_of b =? byte_of a)%N; simpl; [done|].
  by case_match.
Qed.

Lemma ToLower_ascii (s : string) :
  isASCII s = true -> ToLower s = mapBytes lowerByte s.
Proof.
  unfold ToLower. intros ->. destruct (hasUpper s) eqn:E; [done|].
  induction s as [|c s IH]; simpl in *; [done|].
  apply orb_false_iff in E as [E1 E2].
  rewrite <- IH by done. unfold lowerByte. by rewrite E1.
Qed.

End GoStringsFacts.

(* ===================================================================== *)
(** * The type registry                                                  *)
(* ===================================================================== *)

Section RegistryFacts.
Import GoStrings registry.
Context `{U : UnicodeTables}.

(** With an entry for the type, the loops return true exactly when some
    name of some library group folds to the component name, whatever the
    order in which the groups are visited. *)
Lemma MatchesComponentType_known (r : ComponentMappingRegistry)
    (componentName componentType : string) (mapping : ComponentMapping) :
  GetMapping r componentType = Some mapping ->
  MatchesComponentType r componentName componentType = true <->
  exists library names pattern,
    Patterns mapping !! library = Some names /\ In pattern names /\
    EqualFold componentName pattern = true.
Proof.
  intros Hm. unfold MatchesComponentType. rewrite Hm.
  rewrite existsb_exists. split.
  - intros [[library names] [Hin Hex]].
    apply existsb_exists in Hex as [pattern [Hp Hf]].
    exists library, names, pattern. split_and!; try done.
    apply list_elem_of_In in Hin. by apply elem_of_map_to_list in Hin.
  - intros (library & names & pattern & Hl & Hp & Hf).
    exists (library, names). split.
    + apply list_elem_of_In. by apply elem_of_map_to_list.
    + apply existsb_exists. by exists pattern.
Qed.

Lemma MatchesComponentType_unknown (r : ComponentMappingRegistry)
    (componentName componentType : string) :
  GetMapping r componentType = None ->
  MatchesComponentType r componentName componentType =
  EqualFold componentName componentType.
Proof. intros Hm. unfold MatchesComponentType. by rewrite Hm. Qed.

Lemma mappings_known (k : string) :
  In k knownTypes -> is_Some (mappings NewComponentMappingRegistry !! k).
Proof.
  intros [<-|[<-|[<-|[]]]]; vm_compute; eauto.
Qed.


Lemma mappings_unknown (k : string) :
  ~ In k knownTypes -> mappings NewComponentMappingRegistry !! k = None.
Proof.
  intros Hk. unfold NewComponentMappingRegistry; simpl.
  rewrite !lookup_insert_ne, lookup_empty; [done|..];
    intros <-; apply Hk; unfold knownTypes; simpl; tauto.
Qed.

Lemma mappings_form :
  mappings NewComponentMappingRegistry !! "form" = Some formMapping.
Proof. by vm_compute. Qed.

Lemma mappings_button :
  mappings NewComponentMappingRegistry !! "button" = Some buttonMapping.
Proof. by vm_compute. Qed.

Lemma mappings_dialog :
  mappings NewComponentMappingRegistry !! "dialog" = Some dialogMapping.
Proof. by vm_compute. Qed.

Lemma Patterns_form_list :
  map_to_list (Patterns formMapping) =
  [("material", ["v-form"; "VForm"; "Form"; "MuiForm"]);
   ("quasar", ["q-form"; "QForm"]); ("native", ["form"])].
Proof. by vm_compute. Qed.

Lemma Patterns_button_list :
  map_to_list (Patterns buttonMapping) =
  [("material", ["v-btn"; "VBtn"; "Button"; "MuiButton"]);
   ("quasar", ["q-btn"; "QBtn"]); ("native", ["button"])].
Proof. by vm_compute. Qed.

Lemma Patterns_dialog_list :
  map_to_list (Patterns dialogMapping) =
  [("material", ["v-dialog"; "VDialog"; "Dialog"; "MuiDialog"]);
   ("quasar", ["q-dialog"; "QDialog"]); ("native", ["dialog"])].
Proof. by vm_compute. Qed.

Lemma registeredUnder_entries (r : ComponentMappingRegistry) (k pattern : string)
    (mapping : ComponentMapping) (entries : list (string * list string)) :
  mappings r !! k = Some mapping ->
  map_to_list (Patterns mapping) = entries ->
  registeredUnder r k pattern <-> In pattern (concat (map snd entries)).
Proof.
  intros Hm He. unfold registeredUnder. rewrite Hm. split.
  - intros (mapping' & library & names & [= <-] & Hl & Hp).
    apply elem_of_map_to_list in Hl. rewrite He in Hl.
    apply in_concat. exists names. split; [|done].
    apply in_map_iff. exists (library, names). split; [done|].
    by apply list_elem_of_In.
  - intros Hin. apply in_concat in Hin as (names & Hn & Hp).
    apply in_map_iff in Hn as ([library names'] & <- & Hn).
    exists mapping, library, names'. split_and!; try done.
    apply elem_of_map_to_list. rewrite He. by apply list_elem_of_In.
Qed.

(** The names the registry lists, type by type. *)
Lemma registeredUnder_form (pattern : string) :
  registeredUnder NewComponentMappingRegistry "form" pattern <->
  In pattern ["v-form"; "VForm"; "Form"; "MuiForm"; "q-form"; "QForm"; "form"].
Proof. apply (registeredUnder_entries _ _ _ _ _ mappings_form Patterns_form_list). Qed.

Lemma registeredUnder_button (pattern : string) :
  registeredUnder NewComponentMappingRegistry "button" pattern <->
  In pattern ["v-btn"; "VBtn"; "Button"; "MuiButton"; "q-btn"; "QBtn"; "button"].
Proof. apply (registeredUnder_entries _ _ _ _ _ mappings_button Patterns_button_list). Qed.

Lemma registeredUnder_dialog (pattern : string) :
  registeredUnder NewComponentMappingRegistry "dialog" pattern <->
  In pattern ["v-dialog"; "VDialog"; "Dialog"; "MuiDialog"; "q-dialog"; "QDialog"; "dialog"].
Proof. apply (registeredUnder_entries _ _ _ _ _ mappings_dialog Patterns_dialog_list). Qed.

(** Every registered name is ASCII. *)
Lemma registeredUnder_ascii (k pattern : string) :
  In k knownTypes ->
  registeredUnder NewComponentMappingRegistry k pattern ->
  isASCII pattern = true.
Proof.
  intros [<-|[<-|[<-|[]]]] Hr;
    [apply registeredUnder_form in Hr | apply registeredUnder_button in Hr
    | apply registeredUnder_dialog in Hr];
    simpl in Hr; repeat (destruct Hr as [<-|Hr]; [reflexivity|]); done.
Qed.

End RegistryFacts.

Section RegistryClaims.
Import GoStrings registry.
Context `{U : UnicodeTables}.

(** C2.  For a requested type whose lowercase form is "form", "button" or
    "dialog", [MatchesComponentType] on the registry of
    [NewComponentMappingRegistry] is true exactly when [EqualFold] equates
    the element name with one of the names registered under that type's
    library groups (seven names per type, listed below).  The match is on
    the whole name: for an ASCII element name it is equality of the two
    names once the letters A to Z are lowered.  "Q-FORM" is classified as a
    form, "q-form-extended" is not. *)
Theorem classify_known_type :
  (forall componentName componentType : string,
     In (ToLower componentType) knownTypes ->
     (MatchesComponentType NewComponentMappingRegistry componentName componentType = true <->
      exists pattern,
        registeredUnder NewComponentMappingRegistry (ToLower componentType) pattern /\
        EqualFold componentName pattern = true) /\
     (isASCII componentName = true ->
      (MatchesComponentType NewComponentMappingRegistry componentName componentType = true <->
       exists pattern,
         registeredUnder NewComponentMappingRegistry (ToLower componentType) pattern /\
         mapBytes lowerByte componentName = mapBytes lowerByte pattern))) /\
  (forall pattern : string,
     (registeredUnder NewComponentMappingRegistry "form" pattern <->
      In pattern ["v-form"; "VForm"; "Form"; "MuiForm"; "q-form"; "QForm"; "form"]) /\
     (registeredUnder NewComponentMappingRegistry "button" pattern <->
      In pattern ["v-btn"; "VBtn"; "Button"; "MuiButton"; "q-btn"; "QBtn"; "button"]) /\
     (registeredUnder NewComponentMappingRegistry "dialog" pattern <->
      In pattern ["v-dialog"; "VDialog"; "Dialog"; "MuiDialog"; "q-dialog";
                  "QDialog"; "dialog"])) /\
  MatchesComponentType NewComponentMappingRegistry "Q-FORM" "form" = true /\
  MatchesComponentType NewComponentMappingRegistry "q-form-extended" "form" = false.
Proof.
  split; [|split; [|split; by vm_compute]]; cycle 1.
  { intros pattern. split_and!;
      [apply registeredUnder_form | apply registeredUnder_button
      | apply registeredUnder_dialog]. }
  intros componentName componentType Hk.
  assert (Hgen : MatchesComponentType NewComponentMappingRegistry componentName componentType = true <->
      exists pattern,
        registeredUnder NewComponentMappingRegistry (ToLower componentType) pattern /\
        EqualFold componentName pattern = true).
  { destruct (mappings_known _ Hk) as [mapping Hm].
    rewrite (MatchesComponentType_known _ _ _ mapping Hm).
    unfold registeredUnder. split.
    - intros (library & names & pattern & Hl & Hp & Hf).
      exists pattern. split; [|done]. by exists mapping, library, names.
    - intros (pattern & (mapping' & library & names & Hm' & Hl & Hp) & Hf).
      rewrite Hm in Hm'. injection Hm' as <-.
      by exists library, names, pattern. }
  split; [exact Hgen|].
  intros Hascii. rewrite Hgen.
  split; intros (pattern & Hr & Hf); exists pattern; (split; [done|]);
    pose proof (registeredUnder_ascii _ _ Hk Hr) as Hp;
    rewrite (EqualFold_ascii _ _ Hascii Hp) in *;
    by apply String.eqb_eq.
Qed.

(** C3.  For a requested type whose lowercase form is none of "form",
    "button", "dialog", [MatchesComponentType] is [EqualFold] of the element
    name and the requested type itself; for ASCII strings that is equality
    of the two once the letters A to Z are lowered.  "Widget" and "widget"
    are classified as "Widget", "OtherWidget" is not. *)
Theorem classify_unknown_type :
  (forall componentName componentType : string,
     ~ In (ToLower componentType) knownTypes ->
     MatchesComponentType NewComponentMappingRegistry componentName componentType =
     EqualFold componentName componentType /\
     (isASCII componentName = true -> isASCII componentType = true ->
      (MatchesComponentType NewComponentMappingRegistry componentName componentType
         = true <->
       mapBytes lowerByte componentName = mapBytes lowerByte componentType))) /\
  MatchesComponentType NewComponentMappingRegistry "Widget" "Widget" = true /\
  MatchesComponentType NewComponentMappingRegistry "widget" "Widget" = true /\
  MatchesComponentType NewComponentMappingRegistry "OtherWidget" "Widget" = false.
Proof.
  split; [|split_and!; by vm_compute].
  intros componentName componentType Hk.
  assert (Hfold : MatchesComponentType NewComponentMappingRegistry
                    componentName componentType =
                  EqualFold componentName componentType).
  { apply MatchesComponentType_unknown. unfold GetMapping.
    by apply mappings_unknown. }
  split; [exact Hfold|].
  intros Hn Ht. rewrite Hfold, (EqualFold_ascii _ _ Hn Ht). apply String.eqb_eq.
Qed.

End RegistryClaims.

Lemma classify_known_type_witness :
  In (@GoStrings.ToLower asciiOnly "FoRm") knownTypes /\
  (@registry.MatchesComponentType asciiOnly registry.NewComponentMappingRegistry
     "MUIFORM" "FoRm" = true <->
   exists pattern,
     registeredUnder registry.NewComponentMappingRegistry
       (@GoStrings.ToLower asciiOnly "FoRm") pattern /\
     @GoStrings.EqualFold asciiOnly "MUIFORM" pattern = true).
Proof.
  split; [vm_compute; tauto|].
  apply (proj1 (@classify_known_type asciiOnly) "MUIFORM" "FoRm").
  vm_compute; tauto.
Defined.

Lemma classify_unknown_type_witness :
  ~ In (@GoStrings.ToLower asciiOnly "Widget") knownTypes /\
  @registry.MatchesComponentType asciiOnly registry.NewComponentMappingRegistry
    "WIDGET" "Widget" = true.
Proof.
  assert (Hk : ~ In (@GoStrings.ToLower asciiOnly "Widget") knownTypes).
  { vm_compute. intros [H|[H|[H|[]]]]; discriminate H. }
  split; [exact Hk|].
  rewrite (proj1 (proj1 (@classify_unknown_type asciiOnly) "WIDGET" "Widget" Hk)).
  reflexivity.
Defined.

(* ===================================================================== *)
(** * The line loop of the parsers                                       *)
(* ===================================================================== *)

Section LineLoop.
Import GoStrings scanner.
Variables (re : tagRegex) (skipName : string -> bool).
Variables (filePath : string) (baseLineNumber : Z).

Lemma seenAt_insert (seen : gmap string (gmap nat bool))
    (name n : string) (i j : nat) :
  seenAt (<[name := <[i := true]> (default ∅ (seen !! name))]> seen) n j =
  seenAt seen n j || (bool_decide (n = name) && bool_decide (j = i)).
Proof.
  unfold seenAt. destruct (decide (n = name)) as [->|Hn].
  - rewrite lookup_insert_eq. simpl.
    destruct (decide (j = i)) as [->|Hj].
    + rewrite lookup_insert_eq, !bool_decide_eq_true_2 by done. simpl.
      by rewrite orb_true_r.
    + rewrite lookup_insert_ne by done.
      rewrite (bool_decide_eq_false_2 (j = i)) by done.
      by rewrite andb_false_r, orb_false_r.
  - rewrite lookup_insert_ne by done.
    rewrite (bool_decide_eq_false_2 (n = name)) by done.
    by rewrite orb_false_r.
Qed.

Lemma seenAt_make (seen : gmap string (gmap nat bool)) (name n : string) (j : nat) :
  seen !! name = None ->
  seenAt (<[name := ∅]> seen) n j = seenAt seen n j.
Proof.
  intros Hnone. unfold seenAt. destruct (decide (n = name)) as [->|Hn].
  - by rewrite lookup_insert_eq, Hnone.
  - by rewrite lookup_insert_ne.
Qed.

(** One turn of the inner loop, read through [seenAt]. *)
Lemma visitMatch_spec (lineIdx : nat) (seen : gmap string (gmap nat bool))
    (matches : list ComponentMatch.t) (name : string) :
  let keep := negb (skipName name) && negb (seenAt seen name lineIdx) in
  let st' := visitMatch skipName filePath baseLineNumber lineIdx (seen, matches) name in
  st'.2 = matches ++
          (if keep then [matchOn filePath baseLineNumber lineIdx name] else []) /\
  forall n j, seenAt st'.1 n j =
              seenAt seen n j ||
              (keep && bool_decide (n = name) && bool_decide (j = lineIdx)).
Proof.
  simpl. unfold visitMatch. destruct (skipName name); simpl.
  { split; [by rewrite app_nil_r|]. intros. by rewrite orb_false_r. }
  set (seen1 := match seen !! name with
                | Some _ => seen
                | None => <[name:=∅]> seen
                end).
  assert (H1 : forall n j, seenAt seen1 n j = seenAt seen n j).
  { intros n j. subst seen1. destruct (seen !! name) eqn:E; [done|].
    by apply seenAt_make. }
  rewrite H1. destruct (seenAt seen name lineIdx) eqn:Es; simpl.
  - split; [by rewrite app_nil_r|]. intros. by rewrite H1, orb_false_r.
  - split; [done|]. intros n j. by rewrite seenAt_insert, H1.
Qed.

(** The inner loop over the names found on one line. *)
Lemma visitMatch_fold (lineIdx : nat) (names prev : list string)
    (seen : gmap string (gmap nat bool)) (matches : list ComponentMatch.t) :
  (forall n, seenAt seen n lineIdx = true <-> n ∈ prev) ->
  let st' := fold_left (visitMatch skipName filePath baseLineNumber lineIdx)
                       names (seen, matches) in
  st'.2 = matches ++ map (matchOn filePath baseLineNumber lineIdx)
                         (keepFirst skipName prev names) /\
  forall n j, j <> lineIdx -> seenAt st'.1 n j = seenAt seen n j.
Proof.
  revert prev seen matches.
  induction names as [|name names IH]; intros prev seen matches Hprev.
  { simpl. split; [by rewrite app_nil_r|done]. }
  cbn [fold_left].
  pose proof (visitMatch_spec lineIdx seen matches name) as Hv.
  cbv zeta in Hv.
  destruct (visitMatch skipName filePath baseLineNumber lineIdx (seen, matches) name)
    as [seen' matches'] eqn:Ev.
  destruct Hv as [Hm Hs]. cbn [fst snd] in Hm, Hs. subst matches'.
  assert (Hseen : seenAt seen name lineIdx = bool_decide (name ∈ prev)).
  { apply eq_true_iff_eq. by rewrite bool_decide_eq_true. }
  rewrite Hseen in Hs |- *.
  set (keep := negb (skipName name) && negb (bool_decide (name ∈ prev))) in *.
  destruct (IH (if keep then name :: prev else prev) seen'
               (matches ++ (if keep then [matchOn filePath baseLineNumber lineIdx name]
                            else [])))
    as [IH1 IH2].
  { intros n. rewrite Hs, orb_true_iff, !andb_true_iff, !bool_decide_eq_true, Hprev.
    destruct keep; [rewrite elem_of_cons|]; intuition congruence. }
  split.
  - rewrite IH1, <- app_assoc. f_equal.
    subst keep. simpl. destruct (skipName name); simpl; [done|].
    by destruct (bool_decide (name ∈ prev)).
  - intros n j Hj. rewrite IH2, Hs by done.
    rewrite (bool_decide_eq_false_2 (j = lineIdx)) by done.
    by rewrite andb_false_r, orb_false_r.
Qed.

(** The outer loop. *)
Lemma visitLines_spec (lines : list string) (lineIdx : nat)
    (seen : gmap string (gmap nat bool)) (matches : list ComponentMatch.t) :
  (forall n j, (lineIdx <= j)%nat -> seenAt seen n j = false) ->
  (visitLines re skipName filePath baseLineNumber lineIdx lines (seen, matches)).2 =
  matches ++ linesMatches re skipName filePath baseLineNumber lineIdx lines.
Proof.
  revert lineIdx seen matches.
  induction lines as [|line lines IH]; intros lineIdx seen matches Hfresh.
  { simpl. by rewrite app_nil_r. }
  cbn [visitLines linesMatches].
  pose proof (visitMatch_fold lineIdx (FindAllStringSubmatch re line) [] seen matches)
    as Hv.
  cbv zeta in Hv.
  destruct (fold_left _ (FindAllStringSubmatch re line) (seen, matches))
    as [seen' matches'] eqn:Ef.
  destruct Hv as [Hm Hs].
  { intros n. rewrite Hfresh by lia. split; [done|]. by intros ?%not_elem_of_nil. }
  cbn [fst snd] in Hm, Hs. subst matches'.
  rewrite IH, <- app_assoc; [done|].
  intros n j Hj. rewrite Hs by lia. apply Hfresh. lia.
Qed.

(** A pass is the line-by-line list of first occurrences. *)
Lemma parseWith_spec (content : string) :
  parseWith re skipName content filePath baseLineNumber =
  linesMatches re skipName filePath baseLineNumber 0 (SplitLines content).
Proof.
  unfold parseWith. rewrite visitLines_spec; [done|].
  intros n j _. unfold seenAt. by rewrite lookup_empty.
Qed.

End LineLoop.

Section PassFacts.
Import GoStrings scanner.
Variables (re : tagRegex) (skipName : string -> bool).
Variables (filePath : string) (baseLineNumber : Z).

Lemma keepFirst_elem (prev names : list string) (n : string) :
  n ∈ keepFirst skipName prev names <->
  n ∈ names /\ skipName n = false /\ n ∉ prev.
Proof.
  revert prev. induction names as [|name names IH]; intros prev; simpl.
  { split; [by intros ?%not_elem_of_nil | by intros [?%not_elem_of_nil _]]. }
  destruct (skipName name) eqn:Esk.
  { rewrite IH, elem_of_cons. split; [tauto|].
    intros [[->|?] [? ?]]; [congruence | tauto]. }
  case_bool_decide as Hin.
  { rewrite IH, elem_of_cons. split; [tauto|].
    intros [[->|?] [? ?]]; tauto. }
  rewrite !elem_of_cons, IH, elem_of_cons. split.
  - intros [->|(? & ? & ?)]; tauto.
  - intros [[->|?] [? ?]]; [tauto|].
    destruct (decide (n = name)); tauto.
Qed.

Lemma keepFirst_NoDup (prev names : list string) :
  NoDup (keepFirst skipName prev names).
Proof.
  revert prev. induction names as [|name names IH]; intros prev; simpl.
  { constructor. }
  destruct (skipName name); [apply IH|].
  case_bool_decide; [apply IH|].
  constructor; [|apply IH].
  rewrite keepFirst_elem, elem_of_cons. tauto.
Qed.

Lemma matchesAt_app (a b : list ComponentMatch.t) (line : Z) (n : string) :
  matchesAt (a ++ b) line n = matchesAt a line n ++ matchesAt b line n.
Proof. apply filter_app. Qed.

Lemma matchesAt_elem (ms : list ComponentMatch.t) (line : Z) (n : string)
    (m : ComponentMatch.t) :
  m ∈ matchesAt ms line n <->
  m ∈ ms /\ ComponentMatch.Line m = line /\ ComponentMatch.ComponentName m = n.
Proof. unfold matchesAt. rewrite list_elem_of_filter. tauto. Qed.

(** Among names without repetition, the matches of a line for a name. *)
Lemma matchesAt_matchOn (names : list string) (i k : nat) (n : string) :
  NoDup names ->
  matchesAt (map (matchOn filePath baseLineNumber i) names)
            (baseLineNumber + Z.of_nat k) n =
  if bool_decide (i = k /\ n ∈ names)
  then [matchOn filePath baseLineNumber k n] else [].
Proof.
  unfold matchesAt. induction names as [|name names IH]; intros Hnd.
  { simpl. case_bool_decide as H; [|done]. by destruct H as [_ ?%not_elem_of_nil]. }
  apply NoDup_cons in Hnd as [Hnotin Hnd].
  cbn [map]. rewrite filter_cons.
  destruct (decide (ComponentMatch.Line (matchOn filePath baseLineNumber i name) =
                    baseLineNumber + Z.of_nat k /\
                    ComponentMatch.ComponentName (matchOn filePath baseLineNumber i name) = n))
    as [Hhd|Hhd]; cbn [matchOn ComponentMatch.Line ComponentMatch.ComponentName] in Hhd.
  - destruct Hhd as [Hl ->]. assert (i = k) as -> by lia.
    rewrite IH by done.
    rewrite (bool_decide_eq_false_2 (k = k /\ n ∈ names)) by tauto.
    rewrite bool_decide_eq_true_2; [done|]. split; [done|]. apply elem_of_cons; tauto.
  - rewrite IH by done.
    apply (f_equal (fun b : bool => if b then _ else _)).
    apply bool_decide_ext. rewrite elem_of_cons. split; [tauto|].
    intros [-> [->|?]]; [|tauto]. exfalso. apply Hhd. done.
Qed.

(** Lines from [lineIdx] on report nothing at an earlier line. *)
Lemma matchesAt_later (lines : list string) (lineIdx k : nat) (n : string) :
  (k < lineIdx)%nat ->
  matchesAt (linesMatches re skipName filePath baseLineNumber lineIdx lines)
            (baseLineNumber + Z.of_nat k) n = [].
Proof.
  revert lineIdx. induction lines as [|line lines IH]; intros lineIdx Hk; [done|].
  cbn [linesMatches]. rewrite matchesAt_app, IH by lia.
  rewrite matchesAt_matchOn by apply keepFirst_NoDup.
  rewrite bool_decide_eq_false_2; [done|lia].
Qed.

(** Per line and name: one match when the name is found on the line and
    not skipped, none otherwise. *)
Lemma matchesAt_linesMatches (lines : list string) (lineIdx k : nat)
    (line n : string) :
  lines !! k = Some line ->
  matchesAt (linesMatches re skipName filePath baseLineNumber lineIdx lines)
            (baseLineNumber + Z.of_nat (lineIdx + k)) n =
  if bool_decide (n ∈ FindAllStringSubmatch re line) && negb (skipName n)
  then [matchOn filePath baseLineNumber (lineIdx + k) n] else [].
Proof.
  revert lineIdx k. induction lines as [|l lines IH]; intros lineIdx k Hk; [done|].
  cbn [linesMatches]. rewrite matchesAt_app.
  rewrite matchesAt_matchOn by apply keepFirst_NoDup.
  destruct k as [|k]; simpl in Hk.
  - injection Hk as ->. rewrite Nat.add_0_r.
    rewrite matchesAt_later, app_nil_r by lia.
    apply (f_equal (fun b : bool => if b then _ else _)).
    apply eq_true_iff_eq.
    rewrite andb_true_iff, negb_true_iff, !bool_decide_eq_true, keepFirst_elem.
    split; [|intros [? ?]; split_and!; [done..|apply not_elem_of_nil]]. tauto.
  - rewrite bool_decide_eq_false_2 by lia. simpl.
    replace (lineIdx + S k)%nat with (S lineIdx + k)%nat by lia.
    by apply IH.
Qed.

(** Every match comes from a line of the text. *)
Lemma linesMatches_elem (lines : list string) (lineIdx : nat) (m : ComponentMatch.t) :
  m ∈ linesMatches re skipName filePath baseLineNumber lineIdx lines <->
  exists k line n,
    lines !! k = Some line /\ n ∈ FindAllStringSubmatch re line /\
    skipName n = false /\ m = matchOn filePath baseLineNumber (lineIdx + k) n.
Proof.
  revert lineIdx. induction lines as [|l lines IH]; intros lineIdx.
  { simpl. split; [by intros ?%not_elem_of_nil | by intros (? & ? & ? & ? & _)]. }
  cbn [linesMatches]. rewrite elem_of_app, list_elem_of_fmap, IH. split.
  - intros [(n & -> & Hn)|(k & line & n & Hk & Hn & Hs & ->)].
    + apply keepFirst_elem in Hn as (Hn & Hs & _).
      exists 0%nat, l, n. rewrite Nat.add_0_r. done.
    + exists (S k), line, n. split_and!; try done. f_equal; lia.
  - intros (k & line & n & Hk & Hn & Hs & ->). destruct k as [|k]; simpl in Hk.
    + injection Hk as ->. left. exists n. rewrite Nat.add_0_r. split; [done|].
      apply keepFirst_elem. split_and!; [done..|apply not_elem_of_nil].
    + right. exists k, line, n. split_and!; try done. f_equal; lia.
Qed.

End PassFacts.

(* ===================================================================== *)
(** * The tag expressions and the denylist                               *)
(* ===================================================================== *)

Section RegexFacts.
Import GoStrings scanner.

Lemma append_cons (c : ascii) (a b : string) :
  String c a +:+ b = String c (a +:+ b).
Proof. reflexivity. Qed.

Lemma append_nil_l (a : string) : EmptyString +:+ a = a.
Proof. reflexivity. Qed.

Lemma span_app (p : ascii -> bool) (s run tl : string) :
  span p s = (run, tl) -> s = run +:+ tl.
Proof.
  revert run tl. induction s as [|c s IH]; intros run tl; simpl.
  { by intros [= <- <-]. }
  destruct (p c); [|by intros [= <- <-]].
  destruct (span p s) as [run' tl'] eqn:E. intros [= <- <-].
  rewrite append_cons. f_equal. by apply IH.
Qed.

(** A match starts with [<] and the name, and the name starts with a byte
    of the first class. *)
Lemma matchTag_shape (re : tagRegex) (s name : string) (n : nat) :
  matchTag re s = Some (name, n) ->
  exists d run tl,
    name = String d run /\ nameStart re d = true /\
    s = String "<" (name +:+ tl).
Proof.
  unfold matchTag. destruct s as [|c [|d s'']]; try done.
  destruct (Ascii.eqb c "<" && nameStart re d) eqn:E; [|done].
  apply andb_true_iff in E as [Ec Ed]. apply Ascii.eqb_eq in Ec as ->.
  destruct (span (nameRest re) s'') as [run tl] eqn:Es.
  apply span_app in Es as ->.
  intros Hm. exists d, run, tl.
  destruct tl as [|e tl']; [|destruct (isTagEnd e); [|done]];
    injection Hm as <- <-; done.
Qed.

Lemma findAllFrom_elem (re : tagRegex) (skip : nat) (s name : string) :
  name ∈ findAllFrom re skip s ->
  exists before s' n, s = before +:+ s' /\ matchTag re s' = Some (name, n).
Proof.
  revert skip. induction s as [|c s IH]; intros skip; [by intros ?%not_elem_of_nil|].
  cbn [findAllFrom].
  assert (Hrec : forall k, name ∈ findAllFrom re k s ->
            exists before s' n, String c s = before +:+ s' /\
                                matchTag re s' = Some (name, n)).
  { intros k (before & s' & n & -> & Hm)%IH. by exists (String c before), s', n. }
  destruct skip as [|k]; [|apply Hrec].
  destruct (matchTag re (String c s)) as [[name' n]|] eqn:Em; [|apply Hrec].
  rewrite elem_of_cons. intros [->|Hin]; [|by eapply Hrec].
  by exists EmptyString, (String c s), n.
Qed.

(** Every name the expression captures on a line stands on that line right
    after a [<], and starts with a byte of the first class. *)
Lemma FindAllStringSubmatch_elem (re : tagRegex) (line name : string) :
  name ∈ FindAllStringSubmatch re line ->
  exists d run before after,
    name = String d run /\ nameStart re d = true /\
    line = before +:+ String "<" (name +:+ after).
Proof.
  intros (before & s' & n & -> & Hm)%findAllFrom_elem.
  apply matchTag_shape in Hm as (d & run & tl & -> & Hd & ->).
  by exists d, run, before, tl.
Qed.

Context `{U : UnicodeTables}.

Lemma htmlTags_lookup (t : string) :
  default false (htmlTags !! t) = true -> In t htmlTagNames.
Proof.
  destruct (htmlTags !! t) as [b|] eqn:E; [|done].
  intros _. unfold htmlTags in E.
  apply elem_of_list_to_map_2, list_elem_of_fmap in E as (name & [= -> ->] & Hin).
  by apply list_elem_of_In.
Qed.

Lemma isHTMLTag_denylist_all :
  forallb isHTMLTag htmlTagNames = true.
Proof. by vm_compute. Qed.

(** [isHTMLTag] is membership in the list of names, byte for byte. *)
Lemma isHTMLTag_iff (tagName : string) :
  isHTMLTag tagName = true <-> In tagName htmlTagNames.
Proof.
  split.
  - unfold isHTMLTag. intros [He Hl]%andb_true_iff.
    apply String.eqb_eq in He. rewrite He in Hl. by apply htmlTags_lookup.
  - intros Hin. by apply (proj1 (forallb_forall _ _) isHTMLTag_denylist_all).
Qed.

Lemma denylist_no_upper_start :
  forallb (fun t => match t with
                    | String d _ => negb (isUpperByte d)
                    | EmptyString => true
                    end) htmlTagNames = true.
Proof. by vm_compute. Qed.

(** No name of the denylist starts with an uppercase letter. *)
Lemma upper_start_not_denylisted (d : ascii) (run : string) :
  isUpperByte d = true -> ~ In (String d run) htmlTagNames.
Proof.
  intros Hd Hin.
  apply (proj1 (forallb_forall _ _) denylist_no_upper_start) in Hin.
  simpl in Hin. by rewrite Hd in Hin.
Qed.

End RegexFacts.

(* ===================================================================== *)
(** * The passes of the parsers                                          *)
(* ===================================================================== *)

Section PassClaims.
Import GoStrings scanner.
Context `{U : UnicodeTables}.

Lemma parseWith_matchesAt (re : tagRegex) (skipName : string -> bool)
    (content filePath : string) (baseLineNumber : Z) (k : nat) (line name : string) :
  SplitLines content !! k = Some line ->
  matchesAt (parseWith re skipName content filePath baseLineNumber)
            (baseLineNumber + Z.of_nat k) name =
  if bool_decide (name ∈ FindAllStringSubmatch re line) && negb (skipName name)
  then [matchOn filePath baseLineNumber k name] else [].
Proof.
  intros Hk. rewrite parseWith_spec.
  exact (matchesAt_linesMatches re skipName filePath baseLineNumber
           (SplitLines content) 0 k line name Hk).
Qed.

Lemma parseWith_elem (re : tagRegex) (skipName : string -> bool)
    (content filePath : string) (baseLineNumber : Z) (m : ComponentMatch.t) :
  m ∈ parseWith re skipName content filePath baseLineNumber <->
  exists k line name,
    SplitLines content !! k = Some line /\
    name ∈ FindAllStringSubmatch re line /\ skipName name = false /\
    m = matchOn filePath baseLineNumber k name.
Proof. rewrite parseWith_spec. apply linesMatches_elem. Qed.

Lemma matchOn_inj (filePath : string) (baseLineNumber : Z) (k k' : nat)
    (name name' : string) :
  matchOn filePath baseLineNumber k name = matchOn filePath baseLineNumber k' name' ->
  k = k' /\ name = name'.
Proof. unfold matchOn. intros [= Hl Hn]. split; [lia|done]. Qed.

Lemma parseWith_reports (re : tagRegex) (skipName : string -> bool)
    (content filePath : string) (baseLineNumber : Z) (k : nat) (line name : string) :
  SplitLines content !! k = Some line ->
  name ∈ FindAllStringSubmatch re line ->
  matchOn filePath baseLineNumber k name ∈
    parseWith re skipName content filePath baseLineNumber <->
  skipName name = false.
Proof.
  intros Hk Hn. rewrite parseWith_elem. split.
  - intros (k' & line' & name' & _ & _ & Hs & [-> ->]%matchOn_inj). done.
  - intros Hs. by exists k, line, name.
Qed.

(** C5.  In each of the three passes, for every line of the scanned text and
    every name, the matches reported for that name at that line are exactly
    one when the expression finds the name on the line (and, in the template
    pass, the name is not an HTML tag), and none otherwise: a name found
    twice on a line is reported once for it, a name found on two lines is
    reported for both, and different names found on one line are all
    reported. *)
Theorem one_match_per_name_and_line :
  (forall (content filePath : string) (base : Z) (k : nat) (line name : string),
     SplitLines content !! k = Some line ->
     matchesAt (parseTemplateComponents content filePath base)
               (base + Z.of_nat k) name =
     if bool_decide (name ∈ FindAllStringSubmatch templateRegex line)
        && negb (isHTMLTag name)
     then [matchOn filePath base k name] else []) /\
  (forall (content filePath : string) (base : Z) (k : nat) (line name : string),
     SplitLines content !! k = Some line ->
     matchesAt (parseJSXComponents content filePath base)
               (base + Z.of_nat k) name =
     if bool_decide (name ∈ FindAllStringSubmatch jsxRegex line)
     then [matchOn filePath base k name] else []) /\
  (forall (content filePath : string) (base : Z) (k : nat) (line name : string),
     SplitLines content !! k = Some line ->
     matchesAt (parseReactJSXComponents content filePath base)
               (base + Z.of_nat k) name =
     if bool_decide (name ∈ FindAllStringSubmatch jsxRegex line)
     then [matchOn filePath base k name] else []) /\
  parseReactJSXComponents "<Foo/><Foo></Foo>" "a.jsx" 1 =
    [matchOn "a.jsx" 1 0 "Foo"] /\
  parseReactJSXComponents ("<Foo/>" +:+ String newline "<Foo/>") "a.jsx" 1 =
    [matchOn "a.jsx" 1 0 "Foo"; matchOn "a.jsx" 1 1 "Foo"] /\
  parseReactJSXComponents "<Foo/><Bar/><Foo/>" "a.jsx" 1 =
    [matchOn "a.jsx" 1 0 "Foo"; matchOn "a.jsx" 1 0 "Bar"] /\
  parseJSXComponents "<Foo/><Bar/><Foo/>" "a.vue" 7 =
    [matchOn "a.vue" 7 0 "Foo"; matchOn "a.vue" 7 0 "Bar"] /\
  parseTemplateComponents
    ("<q-btn/><q-btn/><q-form>" +:+ String newline "<q-btn>") "a.vue" 3 =
    [matchOn "a.vue" 3 0 "q-btn"; matchOn "a.vue" 3 0 "q-form";
     matchOn "a.vue" 3 1 "q-btn"].
Proof.
  refine (conj _ (conj _ (conj _ _))).
  - intros. by apply parseWith_matchesAt.
  - intros. unfold parseJSXComponents.
    erewrite parseWith_matchesAt by done. by rewrite andb_true_r.
  - intros. unfold parseReactJSXComponents.
    erewrite parseWith_matchesAt by done. by rewrite andb_true_r.
  - split_and!; by vm_compute.
Qed.

(** C4.  The template pass skips a name exactly when it is, byte for byte,
    one of the names of the denylist: no match it reports bears such a
    name, whatever follows the name in the tag; a name the expression finds
    on a line that is not in the list is reported for that line.  A name
    that differs from its lowercase form is never skipped: "Div" is
    reported, "div" is not. *)
Theorem template_denylist_exact :
  (forall tagName : string,
     isHTMLTag tagName = true <-> In tagName htmlTagNames) /\
  (forall (content filePath : string) (base : Z) (m : ComponentMatch.t),
     In m (parseTemplateComponents content filePath base) ->
     ~ In (ComponentMatch.ComponentName m) htmlTagNames) /\
  (forall (content filePath : string) (base : Z) (k : nat) (line name : string),
     SplitLines content !! k = Some line ->
     In name (FindAllStringSubmatch templateRegex line) ->
     (In (matchOn filePath base k name)
         (parseTemplateComponents content filePath base) <->
      ~ In name htmlTagNames)) /\
  (forall tagName : string,
     ToLower tagName <> tagName ->
     isHTMLTag tagName = false /\ ~ In tagName htmlTagNames) /\
  parseTemplateComponents "<Div><div><div class=x /><div/><DIV>" "a.vue" 1 =
    [matchOn "a.vue" 1 0 "Div"; matchOn "a.vue" 1 0 "DIV"] /\
  parseTemplateComponents "<form action=x><button/><dialog open></dialog>" "a.vue" 1 = [].
Proof.
  refine (conj _ (conj _ (conj _ (conj _ _)))); [| | | |split; by vm_compute].
  - apply isHTMLTag_iff.
  - intros content filePath base m Hin Hdeny.
    apply list_elem_of_In, parseWith_elem in Hin
      as (k & line & name & _ & _ & Hs & ->).
    apply isHTMLTag_iff in Hdeny. simpl in Hdeny. congruence.
  - intros content filePath base k line name Hk Hn.
    rewrite <- list_elem_of_In. unfold parseTemplateComponents.
    rewrite (parseWith_reports _ _ _ _ _ k line name Hk) by by apply list_elem_of_In.
    rewrite <- isHTMLTag_iff. by destruct (isHTMLTag name).
  - intros tagName Hne.
    assert (Hf : isHTMLTag tagName = false).
    { unfold isHTMLTag. apply andb_false_iff. left. by apply String.eqb_neq. }
    split; [done|]. rewrite <- isHTMLTag_iff. congruence.
Qed.

End PassClaims.

Lemma one_match_per_name_and_line_witness :
  GoStrings.SplitLines "<Foo/><Foo/>" !! 0%nat = Some "<Foo/><Foo/>" /\
  matchesAt (scanner.parseReactJSXComponents "<Foo/><Foo/>" "a.jsx" 1)
            (1 + Z.of_nat 0) "Foo" =
  if bool_decide ("Foo" ∈ scanner.FindAllStringSubmatch scanner.jsxRegex "<Foo/><Foo/>")
  then [matchOn "a.jsx" 1 0 "Foo"] else [].
Proof.
  split; [reflexivity|].
  apply (proj1 (proj2 (proj2 (@one_match_per_name_and_line asciiOnly)))).
  reflexivity.
Defined.

Lemma template_denylist_exact_witness :
  GoStrings.SplitLines "<div><q-form>" !! 0%nat = Some "<div><q-form>" /\
  In "q-form" (scanner.FindAllStringSubmatch scanner.templateRegex "<div><q-form>") /\
  (In (matchOn "a.vue" 1 0 "q-form")
      (@scanner.parseTemplateComponents asciiOnly "<div><q-form>" "a.vue" 1) <->
   ~ In "q-form" scanner.htmlTagNames).
Proof.
  assert (H1 : GoStrings.SplitLines "<div><q-form>" !! 0%nat = Some "<div><q-form>")
    by reflexivity.
  assert (H2 : In "q-form"
                 (scanner.FindAllStringSubmatch scanner.templateRegex "<div><q-form>"))
    by (vm_compute; tauto).
  split; [exact H1|]. split; [exact H2|].
  exact (proj1 (proj2 (proj2 (@template_denylist_exact asciiOnly)))
           "<div><q-form>" "a.vue" 1 0%nat "<div><q-form>" "q-form" H1 H2).
Defined.

(* ===================================================================== *)
(** * The scanner                                                        *)
(* ===================================================================== *)

Section ScannerFacts.
Import GoStrings scanner.
Context `{U : UnicodeTables}.
Variables (s : ComponentScanner) (fs : FileSystem) (componentType : string).

Lemma filterByComponentType_fold (matches acc : list ComponentMatch.t) :
  fold_left
    (fun filtered m =>
       if registry.MatchesComponentType (registry s)
            (ComponentMatch.ComponentName m) componentType
       then filtered ++ [withComponentType componentType m]
       else filtered)
    matches acc =
  acc ++ map (withComponentType componentType)
             (List.filter
                (fun m => registry.MatchesComponentType (registry s)
                            (ComponentMatch.ComponentName m) componentType)
                matches).
Proof.
  revert acc. induction matches as [|m matches IH]; intros acc; simpl.
  { by rewrite app_nil_r. }
  rewrite IH. destruct (registry.MatchesComponentType _ _ _); simpl; [|done].
  by rewrite <- app_assoc.
Qed.

(** The loop of [filterByComponentType] is a filter followed by a map. *)
Lemma filterByComponentType_spec (matches : list ComponentMatch.t) :
  filterByComponentType s matches componentType =
  map (withComponentType componentType)
      (List.filter
         (fun m => registry.MatchesComponentType (registry s)
                     (ComponentMatch.ComponentName m) componentType)
         matches).
Proof. unfold filterByComponentType. by rewrite filterByComponentType_fold. Qed.

Lemma scanFile_contribution (path : string) :
  scanFile s fs componentType path = contribution s fs componentType path.
Proof.
  unfold scanFile, contribution.
  destruct (find _ (parsers s)) as [parser|]; [|done].
  destruct (fs path) as [content|]; [|done].
  destruct (Parse parser content path) as [raw [err|]]; [done|].
  apply filterByComponentType_spec.
Qed.

(** What is collected, buffered and still to come never changes as a whole. *)
Lemma scanStep_total (capacity : nat) (st st' : scanState) :
  scanStep s fs componentType capacity st st' ->
  scanTotal s fs componentType st' ≡ₚ scanTotal s fs componentType st.
Proof.
  unfold scanTotal. intros [before path after ch all Hcap | ch all | rest matches ch cl all];
    simpl.
  - rewrite !flat_map_app. simpl.
    rewrite concat_app. simpl. rewrite app_nil_r.
    apply Permutation_app_head.
    rewrite <- !app_assoc. apply Permutation_app_head.
    rewrite !app_assoc. apply Permutation_app_tail, Permutation_app_comm.
  - done.
  - destruct matches as [|m matches]; [done|].
    simpl. by rewrite <- !app_assoc.
Qed.

Lemma scanRun_total (capacity : nat) (st st' : scanState) :
  rtc (scanStep s fs componentType capacity) st st' ->
  scanTotal s fs componentType st' ≡ₚ scanTotal s fs componentType st.
Proof.
  induction 1 as [|st1 st2 st3 Hstep _ IH]; [done|].
  rewrite IH. by eapply scanStep_total.
Qed.





Lemma scanRun_sends (capacity : nat) (rest : list string)
    (ch : list (list ComponentMatch.t)) :
  (length ch + length rest <= capacity)%nat ->
  rtc (scanStep s fs componentType capacity)
    {| running := rest; matchChan := ch; closed := false; allMatches := [] |}
    {| running := []; matchChan := ch ++ map (scanFile s fs componentType) rest;
       closed := false; allMatches := [] |}.
Proof.
  revert ch. induction rest as [|path rest IH]; intros ch Hlen; simpl.
  { rewrite app_nil_r. apply rtc_refl. }
  eapply rtc_l.
  { apply (step_send _ _ _ _ [] path rest ch). simpl in Hlen. lia. }
  replace (ch ++ scanFile s fs componentType path :: map (scanFile s fs componentType) rest)
    with ((ch ++ [scanFile s fs componentType path]) ++
          map (scanFile s fs componentType) rest)
    by by rewrite <- app_assoc.
  apply IH. rewrite length_app. simpl in *. lia.
Qed.

Lemma scanRun_receives (capacity : nat) (ch : list (list ComponentMatch.t))
    (all : list ComponentMatch.t) :
  rtc (scanStep s fs componentType capacity)
    {| running := []; matchChan := ch; closed := true; allMatches := all |}
    {| running := []; matchChan := []; closed := true;
       allMatches := all ++ concat ch |}.
Proof.
  revert all. induction ch as [|matches ch IH]; intros all; simpl.
  { rewrite app_nil_r. apply rtc_refl. }
  eapply rtc_l; [apply step_receive|].
  rewrite app_assoc.
  destruct matches as [|m matches]; [rewrite app_nil_r|]; apply IH.
Qed.

(** The goroutines may deliver in the order of the file list. *)
Lemma ScanInOrder_run (files : list string) (scanTimeMs : Z) :
  0 <= scanTimeMs ->
  Scan s fs files componentType (ScanInOrder s fs files componentType scanTimeMs).
Proof.
  intros Htime. unfold ScanInOrder.
  pose (st := {| running := []; matchChan := []; closed := true;
                 allMatches := [] ++ concat (map (scanFile s fs componentType) files) |}).
  assert (Hall : allMatches st = flat_map (scanFile s fs componentType) files).
  { simpl. induction files as [|f files' IH]; simpl; [done|]. by rewrite IH. }
  rewrite <- Hall.
  apply (Scan_returns s fs files componentType st scanTimeMs); [|done|done].
  eapply rtc_trans; [apply (scanRun_sends (length files) files []); simpl; lia|].
  eapply rtc_l; [apply step_close|].
  apply scanRun_receives.
Qed.

(** Whatever the order of delivery, [Scan] collects the contributions of
    the paths, each once. *)
Lemma Scan_matches (files : list string) (r : ScanResult.t) (e : option error) :
  Scan s fs files componentType (r, e) ->
  ScanResult.Matches r ≡ₚ flat_map (contribution s fs componentType) files.
Proof.
  inversion 1 as [st scanTimeMs Hrun (Hr & Hc & _) Htime]; subst; simpl.
  apply scanRun_total in Hrun. unfold scanTotal in Hrun.
  rewrite Hr, Hc in Hrun. simpl in Hrun. rewrite !app_nil_r in Hrun.
  rewrite Hrun. clear.
  induction files as [|f files IH]; simpl; [done|].
  by rewrite scanFile_contribution, IH.
Qed.

End ScannerFacts.

Section ScannerClaims.
Import GoStrings scanner.
Context `{U : UnicodeTables}.

Lemma Scan_fields (s : ComponentScanner) (fs : FileSystem) (files : list string)
    (componentType : string) (r : ScanResult.t) (e : option error) :
  Scan s fs files componentType (r, e) ->
  e = None /\
  ScanResult.ScannedFiles r = Z.of_nat (length files) /\
  ScanResult.TotalCount r = Z.of_nat (length (ScanResult.Matches r)) /\
  ScanResult.ComponentType r = componentType.
Proof. inversion 1; subst; simpl. done. Qed.

Lemma Scan_exists (s : ComponentScanner) (fs : FileSystem) (files : list string)
    (componentType : string) :
  exists r, Scan s fs files componentType (r, None).
Proof.
  eexists. apply (ScanInOrder_run s fs componentType files 0). lia.
Qed.

Lemma contribution_parsedFine (s : ComponentScanner) (fs : FileSystem)
    (componentType path : string) :
  parsedFine s fs path = false -> contribution s fs componentType path = [].
Proof.
  unfold parsedFine, contribution.
  destruct (find _ (parsers s)) as [parser|]; [|done].
  destruct (fs path) as [content|]; [|done].
  by destruct (Parse parser content path) as [raw [err|]].
Qed.

Lemma flat_map_parsedFine (s : ComponentScanner) (fs : FileSystem)
    (componentType : string) (files : list string) :
  flat_map (contribution s fs componentType) (List.filter (parsedFine s fs) files) =
  flat_map (contribution s fs componentType) files.
Proof.
  induction files as [|f files IH]; simpl; [done|].
  destruct (parsedFine s fs f) eqn:E; simpl; rewrite IH; [done|].
  by rewrite contribution_parsedFine.
Qed.

(** What a scan owes for a path is what the loop of the goroutine makes
    of it. *)
Lemma due_contribution (s : ComponentScanner) (fs : FileSystem)
    (requestedType path : string) :
  due s fs requestedType path = contribution s fs requestedType path.
Proof.
  unfold due, rawMatches, contribution.
  destruct (find _ (parsers s)) as [parser|]; [|done].
  destruct (fs path) as [content|]; [|done].
  by destruct (Parse parser content path) as [raw [err|]].
Qed.

Lemma due_elem (s : ComponentScanner) (fs : FileSystem)
    (requestedType path : string) (m : ComponentMatch.t) :
  In m (due s fs requestedType path) <->
  exists m0,
    In m0 (rawMatches s fs path) /\
    registry.MatchesComponentType (registry s)
      (ComponentMatch.ComponentName m0) requestedType = true /\
    ComponentMatch.FilePath m = ComponentMatch.FilePath m0 /\
    ComponentMatch.Line m = ComponentMatch.Line m0 /\
    ComponentMatch.ComponentName m = ComponentMatch.ComponentName m0 /\
    ComponentMatch.ComponentType m = requestedType.
Proof.
  unfold due. rewrite in_map_iff. split.
  - intros (m0 & <- & [Hin Hc]%filter_In). by exists m0.
  - intros (m0 & Hin & Hc & Hf & Hl & Hn & Ht). exists m0.
    split; [|by apply filter_In].
    destruct m as [f l n t]. unfold typedAs. simpl in *. by subst.
Qed.

(** C1.  [Scan] returns for every list of paths and every requested type.
    Whatever the order in which the goroutines deliver, the result has the
    length of the input list as [ScannedFiles], the length of [Matches] as
    [TotalCount], the requested type as [ComponentType], and its [Matches]
    are, up to order, the contributions of the paths of the list: for a
    path that a parser supports and that can be read, the raw matches of
    the first such parser which [MatchesComponentType] accepts for the
    requested type, with [ComponentType] set to it; nothing for the other
    paths.

    The type field is stated on the matches themselves: every match of
    the result has the requested type in it, and a match is in the result
    exactly when it has the path, line and name of an accepted raw match
    of a path of the list and the requested type as its type. *)
Theorem Scan_result (s : ComponentScanner) (fs : FileSystem)
    (files : list string) (requestedType : string) :
  (exists r, Scan s fs files requestedType (r, None)) /\
  (forall (r : ScanResult.t) (e : option error),
     Scan s fs files requestedType (r, e) ->
     ScanResult.ScannedFiles r = Z.of_nat (length files) /\
     ScanResult.TotalCount r = Z.of_nat (length (ScanResult.Matches r)) /\
     ScanResult.ComponentType r = requestedType /\
     ScanResult.Matches r ≡ₚ flat_map (contribution s fs requestedType) files /\
     ScanResult.Matches r ≡ₚ flat_map (due s fs requestedType) files /\
     Forall (fun m => ComponentMatch.ComponentType m = requestedType)
            (ScanResult.Matches r) /\
     (forall m : ComponentMatch.t,
        In m (ScanResult.Matches r) <->
        exists path m0,
          In path files /\
          In m0 (rawMatches s fs path) /\
          registry.MatchesComponentType (registry s)
            (ComponentMatch.ComponentName m0) requestedType = true /\
          ComponentMatch.FilePath m = ComponentMatch.FilePath m0 /\
          ComponentMatch.Line m = ComponentMatch.Line m0 /\
          ComponentMatch.ComponentName m = ComponentMatch.ComponentName m0 /\
          ComponentMatch.ComponentType m = requestedType)) /\
  (forall path : string,
     find (fun p => SupportsFile p path) (parsers s) = None \/ fs path = None ->
     contribution s fs requestedType path = [] /\
     rawMatches s fs path = [] /\
     due s fs requestedType path = []).
Proof.
  split_and!.
  - apply Scan_exists.
  - intros r e Hscan. pose proof (Scan_fields _ _ _ _ _ _ Hscan) as (_ & ? & ? & ?).
    pose proof (Scan_matches _ _ _ _ _ _ Hscan) as Hperm.
    assert (Hdue : ScanResult.Matches r ≡ₚ flat_map (due s fs requestedType) files).
    { rewrite Hperm. clear.
      induction files as [|f files IH]; simpl; [done|].
      by rewrite due_contribution, IH. }
    assert (Helem : forall m : ComponentMatch.t,
              In m (ScanResult.Matches r) <->
              exists path m0,
                In path files /\
                In m0 (rawMatches s fs path) /\
                registry.MatchesComponentType (registry s)
                  (ComponentMatch.ComponentName m0) requestedType = true /\
                ComponentMatch.FilePath m = ComponentMatch.FilePath m0 /\
                ComponentMatch.Line m = ComponentMatch.Line m0 /\
                ComponentMatch.ComponentName m = ComponentMatch.ComponentName m0 /\
                ComponentMatch.ComponentType m = requestedType).
    { intros m. rewrite <- list_elem_of_In, Hdue, list_elem_of_In, in_flat_map.
      split.
      - intros (path & Hpath & (m0 & Hm0)%due_elem). by exists path, m0.
      - intros (path & m0 & Hpath & Hm0). exists path. split; [done|].
        apply due_elem. by exists m0. }
    split_and!; try done.
    apply Forall_forall. intros m Hin%list_elem_of_In.
    apply Helem in Hin as (path & m0 & _ & _ & _ & _ & _ & _ & Ht). done.
  - intros path Hfail.
    assert (Hraw : rawMatches s fs path = []).
    { unfold rawMatches.
      destruct (find _ (parsers s)) as [parser|]; [|done].
      destruct Hfail as [?| ->]; done. }
    rewrite <- due_contribution. unfold due. by rewrite Hraw.
Qed.

(** C7.  The error [Scan] returns is always nil.  A path no parser
    supports, a path that cannot be read and a path whose parser fails add
    nothing, so that the matches are those of the paths parsed without
    failure.  Scanning the test's Vue file together with a path that does
    not exist yields the one match of the Vue file, two scanned files and
    no error. *)
Theorem Scan_absorbs_failures (s : ComponentScanner) (fs : FileSystem)
    (files : list string) (requestedType : string) :
  (exists r, Scan s fs files requestedType (r, None)) /\
  (forall (r : ScanResult.t) (e : option error),
     Scan s fs files requestedType (r, e) ->
     e = None /\
     ScanResult.Matches r ≡ₚ
       flat_map (contribution s fs requestedType)
                (List.filter (parsedFine s fs) files)) /\
  (forall path : string,
     parsedFine s fs path = false ->
     scanFile s fs requestedType path = []) /\
  (forall (r : ScanResult.t) (e : option error),
     Scan fixtures.testScanner fixtures.testFS
          ["test.vue"; "nonexistent.vue"] "form" (r, e) ->
     e = None /\
     ScanResult.Matches r =
       [ {| ComponentMatch.FilePath := "test.vue"; ComponentMatch.Line := 3;
            ComponentMatch.ComponentName := "q-form";
            ComponentMatch.ComponentType := "form" |} ] /\
     ScanResult.TotalCount r = 1 /\
     ScanResult.ScannedFiles r = 2).
Proof.
  split_and!.
  - apply Scan_exists.
  - intros r e Hscan. split; [by eapply Scan_fields|].
    rewrite flat_map_parsedFine. by eapply Scan_matches.
  - intros path Hfail. rewrite scanFile_contribution.
    by apply contribution_parsedFine.
  - intros r e Hscan.
    pose proof (Scan_fields _ _ _ _ _ _ Hscan) as (-> & Hn & Ht & _).
    apply Scan_matches in Hscan.
    assert (Hc : flat_map (contribution fixtures.testScanner fixtures.testFS "form")
                   ["test.vue"; "nonexistent.vue"] =
                 [ {| ComponentMatch.FilePath := "test.vue"; ComponentMatch.Line := 3;
                      ComponentMatch.ComponentName := "q-form";
                      ComponentMatch.ComponentType := "form" |} ])
      by by vm_compute.
    rewrite Hc in Hscan. apply Permutation_singleton_r in Hscan.
    rewrite Hscan in Ht. rewrite Hscan, Ht, Hn. clear.
    split_and!; reflexivity.
Qed.

(** C8.  Scanning the empty list returns, with a nil error, no match, a
    total count of zero, zero scanned files and the requested type. *)
Theorem Scan_empty (s : ComponentScanner) (fs : FileSystem) (requestedType : string) :
  (exists r, Scan s fs [] requestedType (r, None)) /\
  (forall (r : ScanResult.t) (e : option error),
     Scan s fs [] requestedType (r, e) ->
     e = None /\
     ScanResult.Matches r = [] /\
     length (ScanResult.Matches r) = 0%nat /\
     ScanResult.TotalCount r = 0 /\
     ScanResult.ScannedFiles r = 0 /\
     ScanResult.ComponentType r = requestedType).
Proof.
  split; [apply Scan_exists|].
  intros r e Hscan.
  pose proof (Scan_fields _ _ _ _ _ _ Hscan) as (-> & Hn & Ht & Hty).
  apply Scan_matches in Hscan. simpl in Hscan.
  apply Permutation_nil_r in Hscan.
  rewrite Hscan in Ht |- *. done.
Qed.

(** C10.  [filterByComponentType] keeps, in their order, the matches whose
    name [MatchesComponentType] accepts for the requested type and drops the
    others; a kept match differs from the input match only in its
    [ComponentType], which is the requested type. *)
Theorem filterByComponentType_frame (s : ComponentScanner)
    (matches : list ComponentMatch.t) (requestedType : string) :
  let classify := fun m : ComponentMatch.t =>
    registry.MatchesComponentType (registry s)
      (ComponentMatch.ComponentName m) requestedType in
  let kept := filterByComponentType s matches requestedType in
  kept = map (withComponentType requestedType) (List.filter classify matches) /\
  map located kept = map located (List.filter classify matches) /\
  sublist (map located kept) (map located matches) /\
  Forall (fun m => ComponentMatch.ComponentType m = requestedType) kept /\
  (forall m, In m kept ->
     exists m0, In m0 matches /\ classify m0 = true /\
                m = withComponentType requestedType m0) /\
  (forall m0, In m0 matches ->
     (In (withComponentType requestedType m0) kept <-> classify m0 = true)).
Proof.
  intros classify kept.
  assert (Hkept : kept = map (withComponentType requestedType)
                             (List.filter classify matches))
    by apply filterByComponentType_spec.
  assert (Hloc : map located kept = map located (List.filter classify matches)).
  { rewrite Hkept, map_map. by apply map_ext. }
  split_and!; try done.
  - rewrite Hloc. clear.
    induction matches as [|m matches IH]; simpl; [constructor|].
    destruct (classify m); simpl; by constructor.
  - rewrite Hkept. apply Forall_forall. intros m Hin.
    by apply list_elem_of_In, in_map_iff in Hin as (m0 & <- & _).
  - rewrite Hkept. intros m (m0 & <- & Hin)%in_map_iff.
    apply filter_In in Hin as [Hin Hc]. by exists m0.
  - intros m0 Hin0. rewrite Hkept. split.
    + intros (m1 & Heq & Hin1)%in_map_iff.
      apply filter_In in Hin1 as [_ Hc].
      unfold classify in *. by injection Heq as _ _ <-.
    + intros Hc. apply in_map, filter_In. done.
Qed.

End ScannerClaims.

Section DenylistClaims.
Import GoStrings scanner.
Context `{U : UnicodeTables}.

Lemma jsx_pass_upper (content filePath : string) (base : Z) (m : ComponentMatch.t) :
  In m (parseWith jsxRegex (fun _ => false) content filePath base) ->
  exists d run,
    ComponentMatch.ComponentName m = String d run /\ isUpperByte d = true.
Proof.
  intros (k & line & name & _ & Hn & _ & ->)%list_elem_of_In%parseWith_elem.
  apply FindAllStringSubmatch_elem in Hn as (d & run & _ & _ & -> & Hd & _).
  by exists d, run.
Qed.

Lemma template_pass_not_denylisted (content filePath : string) (base : Z)
    (m : ComponentMatch.t) :
  In m (parseTemplateComponents content filePath base) ->
  ~ In (ComponentMatch.ComponentName m) htmlTagNames.
Proof.
  intros (k & line & name & _ & _ & Hs & ->)%list_elem_of_In%parseWith_elem Hdeny.
  apply isHTMLTag_iff in Hdeny. simpl in Hdeny. congruence.
Qed.

Lemma VueParser_Parse_not_denylisted (fileContent filePath : string)
    (m : ComponentMatch.t) :
  In m (VueParser_Parse fileContent filePath).1 ->
  ~ In (ComponentMatch.ComponentName m) htmlTagNames.
Proof.
  unfold VueParser_Parse.
  destruct (extractTemplateSection fileContent) as [templateContent templateStartLine].
  destruct (extractScriptSection fileContent) as [scriptContent scriptStartLine].
  cbn [fst]. intros Hin.
  assert (Hcases :
    In m (parseTemplateComponents templateContent filePath templateStartLine) \/
    In m (parseJSXComponents scriptContent filePath scriptStartLine)).
  { destruct (String.eqb templateContent ""), (String.eqb scriptContent "");
      simpl in Hin; rewrite ?in_app_iff in Hin; simpl in Hin; tauto. }
  destruct Hcases as [Ht|Hj].
  - by eapply template_pass_not_denylisted.
  - apply jsx_pass_upper in Hj as (d & run & -> & Hd).
    by apply upper_start_not_denylisted.
Qed.

Lemma ReactParser_Parse_not_denylisted (fileContent filePath : string)
    (m : ComponentMatch.t) :
  In m (ReactParser_Parse fileContent filePath).1 ->
  ~ In (ComponentMatch.ComponentName m) htmlTagNames.
Proof.
  unfold ReactParser_Parse. cbn [fst].
  intros (d & run & -> & Hd)%jsx_pass_upper.
  by apply upper_start_not_denylisted.
Qed.

(** C9.  No match of [VueParser.Parse] or of [ReactParser.Parse] bears a
    name of the denylist: the template pass skips those names, and the two
    JSX passes only capture names that start with an uppercase letter,
    which no name of the list does.  Hence a scan with these two parsers
    never reports "form", "button" or "dialog", the very names the
    "native" groups of the registry list for the three known types. *)
Theorem no_denylisted_name_reported :
  (forall (fileContent filePath : string) (m : ComponentMatch.t),
     In m (VueParser_Parse fileContent filePath).1 ->
     ~ In (ComponentMatch.ComponentName m) htmlTagNames) /\
  (forall (fileContent filePath : string) (m : ComponentMatch.t),
     In m (ReactParser_Parse fileContent filePath).1 ->
     ~ In (ComponentMatch.ComponentName m) htmlTagNames) /\
  (forall (content filePath : string) (base : Z) (m : ComponentMatch.t),
     In m (parseJSXComponents content filePath base) \/
     In m (parseReactJSXComponents content filePath base) ->
     exists d run,
       ComponentMatch.ComponentName m = String d run /\ isUpperByte d = true) /\
  (forall (reg : registry.ComponentMappingRegistry) (fs : FileSystem)
          (files : list string) (requestedType : string)
          (r : ScanResult.t) (e : option error) (m : ComponentMatch.t),
     Scan (NewComponentScanner [NewVueParser; NewReactParser] reg)
          fs files requestedType (r, e) ->
     In m (ScanResult.Matches r) ->
     ~ In (ComponentMatch.ComponentName m) htmlTagNames) /\
  (In "form" htmlTagNames /\ In "button" htmlTagNames /\ In "dialog" htmlTagNames) /\
  (registry.Patterns registry.formMapping !! "native" = Some ["form"] /\
   registry.Patterns registry.buttonMapping !! "native" = Some ["button"] /\
   registry.Patterns registry.dialogMapping !! "native" = Some ["dialog"]).
Proof.
  refine (conj _ (conj _ (conj _ (conj _ (conj _ _))))).
  - apply VueParser_Parse_not_denylisted.
  - apply ReactParser_Parse_not_denylisted.
  - intros content filePath base m [Hin|Hin]; by eapply jsx_pass_upper.
  - intros reg fs files requestedType r e m Hscan Hin.
    apply Scan_matches in Hscan.
    apply list_elem_of_In in Hin. rewrite Hscan in Hin.
    apply list_elem_of_In, in_flat_map in Hin as (path & _ & Hin).
    unfold contribution in Hin.
    destruct (find _ _) as [parser|] eqn:Hfind; [|done].
    apply find_some in Hfind as [Hparser _].
    destruct (fs path) as [content|]; [|done].
    destruct (Parse parser content path) as [raw [err|]] eqn:Hparse; [done|].
    apply in_map_iff in Hin as (m0 & <- & Hin0).
    apply filter_In in Hin0 as [Hin0 _]. cbn [withComponentType ComponentMatch.ComponentName].
    assert (Hraw : raw = (Parse parser content path).1) by by rewrite Hparse.
    rewrite Hraw in Hin0. clear Hraw Hparse.
    cbn [NewComponentScanner parsers] in Hparser.
    destruct Hparser as [<-|[<-|[]]]; cbn [Parse NewVueParser NewReactParser] in Hin0.
    + by eapply VueParser_Parse_not_denylisted.
    + by eapply ReactParser_Parse_not_denylisted.
  - vm_compute. tauto.
  - split_and!; by vm_compute.
Qed.

End DenylistClaims.

(* ===================================================================== *)
(** * Regions and lines                                                  *)
(* ===================================================================== *)

Section SliceFacts.
Import GoStrings scanner.

Lemma append_assoc (a b c : string) : (a +:+ b) +:+ c = a +:+ b +:+ c.
Proof. induction a as [|x a IH]; [done|]. by rewrite !append_cons, IH. Qed.

Lemma append_nil_r (a : string) : a +:+ EmptyString = a.
Proof. induction a as [|x a IH]; [done|]. by rewrite append_cons, IH. Qed.

Lemma append_length (a b : string) :
  String.length (a +:+ b) = (String.length a + String.length b)%nat.
Proof. induction a as [|x a IH]; [done|]. rewrite append_cons. simpl. by rewrite IH. Qed.

Lemma take_drop (n : nat) (s : string) : take n s +:+ drop n s = s.
Proof.
  revert n. induction s as [|c s IH]; intros [|n]; simpl; try done.
  by rewrite append_cons, IH.
Qed.

Lemma take_app_length (a b : string) : take (String.length a) (a +:+ b) = a.
Proof. induction a as [|x a IH]; simpl; [by destruct b|]. by rewrite IH. Qed.

Lemma drop_app_length (a b : string) : drop (String.length a) (a +:+ b) = b.
Proof. induction a as [|x a IH]; simpl; [by destruct b|]. by rewrite IH. Qed.

Lemma HasPrefix_shape (s prefix : string) :
  HasPrefix s prefix = true -> exists v, s = prefix +:+ v.
Proof.
  revert s. induction prefix as [|p prefix IH]; intros s; simpl.
  { intros _. by exists s. }
  destruct s as [|c s]; [done|].
  intros [->%Ascii.eqb_eq [v ->]%IH]%andb_true_iff. by exists v.
Qed.

Lemma HasPrefix_nil (s : string) : HasPrefix s EmptyString = true.
Proof. by destruct s. Qed.

Lemma HasPrefix_app (s prefix v : string) :
  HasPrefix s prefix = true -> HasPrefix (s +:+ v) prefix = true.
Proof.
  revert s. induction prefix as [|p prefix IH]; intros s; [by rewrite !HasPrefix_nil|].
  destruct s as [|c s]; [done|]. rewrite append_cons. simpl.
  intros [-> ?%IH]%andb_true_iff. done.
Qed.

Lemma HasPrefix_self (sub : string) : HasPrefix sub sub = true.
Proof.
  induction sub as [|c sub IH]; [done|]. simpl. by rewrite Ascii.eqb_refl.
Qed.

(** [Index] gives the offset of the first occurrence: the text splits
    around it, and up to its end there is no earlier one. *)
Lemma Index_shape (s sub : string) (k : nat) :
  Index s sub = Some k ->
  exists u v, s = u +:+ sub +:+ v /\ String.length u = k /\
              Index (u +:+ sub) sub = Some k.
Proof.
  revert k. induction s as [|c s IH]; intros k; cbn [Index].
  - destruct (HasPrefix EmptyString sub) eqn:E; [|done].
    intros [= <-]. apply HasPrefix_shape in E as [v E].
    exists EmptyString, v. split_and!; [done..|].
    rewrite append_nil_l. destruct sub; [done|]. by destruct v.
  - destruct (HasPrefix (String c s) sub) eqn:E.
    + intros [= <-]. apply HasPrefix_shape in E as [v ->].
      exists EmptyString, v. split_and!; [done..|].
      rewrite append_nil_l. destruct sub as [|x sub]; [done|].
      cbn [Index]. by rewrite HasPrefix_self.
    + destruct (Index s sub) as [k'|]; [|done]. simpl. intros [= <-].
      destruct (IH k' eq_refl) as (u & v & -> & Hu & Hfirst).
      exists (String c u), v. split_and!; [done|simpl; by rewrite Hu|].
      rewrite append_cons. cbn [Index].
      destruct (HasPrefix (String c (u +:+ sub)) sub) eqn:E'.
      * apply (HasPrefix_app _ _ v) in E'.
        rewrite append_cons, append_assoc in E'. congruence.
      * by rewrite Hfirst.
Qed.

Lemma regionHere_shape (opening closing s : string) (m2 m3 : nat) :
  regionHere opening closing s = Some (m2, m3) ->
  exists attrs body rest,
    s = opening +:+ attrs +:+ ">" +:+ body +:+ closing +:+ rest /\
    m2 = (String.length opening + String.length attrs + 1)%nat /\
    m3 = (m2 + String.length body)%nat /\
    Index (attrs +:+ ">") ">" = Some (String.length attrs) /\
    Index (body +:+ closing) closing = Some (String.length body).
Proof.
  unfold regionHere.
  destruct (HasPrefix s opening) eqn:Ep; [|done].
  apply HasPrefix_shape in Ep as [s1 ->].
  rewrite drop_app_length.
  destruct (Index s1 ">") as [k|] eqn:Ek; [|done].
  apply Index_shape in Ek as (attrs & s2 & -> & <- & Hattrs).
  replace (opening +:+ attrs +:+ ">" +:+ s2)
    with ((opening +:+ attrs +:+ ">") +:+ s2)
    by by rewrite !append_assoc.
  replace (String.length opening + String.length attrs + 1)%nat
    with (String.length (opening +:+ attrs +:+ ">"))
    by (rewrite !append_length; simpl; lia).
  rewrite drop_app_length.
  destruct (Index s2 closing) as [r|] eqn:Er; [|done].
  apply Index_shape in Er as (body & rest & -> & <- & Hbody).
  intros [= <- <-]. exists attrs, body, rest.
  split_and!; [by rewrite !append_assoc | rewrite !append_length; simpl; lia
              | done | done | done].
Qed.

Lemma findRegion_shape (opening closing s : string) (pos m2 m3 : nat) :
  findRegion opening closing s pos = Some (m2, m3) ->
  exists pre attrs body rest,
    s = pre +:+ opening +:+ attrs +:+ ">" +:+ body +:+ closing +:+ rest /\
    m2 = (pos + String.length (pre +:+ opening +:+ attrs +:+ ">"))%nat /\
    m3 = (m2 + String.length body)%nat /\
    Index (attrs +:+ ">") ">" = Some (String.length attrs) /\
    Index (body +:+ closing) closing = Some (String.length body).
Proof.
  revert pos. induction s as [|c s IH]; intros pos; cbn [findRegion].
  - destruct (regionHere opening closing EmptyString) as [[a b]|] eqn:E; [|done].
    intros [= <- <-].
    apply regionHere_shape in E as (attrs & body & rest & E & -> & -> & Ha & Hb).
    exists EmptyString, attrs, body, rest. rewrite append_nil_l.
    split_and!; [done| | |done|done]; rewrite ?append_length; simpl; lia.
  - destruct (regionHere opening closing (String c s)) as [[a b]|] eqn:E.
    + intros [= <- <-].
      apply regionHere_shape in E as (attrs & body & rest & E & -> & -> & Ha & Hb).
      exists EmptyString, attrs, body, rest. rewrite append_nil_l.
      split_and!; [done| | |done|done]; rewrite ?append_length; simpl; lia.
    + intros (pre & attrs & body & rest & -> & -> & -> & Ha & Hb)%IH.
      exists (String c pre), attrs, body, rest.
      split_and!; [done| | |done|done]; rewrite ?append_cons; simpl; lia.
Qed.

(** A section that is found lies in the text between an opening tag, taken
    up to its first [>], and the first closing tag after it; its line base
    counts the newlines before it. *)
Lemma extractSection_shape (opening closing content sectionContent : string)
    (startLine : Z) :
  extractSection opening closing content = (sectionContent, startLine) ->
  sectionContent <> EmptyString ->
  exists pre attrs rest,
    content = (pre +:+ opening +:+ attrs +:+ ">") +:+ sectionContent
              +:+ closing +:+ rest /\
    startLine = CountNewlines (pre +:+ opening +:+ attrs +:+ ">") + 1 /\
    Index (attrs +:+ ">") ">" = Some (String.length attrs) /\
    Index (sectionContent +:+ closing) closing = Some (String.length sectionContent).
Proof.
  unfold extractSection.
  destruct (findRegion opening closing content 0) as [[m2 m3]|] eqn:E;
    [|by intros [= <- <-]].
  apply findRegion_shape in E as (pre & attrs & body & rest & -> & -> & -> & Ha & Hb).
  simpl.
  replace (pre +:+ opening +:+ attrs +:+ ">" +:+ body +:+ closing +:+ rest)
    with ((pre +:+ opening +:+ attrs +:+ ">") +:+ body +:+ closing +:+ rest)
    by by rewrite !append_assoc.
  rewrite take_app_length, drop_app_length.
  replace (String.length (pre +:+ opening +:+ attrs +:+ ">") + String.length body -
           String.length (pre +:+ opening +:+ attrs +:+ ">"))%nat
    with (String.length body) by lia.
  rewrite take_app_length. intros [= <- <-] _.
  by exists pre, attrs, rest.
Qed.

Lemma CountNewlines_nonneg (s : string) : 0 <= CountNewlines s.
Proof. induction s as [|c s IH]; simpl; [done|]. destruct (Ascii.eqb c newline); lia. Qed.

Lemma SplitLines_nonempty (s : string) : SplitLines s <> [].
Proof.
  induction s as [|c s IH]; simpl; [done|].
  destruct (Ascii.eqb c newline); [done|]. by destruct (SplitLines s).
Qed.

Lemma SplitLines_length (s : string) :
  Z.of_nat (length (SplitLines s)) = CountNewlines s + 1.
Proof.
  induction s as [|c s IH]; simpl; [done|].
  destruct (Ascii.eqb c newline); simpl; [lia|].
  pose proof (SplitLines_nonempty s).
  destruct (SplitLines s); [done|]. simpl in *. lia.
Qed.

(** A line of a text is the end of the line of the same rank, counted from
    the newlines before it, once some text is put before. *)
Lemma SplitLines_after (a b : string) (i : nat) (l : string) :
  SplitLines b !! i = Some l ->
  exists pre,
    SplitLines (a +:+ b) !! (Z.to_nat (CountNewlines a) + i)%nat = Some (pre +:+ l).
Proof.
  intros Hl. induction a as [|c a [pre IH]].
  { exists EmptyString. by rewrite !append_nil_l. }
  rewrite append_cons. cbn [SplitLines CountNewlines].
  pose proof (CountNewlines_nonneg a) as Hnn.
  destruct (Ascii.eqb c newline).
  - exists pre.
    replace (Z.to_nat (1 + CountNewlines a) + i)%nat
      with (S (Z.to_nat (CountNewlines a) + i)) by lia.
    done.
  - replace (0 + CountNewlines a) with (CountNewlines a) by lia.
    pose proof (SplitLines_nonempty (a +:+ b)).
    destruct (SplitLines (a +:+ b)) as [|l0 ls]; [done|].
    destruct (Z.to_nat (CountNewlines a) + i)%nat as [|j]; simpl in *.
    + injection IH as ->. by exists (String c pre).
    + by exists pre.
Qed.

(** A line of a text is the start of the line of the same rank once some
    text is put after. *)
Lemma SplitLines_before (b c : string) (i : nat) (l : string) :
  SplitLines b !! i = Some l ->
  exists post, SplitLines (b +:+ c) !! i = Some (l +:+ post).
Proof.
  revert i l. induction b as [|x b IH]; intros i l.
  - rewrite append_nil_l. destruct i as [|i]; [|done]. intros [= <-].
    pose proof (SplitLines_nonempty c).
    destruct (SplitLines c) as [|l0 ls]; [done|]. by exists l0.
  - rewrite append_cons. cbn [SplitLines].
    destruct (Ascii.eqb x newline).
    + destruct i as [|i]; simpl.
      * intros [= <-]. by exists EmptyString.
      * apply IH.
    + pose proof (SplitLines_nonempty b).
      destruct (SplitLines b) as [|l0 ls] eqn:Eb; [done|].
      destruct i as [|i]; simpl.
      * intros [= <-]. destruct (IH 0%nat l0 eq_refl) as [post Hp].
        destruct (SplitLines (b +:+ c)) as [|l1 ls1]; [done|].
        simpl in Hp. injection Hp as ->. by exists post.
      * intros Hl. destruct (IH (S i) l Hl) as [post Hp].
        destruct (SplitLines (b +:+ c)) as [|l1 ls1]; [done|].
        by exists post.
Qed.

(** The lines of a part of a text are parts of the lines of the text. *)
Lemma SplitLines_within (a b c : string) (i : nat) (l : string) :
  SplitLines b !! i = Some l ->
  exists pre post,
    SplitLines (a +:+ b +:+ c) !! (Z.to_nat (CountNewlines a) + i)%nat =
    Some (pre +:+ l +:+ post).
Proof.
  intros [post Hb]%(SplitLines_before b c).
  apply (SplitLines_after a) in Hb as [pre Hb]. by exists pre, post.
Qed.

End SliceFacts.

Section RegionFound.
Import GoStrings scanner.

Lemma Index_here (sub v : string) : Index (sub +:+ v) sub = Some 0%nat.
Proof.
  assert (H : HasPrefix (sub +:+ v) sub = true)
    by apply HasPrefix_app, HasPrefix_self.
  destruct (sub +:+ v); cbn [Index]; by rewrite H.
Qed.

Lemma HasPrefix_app_long (s prefix v : string) :
  (String.length prefix <= String.length s)%nat ->
  HasPrefix (s +:+ v) prefix = HasPrefix s prefix.
Proof.
  revert s. induction prefix as [|p prefix IH]; intros s Hlen;
    [by rewrite !HasPrefix_nil|].
  destruct s as [|c s]; [simpl in Hlen; lia|].
  rewrite append_cons. simpl. rewrite IH; [done|]. simpl in Hlen. lia.
Qed.

(** A first occurrence further on is not at the first byte. *)
Lemma Index_cons_Some (c : ascii) (s sub : string) (k : nat) :
  Index (String c s) sub = Some (S k) ->
  HasPrefix (String c s) sub = false /\ Index s sub = Some k.
Proof.
  cbn [Index]. destruct (HasPrefix (String c s) sub); [done|].
  destruct (Index s sub) as [k'|]; [|done]. simpl. by intros [= ->].
Qed.

(** A first occurrence stays the first when text is put after it. *)
Lemma Index_app_first (u sub v : string) :
  Index (u +:+ sub) sub = Some (String.length u) ->
  Index (u +:+ sub +:+ v) sub = Some (String.length u).
Proof.
  induction u as [|c u IH].
  - intros _. rewrite !append_nil_l. apply Index_here.
  - rewrite !append_cons. intros [Hp Hi]%Index_cons_Some.
    assert (Hp' : HasPrefix (String c (u +:+ sub +:+ v)) sub = false).
    { rewrite <- append_assoc, <- append_cons.
      rewrite HasPrefix_app_long; [done|].
      simpl. rewrite append_length. lia. }
    cbn [Index String.length]. by rewrite Hp', (IH Hi).
Qed.

(** The expression matches at an opening tag that is closed by a [>] and
    followed, further on, by the closing tag; the group is what lies
    between that [>] and the first closing tag. *)
Lemma regionHere_found (opening closing attrs body rest : string) :
  Index (attrs +:+ ">") ">" = Some (String.length attrs) ->
  Index (body +:+ closing) closing = Some (String.length body) ->
  regionHere opening closing
    (opening +:+ attrs +:+ ">" +:+ body +:+ closing +:+ rest) =
  Some ((String.length opening + String.length attrs + 1)%nat,
        (String.length opening + String.length attrs + 1 + String.length body)%nat).
Proof.
  intros Ha Hb. unfold regionHere.
  rewrite (HasPrefix_app _ _ _ (HasPrefix_self opening)).
  rewrite drop_app_length.
  rewrite (Index_app_first attrs ">" _ Ha). cbv beta iota zeta.
  replace (opening +:+ attrs +:+ ">" +:+ body +:+ closing +:+ rest)
    with ((opening +:+ attrs +:+ ">") +:+ body +:+ closing +:+ rest)
    by by rewrite !append_assoc.
  replace (String.length opening + String.length attrs + 1)%nat
    with (String.length (opening +:+ attrs +:+ ">"))
    by (rewrite !append_length; simpl; lia).
  by rewrite drop_app_length, (Index_app_first body closing rest Hb).
Qed.

(** The search from the left stops at the first opening tag when the
    expression matches there. *)
Lemma findRegion_found (opening closing pre tail : string) (pos m2 m3 : nat) :
  Index (pre +:+ tail) opening = Some (String.length pre) ->
  regionHere opening closing tail = Some (m2, m3) ->
  findRegion opening closing (pre +:+ tail) pos =
  Some ((pos + (String.length pre + m2))%nat, (pos + (String.length pre + m3))%nat).
Proof.
  revert pos. induction pre as [|c pre IH]; intros pos Hi Hr.
  - rewrite append_nil_l. destruct tail; cbn [findRegion]; by rewrite Hr.
  - rewrite append_cons in *. apply Index_cons_Some in Hi as [Hp Hi].
    cbn [findRegion]. unfold regionHere at 1. rewrite Hp.
    rewrite (IH (S pos) Hi Hr). simpl. f_equal. f_equal; lia.
Qed.

(** The converse of [extractSection_shape]: the section between the first
    opening tag and the first closing tag after it is the one extracted. *)
Lemma extractSection_locates (opening closing pre attrs body rest : string) :
  Index (pre +:+ opening +:+ attrs +:+ ">" +:+ body +:+ closing +:+ rest) opening
    = Some (String.length pre) ->
  Index (attrs +:+ ">") ">" = Some (String.length attrs) ->
  Index (body +:+ closing) closing = Some (String.length body) ->
  extractSection opening closing
    ((pre +:+ opening +:+ attrs +:+ ">") +:+ body +:+ closing +:+ rest) =
  (body, CountNewlines (pre +:+ opening +:+ attrs +:+ ">") + 1).
Proof.
  intros Hp Ha Hb. unfold extractSection.
  replace ((pre +:+ opening +:+ attrs +:+ ">") +:+ body +:+ closing +:+ rest)
    with (pre +:+ opening +:+ attrs +:+ ">" +:+ body +:+ closing +:+ rest)
    by by rewrite !append_assoc.
  rewrite (findRegion_found opening closing pre _ 0 _ _ Hp
             (regionHere_found opening closing attrs body rest Ha Hb)).
  replace (pre +:+ opening +:+ attrs +:+ ">" +:+ body +:+ closing +:+ rest)
    with ((pre +:+ opening +:+ attrs +:+ ">") +:+ body +:+ closing +:+ rest)
    by by rewrite !append_assoc.
  replace (0 + (String.length pre +
                (String.length opening + String.length attrs + 1)))%nat
    with (String.length (pre +:+ opening +:+ attrs +:+ ">"))
    by (rewrite !append_length; simpl; lia).
  replace (0 + (String.length pre +
                (String.length opening + String.length attrs + 1 +
                 String.length body)))%nat
    with (String.length (pre +:+ opening +:+ attrs +:+ ">") + String.length body)%nat
    by (rewrite !append_length; simpl; lia).
  rewrite take_app_length, drop_app_length.
  replace (String.length (pre +:+ opening +:+ attrs +:+ ">") + String.length body -
           String.length (pre +:+ opening +:+ attrs +:+ ">"))%nat
    with (String.length body) by lia.
  by rewrite take_app_length.
Qed.

End RegionFound.

Section LineClaims.
Import GoStrings scanner.
Context `{U : UnicodeTables}.

(** A pass run on a part of the file with the line of its first byte as
    base reports whole-file line numbers. *)
Lemma pass_on_part (re : tagRegex) (skipName : string -> bool)
    (before sectionContent after filePath : string) (m : ComponentMatch.t) :
  In m (parseWith re skipName sectionContent filePath (CountNewlines before + 1)) ->
  1 <= ComponentMatch.Line m <=
    Z.of_nat (length (SplitLines (before +:+ sectionContent +:+ after))) /\
  onReportedLine (before +:+ sectionContent +:+ after) m.
Proof.
  intros (k & line & name & Hk & Hn & _ & ->)%list_elem_of_In%parseWith_elem.
  pose proof (CountNewlines_nonneg before) as Hnn.
  destruct (SplitLines_within before sectionContent after k line Hk)
    as (pre & post & Hfile).
  apply FindAllStringSubmatch_elem in Hn as (d & run & u & v & Hname & _ & ->).
  cbn [matchOn ComponentMatch.Line ComponentMatch.ComponentName].
  assert (Hidx : Z.to_nat (CountNewlines before + 1 + Z.of_nat k - 1) =
                 (Z.to_nat (CountNewlines before) + k)%nat) by lia.
  split.
  - apply lookup_lt_Some in Hfile. lia.
  - unfold onReportedLine.
    cbn [matchOn ComponentMatch.Line ComponentMatch.ComponentName].
    rewrite Hidx. eexists _, (pre +:+ u), (v +:+ post). split; [exact Hfile|].
    by rewrite !append_assoc, !append_cons, !append_assoc.
Qed.

Lemma pass_on_section (re : tagRegex) (skipName : string -> bool)
    (opening closing content sectionContent filePath : string) (startLine : Z)
    (m : ComponentMatch.t) :
  extractSection opening closing content = (sectionContent, startLine) ->
  sectionContent <> EmptyString ->
  In m (parseWith re skipName sectionContent filePath startLine) ->
  1 <= ComponentMatch.Line m <= Z.of_nat (length (SplitLines content)) /\
  onReportedLine content m.
Proof.
  intros He Hne Hin.
  apply extractSection_shape in He as (pre & attrs & rest & -> & -> & _); [|done].
  exact (pass_on_part re skipName _ _ _ filePath m Hin).
Qed.

Lemma pass_on_file (re : tagRegex) (skipName : string -> bool)
    (content filePath : string) (m : ComponentMatch.t) :
  In m (parseWith re skipName content filePath 1) ->
  1 <= ComponentMatch.Line m <= Z.of_nat (length (SplitLines content)) /\
  onReportedLine content m.
Proof.
  intros Hin.
  pose proof (pass_on_part re skipName EmptyString content EmptyString filePath m) as H.
  rewrite append_nil_l, append_nil_r in H. exact (H Hin).
Qed.

(** The two passes of [VueParser.Parse], each on its own section. *)
Lemma VueParser_Parse_cases (fileContent filePath : string) (m : ComponentMatch.t) :
  In m (VueParser_Parse fileContent filePath).1 ->
  (exists sectionContent startLine,
     extractTemplateSection fileContent = (sectionContent, startLine) /\
     sectionContent <> EmptyString /\
     In m (parseTemplateComponents sectionContent filePath startLine)) \/
  (exists sectionContent startLine,
     extractScriptSection fileContent = (sectionContent, startLine) /\
     sectionContent <> EmptyString /\
     In m (parseJSXComponents sectionContent filePath startLine)).
Proof.
  unfold VueParser_Parse.
  destruct (extractTemplateSection fileContent) as [tc tl].
  destruct (extractScriptSection fileContent) as [sc sl].
  cbn [fst].
  destruct (String.eqb_spec tc ""), (String.eqb_spec sc "");
    simpl; rewrite ?in_app_iff; simpl; intros Hin.
  - done.
  - right. exists sc, sl. done.
  - left. by exists tc, tl.
  - destruct Hin as [Hin|Hin]; [left; by exists tc, tl | right; by exists sc, sl].
Qed.

(** What a pass over a section that was found reports is in the result. *)
Lemma VueParser_Parse_sections (fileContent filePath : string)
    (sectionContent : string) (startLine : Z) (m : ComponentMatch.t) :
  sectionContent <> EmptyString ->
  (extractTemplateSection fileContent = (sectionContent, startLine) /\
   In m (parseTemplateComponents sectionContent filePath startLine)) \/
  (extractScriptSection fileContent = (sectionContent, startLine) /\
   In m (parseJSXComponents sectionContent filePath startLine)) ->
  In m (VueParser_Parse fileContent filePath).1.
Proof.
  intros Hne Hcases. unfold VueParser_Parse.
  destruct (extractTemplateSection fileContent) as [tc tl].
  destruct (extractScriptSection fileContent) as [sc sl].
  cbn [fst].
  destruct Hcases as [[[= -> ->] Hin]|[[= -> ->] Hin]].
  - destruct (String.eqb_spec sectionContent ""); [done|].
    destruct (String.eqb sc ""); simpl; rewrite ?in_app_iff; tauto.
  - destruct (String.eqb_spec sectionContent ""); [done|].
    destruct (String.eqb tc ""); simpl; rewrite ?in_app_iff; tauto.
Qed.

(** C6.  A section of a Vue file has as line base the number of newlines
    of the file before its first byte, plus one, and a match found on the
    line of index [k] of the section is reported at that base plus [k]; the
    React parser reports a match found on the line of index [k] of the file
    at [1 + k].  Every reported line number is a line number of the file,
    counted from one, and the line that bears it holds the tag.  A file
    whose first line is a Button element yields "Button" at line 1.

    Both ways round.  The text between the first opening tag of a kind,
    closed by its first [>], and the first closing tag after it is the
    section extracted, with the base just said.  Every name the expression
    of a section finds on the line of index [k] of that section (the HTML
    tags apart in the template) is reported at the base of the section
    plus [k], and every name found on the line of index [k] of a React
    file at [1 + k].  A Vue file with a template and a script region
    yields the tag of the template at line 3 and that of the script,
    whose base is 7, at line 9. *)
Theorem line_attribution :
  (forall (fileContent sectionContent : string) (startLine : Z),
     extractTemplateSection fileContent = (sectionContent, startLine) ->
     sectionContent <> EmptyString ->
     exists pre attrs rest,
       let before := pre +:+ "<template" +:+ attrs +:+ ">" in
       fileContent = before +:+ sectionContent +:+ "</template>" +:+ rest /\
       startLine = CountNewlines before + 1) /\
  (forall (fileContent sectionContent : string) (startLine : Z),
     extractScriptSection fileContent = (sectionContent, startLine) ->
     sectionContent <> EmptyString ->
     exists pre attrs rest,
       let before := pre +:+ "<script" +:+ attrs +:+ ">" in
       fileContent = before +:+ sectionContent +:+ "</script>" +:+ rest /\
       startLine = CountNewlines before + 1) /\
  (forall (fileContent filePath : string) (m : ComponentMatch.t),
     In m (VueParser_Parse fileContent filePath).1 ->
     exists (sectionContent : string) (startLine : Z) (k : nat) (line : string),
       (extractTemplateSection fileContent = (sectionContent, startLine) /\
        In (ComponentMatch.ComponentName m)
           (FindAllStringSubmatch templateRegex line) \/
        extractScriptSection fileContent = (sectionContent, startLine) /\
        In (ComponentMatch.ComponentName m)
           (FindAllStringSubmatch jsxRegex line)) /\
       SplitLines sectionContent !! k = Some line /\
       ComponentMatch.Line m = startLine + Z.of_nat k) /\
  (forall (fileContent filePath : string) (m : ComponentMatch.t),
     In m (ReactParser_Parse fileContent filePath).1 ->
     exists (k : nat) (line : string),
       SplitLines fileContent !! k = Some line /\
       In (ComponentMatch.ComponentName m) (FindAllStringSubmatch jsxRegex line) /\
       ComponentMatch.Line m = 1 + Z.of_nat k) /\
  (forall (fileContent filePath : string) (m : ComponentMatch.t),
     In m (VueParser_Parse fileContent filePath).1 \/
     In m (ReactParser_Parse fileContent filePath).1 ->
     1 <= ComponentMatch.Line m <= Z.of_nat (length (SplitLines fileContent)) /\
     onReportedLine fileContent m) /\
  (forall pre attrs body rest : string,
     let before := pre +:+ "<template" +:+ attrs +:+ ">" in
     Index (pre +:+ "<template" +:+ attrs +:+ ">" +:+ body +:+ "</template>"
            +:+ rest) "<template" = Some (String.length pre) ->
     Index (attrs +:+ ">") ">" = Some (String.length attrs) ->
     Index (body +:+ "</template>") "</template>" = Some (String.length body) ->
     extractTemplateSection (before +:+ body +:+ "</template>" +:+ rest) =
       (body, CountNewlines before + 1)) /\
  (forall pre attrs body rest : string,
     let before := pre +:+ "<script" +:+ attrs +:+ ">" in
     Index (pre +:+ "<script" +:+ attrs +:+ ">" +:+ body +:+ "</script>"
            +:+ rest) "<script" = Some (String.length pre) ->
     Index (attrs +:+ ">") ">" = Some (String.length attrs) ->
     Index (body +:+ "</script>") "</script>" = Some (String.length body) ->
     extractScriptSection (before +:+ body +:+ "</script>" +:+ rest) =
       (body, CountNewlines before + 1)) /\
  (forall (fileContent filePath sectionContent : string) (startLine : Z)
          (k : nat) (line name : string),
     sectionContent <> EmptyString ->
     SplitLines sectionContent !! k = Some line ->
     (extractTemplateSection fileContent = (sectionContent, startLine) /\
      In name (FindAllStringSubmatch templateRegex line) /\
      isHTMLTag name = false \/
      extractScriptSection fileContent = (sectionContent, startLine) /\
      In name (FindAllStringSubmatch jsxRegex line)) ->
     In {| ComponentMatch.FilePath := filePath;
           ComponentMatch.Line := startLine + Z.of_nat k;
           ComponentMatch.ComponentName := name;
           ComponentMatch.ComponentType := "" |}
        (VueParser_Parse fileContent filePath).1) /\
  (forall (fileContent filePath : string) (k : nat) (line name : string),
     SplitLines fileContent !! k = Some line ->
     In name (FindAllStringSubmatch jsxRegex line) ->
     In {| ComponentMatch.FilePath := filePath;
           ComponentMatch.Line := 1 + Z.of_nat k;
           ComponentMatch.ComponentName := name;
           ComponentMatch.ComponentType := "" |}
        (ReactParser_Parse fileContent filePath).1) /\
  (extractTemplateSection vueWithScript).2 = 1 /\
  (extractScriptSection vueWithScript).2 = 7 /\
  VueParser_Parse vueWithScript "App.vue" =
    ([ {| ComponentMatch.FilePath := "App.vue"; ComponentMatch.Line := 3;
          ComponentMatch.ComponentName := "q-form";
          ComponentMatch.ComponentType := "" |};
       {| ComponentMatch.FilePath := "App.vue"; ComponentMatch.Line := 9;
          ComponentMatch.ComponentName := "CustomComponent";
          ComponentMatch.ComponentType := "" |} ], None) /\
  ReactParser_Parse "<Button>Click me</Button>" "App.jsx" =
    ([ {| ComponentMatch.FilePath := "App.jsx"; ComponentMatch.Line := 1;
          ComponentMatch.ComponentName := "Button";
          ComponentMatch.ComponentType := "" |} ], None) /\
  ReactParser_Parse
    ("<Button>Click me</Button>" +:+ String newline "<p><Dialog open /></p>")
    "App.jsx" =
    ([ {| ComponentMatch.FilePath := "App.jsx"; ComponentMatch.Line := 1;
          ComponentMatch.ComponentName := "Button";
          ComponentMatch.ComponentType := "" |};
       {| ComponentMatch.FilePath := "App.jsx"; ComponentMatch.Line := 2;
          ComponentMatch.ComponentName := "Dialog";
          ComponentMatch.ComponentType := "" |} ], None).
Proof.
  refine (conj _ (conj _ (conj _ (conj _ (conj _ (conj _ (conj _ (conj _
            (conj _ (conj _ (conj _ (conj _ _))))))))))));
    [| | | | | | | | |by vm_compute|by vm_compute|by vm_compute
    |split; by vm_compute].
  - intros fileContent sectionContent startLine He Hne.
    apply extractSection_shape in He as (pre & attrs & rest & -> & -> & _); [|done].
    by exists pre, attrs, rest.
  - intros fileContent sectionContent startLine He Hne.
    apply extractSection_shape in He as (pre & attrs & rest & -> & -> & _); [|done].
    by exists pre, attrs, rest.
  - intros fileContent filePath m Hin.
    apply VueParser_Parse_cases in Hin
      as [(sc & sl & He & _ & Hin)|(sc & sl & He & _ & Hin)];
      apply list_elem_of_In, parseWith_elem in Hin
        as (k & line & name & Hk & Hn & _ & ->);
      exists sc, sl, k, line; (split_and!; [|done..]);
      [left|right]; (split; [done|]); by apply list_elem_of_In.
  - intros fileContent filePath m Hin. unfold ReactParser_Parse in Hin.
    apply list_elem_of_In, parseWith_elem in Hin
      as (k & line & name & Hk & Hn & _ & ->).
    exists k, line. split_and!; [done| |done]. by apply list_elem_of_In.
  - intros fileContent filePath m [Hin|Hin].
    + apply VueParser_Parse_cases in Hin
        as [(sc & sl & He & Hne & Hin)|(sc & sl & He & Hne & Hin)];
        by eapply pass_on_section.
    + unfold ReactParser_Parse, parseReactJSXComponents in Hin. cbn [fst] in Hin.
      exact (pass_on_file _ _ _ _ _ Hin).
  - intros pre attrs body rest before Hp Ha Hb.
    exact (extractSection_locates "<template" "</template>" pre attrs body rest
             Hp Ha Hb).
  - intros pre attrs body rest before Hp Ha Hb.
    exact (extractSection_locates "<script" "</script>" pre attrs body rest
             Hp Ha Hb).
  - intros fileContent filePath sectionContent startLine k line name Hne Hk Hcases.
    apply (VueParser_Parse_sections fileContent filePath sectionContent startLine);
      [done|].
    destruct Hcases as [(He & Hn & Hs)|(He & Hn)]; [left|right];
      (split; [done|]); apply list_elem_of_In, parseWith_elem;
      exists k, line, name; split_and!; try done; by apply list_elem_of_In.
  - intros fileContent filePath k line name Hk Hn.
    unfold ReactParser_Parse. cbn [fst].
    apply list_elem_of_In, parseWith_elem.
    exists k, line, name. split_and!; try done. by apply list_elem_of_In.
Qed.

End LineClaims.

(* ===================================================================== *)
(** * The statements at work on the test files                           *)
(* ===================================================================== *)

Lemma Scan_result_witness :
  @scanner.Scan asciiOnly (@fixtures.testScanner asciiOnly) fixtures.testFS
    ["test.vue"; "test.jsx"] "form"
    (@scanner.ScanInOrder asciiOnly (@fixtures.testScanner asciiOnly) fixtures.testFS
       ["test.vue"; "test.jsx"] "form" 0) /\
  let r := (@scanner.ScanInOrder asciiOnly (@fixtures.testScanner asciiOnly)
              fixtures.testFS ["test.vue"; "test.jsx"] "form" 0).1 in
  (ScanResult.ScannedFiles r = Z.of_nat (length ["test.vue"; "test.jsx"]) /\
   ScanResult.TotalCount r = Z.of_nat (length (ScanResult.Matches r)) /\
   ScanResult.ComponentType r = "form" /\
   ScanResult.Matches r ≡ₚ
     flat_map (@contribution asciiOnly (@fixtures.testScanner asciiOnly)
                 fixtures.testFS "form")
              ["test.vue"; "test.jsx"] /\
   ScanResult.Matches r ≡ₚ
     flat_map (@due asciiOnly (@fixtures.testScanner asciiOnly)
                 fixtures.testFS "form")
              ["test.vue"; "test.jsx"] /\
   Forall (fun m => ComponentMatch.ComponentType m = "form")
          (ScanResult.Matches r)) /\
  rawMatches (@fixtures.testScanner asciiOnly) fixtures.testFS "test.vue" =
    [ {| ComponentMatch.FilePath := "test.vue"; ComponentMatch.Line := 3;
         ComponentMatch.ComponentName := "q-form";
         ComponentMatch.ComponentType := "" |} ] /\
  ScanResult.Matches r =
    [ {| ComponentMatch.FilePath := "test.vue"; ComponentMatch.Line := 3;
         ComponentMatch.ComponentName := "q-form";
         ComponentMatch.ComponentType := "form" |} ].
Proof.
  assert (Hrun : @scanner.Scan asciiOnly (@fixtures.testScanner asciiOnly)
                   fixtures.testFS ["test.vue"; "test.jsx"] "form"
                   (@scanner.ScanInOrder asciiOnly (@fixtures.testScanner asciiOnly)
                      fixtures.testFS ["test.vue"; "test.jsx"] "form" 0))
    by (apply ScanInOrder_run; lia).
  split; [exact Hrun|].
  intros r.
  destruct (proj1 (proj2 (@Scan_result asciiOnly (@fixtures.testScanner asciiOnly)
                            fixtures.testFS ["test.vue"; "test.jsx"] "form"))
              _ None Hrun) as (Hfiles & Hcount & Hty & Hperm & Hdue & Hall & _).
  refine (conj (conj Hfiles (conj Hcount (conj Hty (conj Hperm (conj Hdue Hall)))))
            (conj _ _)); vm_compute; reflexivity.
Defined.

Lemma Scan_absorbs_failures_witness :
  @scanner.Scan asciiOnly (@fixtures.testScanner asciiOnly) fixtures.testFS
    ["test.vue"; "nonexistent.vue"] "form"
    (@scanner.ScanInOrder asciiOnly (@fixtures.testScanner asciiOnly) fixtures.testFS
       ["test.vue"; "nonexistent.vue"] "form" 0) /\
  let r := (@scanner.ScanInOrder asciiOnly (@fixtures.testScanner asciiOnly)
              fixtures.testFS ["test.vue"; "nonexistent.vue"] "form" 0).1 in
  @None error = None /\
  ScanResult.Matches r =
    [ {| ComponentMatch.FilePath := "test.vue"; ComponentMatch.Line := 3;
         ComponentMatch.ComponentName := "q-form";
         ComponentMatch.ComponentType := "form" |} ] /\
  ScanResult.TotalCount r = 1 /\
  ScanResult.ScannedFiles r = 2.
Proof.
  assert (Hrun : @scanner.Scan asciiOnly (@fixtures.testScanner asciiOnly)
                   fixtures.testFS ["test.vue"; "nonexistent.vue"] "form"
                   (@scanner.ScanInOrder asciiOnly (@fixtures.testScanner asciiOnly)
                      fixtures.testFS ["test.vue"; "nonexistent.vue"] "form" 0))
    by (apply ScanInOrder_run; lia).
  split; [exact Hrun|].
  exact (proj2 (proj2 (proj2
           (@Scan_absorbs_failures asciiOnly (@fixtures.testScanner asciiOnly)
              fixtures.testFS [] "form")))
           _ None Hrun).
Defined.

Lemma Scan_empty_witness :
  @scanner.Scan asciiOnly (@fixtures.testScanner asciiOnly) fixtures.testFS
    [] "dialog"
    (@scanner.ScanInOrder asciiOnly (@fixtures.testScanner asciiOnly) fixtures.testFS
       [] "dialog" 0) /\
  let r := (@scanner.ScanInOrder asciiOnly (@fixtures.testScanner asciiOnly)
              fixtures.testFS [] "dialog" 0).1 in
  @None error = None /\
  ScanResult.Matches r = [] /\
  length (ScanResult.Matches r) = 0%nat /\
  ScanResult.TotalCount r = 0 /\
  ScanResult.ScannedFiles r = 0 /\
  ScanResult.ComponentType r = "dialog".
Proof.
  assert (Hrun : @scanner.Scan asciiOnly (@fixtures.testScanner asciiOnly)
                   fixtures.testFS [] "dialog"
                   (@scanner.ScanInOrder asciiOnly (@fixtures.testScanner asciiOnly)
                      fixtures.testFS [] "dialog" 0))
    by (apply ScanInOrder_run; lia).
  split; [exact Hrun|].
  exact (proj2 (@Scan_empty asciiOnly (@fixtures.testScanner asciiOnly)
                  fixtures.testFS "dialog") _ None Hrun).
Defined.

Lemma filterByComponentType_frame_witness :
  let m0 := matchOn "test.jsx" 1 5 "Button" in
  let matches := [matchOn "test.jsx" 1 4 "Card"; m0] in
  In m0 matches /\
  (In (scanner.withComponentType "button" m0)
      (@scanner.filterByComponentType asciiOnly (@fixtures.testScanner asciiOnly)
         matches "button") <->
   @registry.MatchesComponentType asciiOnly
     (scanner.registry (@fixtures.testScanner asciiOnly))
     (ComponentMatch.ComponentName m0) "button" = true).
Proof.
  intros m0 matches.
  assert (Hin : In m0 matches) by (simpl; tauto).
  split; [exact Hin|].
  exact (proj2 (proj2 (proj2 (proj2 (proj2
           (@filterByComponentType_frame asciiOnly (@fixtures.testScanner asciiOnly)
              matches "button"))))) m0 Hin).
Defined.

Lemma no_denylisted_name_reported_witness :
  let m := matchOn "test.vue" 1 2 "q-form" in
  In m (@scanner.VueParser_Parse asciiOnly fixtures.vueContent "test.vue").1 /\
  ~ In (ComponentMatch.ComponentName m) scanner.htmlTagNames.
Proof.
  intros m.
  assert (Hin : In m (@scanner.VueParser_Parse asciiOnly fixtures.vueContent
                        "test.vue").1)
    by (vm_compute; tauto).
  split; [exact Hin|].
  exact (proj1 (@no_denylisted_name_reported asciiOnly)
           fixtures.vueContent "test.vue" m Hin).
Defined.

Lemma line_attribution_witness :
  let m := matchOn "test.vue" 1 2 "q-form" in
  let custom := {| ComponentMatch.FilePath := "App.vue";
                   ComponentMatch.Line := 7 + Z.of_nat 2;
                   ComponentMatch.ComponentName := "CustomComponent";
                   ComponentMatch.ComponentType := "" |} in
  ((In m (@scanner.VueParser_Parse asciiOnly fixtures.vueContent "test.vue").1 \/
    In m (scanner.ReactParser_Parse fixtures.vueContent "test.vue").1) /\
   1 <= ComponentMatch.Line m <=
     Z.of_nat (length (GoStrings.SplitLines fixtures.vueContent)) /\
   onReportedLine fixtures.vueContent m) /\
  (GoStrings.Index vueWithScript "<script" = Some (String.length vueBeforeScript) /\
   GoStrings.Index (" setup" +:+ ">") ">" = Some (String.length " setup") /\
   GoStrings.Index (vueScriptRegion +:+ "</script>") "</script>" =
     Some (String.length vueScriptRegion) /\
   scanner.extractScriptSection vueWithScript = (vueScriptRegion, 7)) /\
  (vueScriptRegion <> EmptyString /\
   GoStrings.SplitLines vueScriptRegion !! 2%nat =
     Some "const view = <CustomComponent />" /\
   In "CustomComponent"
      (scanner.FindAllStringSubmatch scanner.jsxRegex
         "const view = <CustomComponent />") /\
   In custom (@scanner.VueParser_Parse asciiOnly vueWithScript "App.vue").1).
Proof.
  intros m custom.
  destruct (@line_attribution asciiOnly)
    as (_ & _ & _ & _ & Hrange & _ & Hscript & Hvue & _).
  assert (Hin : In m (@scanner.VueParser_Parse asciiOnly fixtures.vueContent
                        "test.vue").1 \/
                In m (scanner.ReactParser_Parse fixtures.vueContent "test.vue").1)
    by (left; vm_compute; tauto).
  assert (Hp : GoStrings.Index vueWithScript "<script"
               = Some (String.length vueBeforeScript)) by (vm_compute; reflexivity).
  assert (Ha : GoStrings.Index (" setup" +:+ ">") ">"
               = Some (String.length " setup")) by (vm_compute; reflexivity).
  assert (Hb : GoStrings.Index (vueScriptRegion +:+ "</script>") "</script>"
               = Some (String.length vueScriptRegion)) by (vm_compute; reflexivity).
  assert (He : scanner.extractScriptSection vueWithScript = (vueScriptRegion, 7))
    by exact (Hscript vueBeforeScript " setup" vueScriptRegion "" Hp Ha Hb).
  assert (Hne : vueScriptRegion <> EmptyString) by discriminate.
  assert (Hk : GoStrings.SplitLines vueScriptRegion !! 2%nat
               = Some "const view = <CustomComponent />")
    by (vm_compute; reflexivity).
  assert (Hn : In "CustomComponent"
                 (scanner.FindAllStringSubmatch scanner.jsxRegex
                    "const view = <CustomComponent />"))
    by (vm_compute; tauto).
  refine (conj (conj Hin (Hrange fixtures.vueContent "test.vue" m Hin))
            (conj (conj Hp (conj Ha (conj Hb He)))
               (conj Hne (conj Hk (conj Hn _))))).
  exact (Hvue vueWithScript "App.vue" vueScriptRegion 7 2%nat
           "const view = <CustomComponent />" "CustomComponent" Hne Hk
           (or_intror (conj He Hn))).
Defined.

(* ===================================================================== *)
(** * Further properties                                                 *)
(* ===================================================================== *)

Section Further.
Import GoStrings scanner.
Context `{U : UnicodeTables}.

Lemma span_spec (p : ascii -> bool) (s run tl : string) :
  span p s = (run, tl) ->
  s = run +:+ tl /\ allBytes p run = true /\
  match tl with EmptyString => True | String e _ => p e = false end.
Proof.
  revert run tl. induction s as [|c s IH]; intros run tl; simpl.
  { by intros [= <- <-]. }
  destruct (p c) eqn:Ec; [|by intros [= <- <-]].
  destruct (span p s) as [run' tl'] eqn:E. intros [= <- <-].
  destruct (IH run' tl' eq_refl) as (-> & Hall & Htl).
  rewrite append_cons. simpl. by rewrite Ec, Hall.
Qed.

Lemma span_exact (p : ascii -> bool) (run tl : string) :
  allBytes p run = true ->
  match tl with EmptyString => True | String e _ => p e = false end ->
  span p (run +:+ tl) = (run, tl).
Proof.
  intros Hall Htl. induction run as [|c run IH].
  - rewrite append_nil_l. destruct tl as [|e tl']; [done|]. simpl. by rewrite Htl.
  - cbn [allBytes] in Hall. apply andb_true_iff in Hall as [Hc Hall].
    rewrite append_cons. cbn [span]. by rewrite Hc, IH.
Qed.

(** The matcher agrees with the reading of the tag expressions as regular
    expressions: when no byte that may end a tag may also continue a name,
    which holds of both expressions, [matchTag] finds a match at the first
    byte exactly when the expression has one there, and that match is the
    only one. *)
Theorem matchTag_is_the_expression (re : tagRegex) (s name : string) (n : nat) :
  (forall c, isTagEnd c = true -> nameRest re c = false) ->
  matchTag re s = Some (name, n) <-> tagMatches re s name n.
Proof.
  intros Hdisj. unfold tagMatches. split.
  - unfold matchTag. destruct s as [|c [|d s'']]; try done.
    destruct (Ascii.eqb c "<" && nameStart re d) eqn:E; [|done].
    apply andb_true_iff in E as [->%Ascii.eqb_eq Hd].
    destruct (span (nameRest re) s'') as [run tl] eqn:Es.
    apply span_spec in Es as (-> & Hall & Htl).
    destruct tl as [|e tl'].
    + intros [= <- <-]. exists d, run, EmptyString.
      rewrite !append_nil_r. split_and!; try done. left. split; [done|]. simpl. lia.
    + destruct (isTagEnd e) eqn:Ee; [|done]. intros [= <- <-].
      exists d, run, (String e tl'). split_and!; try done.
      right. by exists e, tl'.
  - intros (d & run & tail & -> & -> & Hd & Hall & Htail).
    unfold matchTag. rewrite append_cons, Hd. simpl.
    destruct Htail as [[-> ->]|(e & tail' & -> & He & ->)].
    + rewrite append_nil_r.
      pose proof (span_exact (nameRest re) run EmptyString Hall I) as Hs.
      rewrite append_nil_r in Hs. by rewrite Hs.
    + rewrite (span_exact (nameRest re) run (String e tail') Hall (Hdisj e He)).
      by rewrite He.
Qed.

(** The two expressions of the program meet the side condition. *)
Lemma tag_end_ends_names (c : ascii) :
  isTagEnd c = true ->
  nameRest templateRegex c = false /\ nameRest jsxRegex c = false.
Proof.
  unfold isTagEnd, templateRegex, jsxRegex, isLetterByte, isUpperByte,
    isLowerByte, isDigitByte. simpl.
  rewrite !orb_true_iff, !N.eqb_eq, !Ascii.eqb_eq.
  intros [[Hb| ->]| ->]; [|by vm_compute..].
  rewrite !orb_false_iff, !andb_false_iff, !N.leb_gt, Ascii.eqb_neq.
  split_and!; try lia.
  intros ->. vm_compute in Hb. destruct Hb as [[[[Hb|Hb]|Hb]|Hb]|Hb]; discriminate Hb.
Qed.


Lemma HasSuffix_distinct (s a b : string) :
  String.length a = String.length b -> a <> b ->
  HasSuffix s a = true -> HasSuffix s b = false.
Proof.
  unfold HasSuffix. intros Hlen Hne [_ Ha%String.eqb_eq]%andb_true_iff.
  rewrite <- Hlen, Ha. apply andb_false_iff. right. by apply String.eqb_neq.
Qed.

(** The two parsers never claim the same path, so that the order of the
    parsers in the scanner does not matter to which one is picked. *)
Theorem parsers_claim_disjoint_paths (filePath : string) :
  (VueParser_SupportsFile filePath = true ->
   ReactParser_SupportsFile filePath = false) /\
  (ReactParser_SupportsFile filePath = true ->
   VueParser_SupportsFile filePath = false).
Proof.
  unfold VueParser_SupportsFile, ReactParser_SupportsFile.
  cbv zeta. set (l := ToLower filePath). split.
  - intros Hv.
    rewrite (HasSuffix_distinct l ".vue" ".jsx"), (HasSuffix_distinct l ".vue" ".tsx");
      done.
  - intros [Hj|Ht]%orb_true_iff.
    + by apply (HasSuffix_distinct l ".jsx" ".vue").
    + by apply (HasSuffix_distinct l ".tsx" ".vue").
Qed.

End Further.

Lemma matchTag_is_the_expression_witness :
  (forall c, scanner.isTagEnd c = true ->
             scanner.nameRest scanner.jsxRegex c = false) /\
  (scanner.matchTag scanner.jsxRegex "<Button>Click me</Button>" =
     Some ("Button", 8%nat) <->
   tagMatches scanner.jsxRegex "<Button>Click me</Button>" "Button" 8).
Proof.
  assert (H : forall c, scanner.isTagEnd c = true ->
                        scanner.nameRest scanner.jsxRegex c = false)
    by (intros c Hc; exact (proj2 (tag_end_ends_names c Hc))).
  split; [exact H|].
  exact (matchTag_is_the_expression scanner.jsxRegex
           "<Button>Click me</Button>" "Button" 8 H).
Defined.


Lemma parsers_claim_disjoint_paths_witness :
  @scanner.VueParser_SupportsFile asciiOnly "src/components/MyComponent.VUE" = true /\
  @scanner.ReactParser_SupportsFile asciiOnly "src/components/MyComponent.VUE" = false.
Proof.
  assert (H : @scanner.VueParser_SupportsFile asciiOnly
                "src/components/MyComponent.VUE" = true) by reflexivity.
  split; [exact H|].
  exact (proj1 (@parsers_claim_disjoint_paths asciiOnly
                  "src/components/MyComponent.VUE") H).
Defined.

(* ===================================================================== *)
(** * Sections that are missing or not closed                            *)
(* ===================================================================== *)

Section MissingSections.
Import GoStrings GoPath scanner.
Context `{U : UnicodeTables}.

(** A text that holds [sub] has an occurrence for [Index] to find. *)
Lemma Contains_app (u sub v : string) : Contains (u +:+ sub +:+ v) sub = true.
Proof.
  unfold Contains. induction u as [|c u IH].
  - rewrite append_nil_l. by rewrite Index_here.
  - rewrite append_cons. cbn [Index].
    destruct (HasPrefix (String c (u +:+ sub +:+ v)) sub); [done|].
    by destruct (Index (u +:+ sub +:+ v) sub).
Qed.

Lemma Contains_shape (s sub : string) :
  Contains s sub = true <-> exists u v, s = u +:+ sub +:+ v.
Proof.
  split.
  - unfold Contains. destruct (Index s sub) as [k|] eqn:E; [|done].
    intros _. apply Index_shape in E as (u & v & -> & _). by exists u, v.
  - intros (u & v & ->). apply Contains_app.
Qed.

Lemma extractSection_found (opening closing content : string) (m2 m3 : nat) :
  findRegion opening closing content 0 = Some (m2, m3) ->
  Contains content opening = true /\ Contains content closing = true.
Proof.
  intros (pre & attrs & body & rest & -> & _)%findRegion_shape. split.
  - apply Contains_app.
  - replace (pre +:+ opening +:+ attrs +:+ ">" +:+ body +:+ closing +:+ rest)
      with ((pre +:+ opening +:+ attrs +:+ ">" +:+ body) +:+ closing +:+ rest)
      by by rewrite !append_assoc.
    apply Contains_app.
Qed.

Lemma extractSection_missing (opening closing content : string) :
  Contains content opening = false \/ Contains content closing = false ->
  extractSection opening closing content = (EmptyString, 0).
Proof.
  intros Hmiss. unfold extractSection.
  destruct (findRegion opening closing content 0) as [[m2 m3]|] eqn:E; [|done].
  apply extractSection_found in E as [Ho Hc]. destruct Hmiss; congruence.
Qed.

(** Neither parser ever reports an error.  A Vue file yields nothing from
    a section whose opening or closing tag is missing: markup that is not
    balanced is passed over, whatever tags stand in it, and a file with
    neither closing tag yields no match at all.  An empty React file
    yields no match. *)
Theorem parsers_tolerate_missing_sections :
  (forall fileContent filePath : string,
     (VueParser_Parse fileContent filePath).2 = None /\
     (ReactParser_Parse fileContent filePath).2 = None) /\
  (forall fileContent : string,
     (Contains fileContent "<template" = false \/
      Contains fileContent "</template>" = false ->
      extractTemplateSection fileContent = (EmptyString, 0)) /\
     (Contains fileContent "<script" = false \/
      Contains fileContent "</script>" = false ->
      extractScriptSection fileContent = (EmptyString, 0))) /\
  (forall fileContent filePath : string,
     Contains fileContent "</template>" = false ->
     (VueParser_Parse fileContent filePath).1 =
       let '(scriptContent, scriptStartLine) := extractScriptSection fileContent in
       if String.eqb scriptContent "" then []
       else parseJSXComponents scriptContent filePath scriptStartLine) /\
  (forall fileContent filePath : string,
     Contains fileContent "</template>" = false ->
     Contains fileContent "</script>" = false ->
     VueParser_Parse fileContent filePath = ([], None)) /\
  (forall filePath : string, ReactParser_Parse "" filePath = ([], None)).
Proof.
  split_and!.
  - intros fileContent filePath. split; [|done].
    unfold VueParser_Parse.
    destruct (extractTemplateSection fileContent).
    by destruct (extractScriptSection fileContent).
  - intros fileContent. split; apply extractSection_missing.
  - intros fileContent filePath Ht. unfold VueParser_Parse.
    unfold extractTemplateSection.
    rewrite (extractSection_missing "<template" "</template>") by by right.
    destruct (extractScriptSection fileContent) as [sc sl]. simpl.
    by destruct (String.eqb sc "").
  - intros fileContent filePath Ht Hs. unfold VueParser_Parse.
    unfold extractTemplateSection, extractScriptSection.
    rewrite (extractSection_missing "<template" "</template>") by by right.
    by rewrite (extractSection_missing "<script" "</script>") by by right.
  - done.
Qed.

End MissingSections.

Lemma parsers_tolerate_missing_sections_witness :
  GoPath.Contains "<template><q-form><Foo/>" "</template>" = false /\
  GoPath.Contains "<template><q-form><Foo/>" "</script>" = false /\
  @scanner.VueParser_Parse asciiOnly "<template><q-form><Foo/>" "a.vue" = ([], None).
Proof.
  assert (Ht : GoPath.Contains "<template><q-form><Foo/>" "</template>" = false)
    by reflexivity.
  assert (Hs : GoPath.Contains "<template><q-form><Foo/>" "</script>" = false)
    by reflexivity.
  split; [exact Ht|]. split; [exact Hs|].
  exact (proj1 (proj2 (proj2 (proj2 (@parsers_tolerate_missing_sections asciiOnly))))
           "<template><q-form><Foo/>" "a.vue" Ht Hs).
Defined.

(* ===================================================================== *)
(** * File discovery                                                     *)
(* ===================================================================== *)

Section DiscoveryFacts.
Import GoStrings GoPath discovery.

Lemma mapBytes_app (f : ascii -> ascii) (a b : string) :
  mapBytes f (a +:+ b) = mapBytes f a +:+ mapBytes f b.
Proof. induction a as [|c a IH]; [done|]. rewrite !append_cons. simpl. by rewrite IH. Qed.

Lemma ToSlash_app (os : GOOS) (a b : string) :
  ToSlash os (a +:+ b) = ToSlash os a +:+ ToSlash os b.
Proof. unfold ToSlash. destruct (Ascii.eqb _ _); [done|]. apply mapBytes_app. Qed.

Lemma Split_nonempty (s : string) (sep : ascii) : Split s sep <> [].
Proof.
  induction s as [|c s IH]; simpl; [done|].
  destruct (Ascii.eqb c sep); [done|]. by destruct (Split s sep).
Qed.

(** The first part of a split text starts the text. *)
Lemma Split_head (s : string) (sep : ascii) (part : string) (parts : list string) :
  Split s sep = part :: parts -> exists v, s = part +:+ v.
Proof.
  revert part parts. induction s as [|c s IH]; intros part parts; simpl.
  { intros [= <- <-]. by exists EmptyString. }
  destruct (Ascii.eqb c sep).
  - intros [= <- <-]. by exists (String c s).
  - pose proof (Split_nonempty s sep).
    destruct (Split s sep) as [|p0 ps]; [done|].
    intros [= <- <-]. destruct (IH p0 ps eq_refl) as [v ->]. by exists v.
Qed.

(** Every part of a split text stands in the text. *)
Lemma Split_elem (s : string) (sep : ascii) (part : string) :
  In part (Split s sep) -> exists u v, s = u +:+ part +:+ v.
Proof.
  revert part. induction s as [|c s IH]; intros part; simpl.
  { intros [<-|[]]. by exists EmptyString, EmptyString. }
  destruct (Ascii.eqb c sep).
  - intros [<-|Hin].
    + by exists EmptyString, (String c s).
    + destruct (IH part Hin) as (u & v & ->). by exists (String c u), v.
  - pose proof (Split_nonempty s sep).
    destruct (Split s sep) as [|p0 ps] eqn:E; [done|].
    intros [<-|Hin].
    + apply Split_head in E as [v ->]. by exists EmptyString, v.
    + destruct (IH part (or_intror Hin)) as (u & v & ->).
      by exists (String c u), v.
Qed.

(** The loop over the parts of the path adds nothing to the test for a
    substring. *)
Lemma matchesPattern_Contains (os : GOOS) (filePath pattern : string) :
  matchesPattern os filePath pattern = Contains (ToSlash os filePath) pattern.
Proof.
  unfold matchesPattern. cbv zeta.
  destruct (Contains (ToSlash os filePath) pattern) eqn:E; [done|].
  apply not_true_iff_false. intros Hex.
  apply existsb_exists in Hex as (part & Hin & ->%String.eqb_eq).
  apply Split_elem in Hin as (u & v & Hs).
  rewrite Hs, Contains_app in E. done.
Qed.

Lemma Contains_within (s a pattern b : string) :
  Contains s (a +:+ pattern +:+ b) = true -> Contains s pattern = true.
Proof.
  intros (u & v & ->)%Contains_shape.
  replace (u +:+ (a +:+ pattern +:+ b) +:+ v)
    with ((u +:+ a) +:+ pattern +:+ (b +:+ v)) by by rewrite !append_assoc.
  apply Contains_app.
Qed.

Lemma ShouldExcludeFile_iff (os : GOOS) (filePath : string) (filter : FileFilter.t) :
  ShouldExcludeFile os filePath filter = true <->
  exists pattern,
    In pattern (FileFilter.ExcludePatterns filter) /\
    Contains (ToSlash os filePath) pattern = true.
Proof.
  unfold ShouldExcludeFile. rewrite existsb_exists.
  split; intros (pattern & Hin & Hm); exists pattern; (split; [done|]);
    by rewrite matchesPattern_Contains in *.
Qed.

End DiscoveryFacts.

Section DiscoveryClaims.
Import GoStrings GoPath discovery.

(** Exclusion is a test for a substring of the whole path: a file is
    excluded exactly when its path, with slashes for separators, holds one
    of the patterns somewhere, be it inside a name ("test" in
    "LatestNews.vue") or in the directories above the scanned root; the
    pass over the components of the path never changes the answer.  An
    empty pattern excludes every file.  Under the filter of [executeScan]
    a file is excluded exactly when its path holds "node_modules", "test"
    or ".spec.". *)
Theorem exclusion_is_by_substring (os : GOOS) :
  (forall filePath pattern : string,
     matchesPattern os filePath pattern = true <->
     exists u v, ToSlash os filePath = u +:+ pattern +:+ v) /\
  (forall (filePath : string) (filter : FileFilter.t),
     ShouldExcludeFile os filePath filter = true <->
     exists pattern u v,
       In pattern (FileFilter.ExcludePatterns filter) /\
       ToSlash os filePath = u +:+ pattern +:+ v) /\
  (forall (above filePath below : string) (filter : FileFilter.t),
     ShouldExcludeFile os filePath filter = true ->
     ShouldExcludeFile os (above +:+ filePath +:+ below) filter = true) /\
  (forall (filePath : string) (filter : FileFilter.t),
     In EmptyString (FileFilter.ExcludePatterns filter) ->
     ShouldExcludeFile os filePath filter = true) /\
  (forall (filePath : string) (options : CLIOptions.t),
     ShouldExcludeFile os filePath (cli.scanFilter options) =
     Contains (ToSlash os filePath) "node_modules"
     || Contains (ToSlash os filePath) "test"
     || Contains (ToSlash os filePath) ".spec.") /\
  (forall options : CLIOptions.t,
     ShouldExcludeFile os "src/components/LatestNews.vue" (cli.scanFilter options)
       = true).
Proof.
  split_and!.
  - intros filePath pattern. by rewrite matchesPattern_Contains, Contains_shape.
  - intros filePath filter. rewrite ShouldExcludeFile_iff.
    split.
    + intros (pattern & Hin & (u & v & Hs)%Contains_shape). by exists pattern, u, v.
    + intros (pattern & u & v & Hin & Hs). exists pattern. split; [done|].
      apply Contains_shape. by exists u, v.
  - intros above filePath below filter.
    rewrite !ShouldExcludeFile_iff. intros (pattern & Hin & Hc).
    exists pattern. split; [done|].
    apply Contains_shape in Hc as (u & v & Hs).
    rewrite !ToSlash_app, Hs.
    replace (ToSlash os above +:+ (u +:+ pattern +:+ v) +:+ ToSlash os below)
      with ((ToSlash os above +:+ u) +:+ pattern +:+ (v +:+ ToSlash os below))
      by by rewrite !append_assoc.
    apply Contains_app.
  - intros filePath filter Hin. apply ShouldExcludeFile_iff.
    exists EmptyString. split; [done|].
    apply (Contains_app EmptyString EmptyString).
  - intros filePath options. unfold ShouldExcludeFile. cbn [cli.scanFilter
      FileFilter.ExcludePatterns existsb].
    rewrite !matchesPattern_Contains.
    set (p := ToSlash os filePath).
    destruct (Contains p "node_modules"); [done|].
    destruct (Contains p "test") eqn:Et; [done|]. cbn [orb].
    assert (H1 : Contains p "tests" = false).
    { apply not_true_iff_false. intros H.
      apply (Contains_within p "" "test" "s") in H. congruence. }
    assert (H2 : Contains p "__tests__" = false).
    { apply not_true_iff_false. intros H.
      apply (Contains_within p "__" "test" "s__") in H. congruence. }
    assert (H3 : Contains p ".test." = false).
    { apply not_true_iff_false. intros H.
      apply (Contains_within p "." "test" ".") in H. congruence. }
    rewrite H1, H2, H3. cbn [orb]. by rewrite orb_false_r.
  - intros options. destruct os; by vm_compute.
Qed.

End DiscoveryClaims.

Lemma exclusion_is_by_substring_witness :
  discovery.ShouldExcludeFile unix "tests/unit/a.vue"
    {| FileFilter.ExcludePatterns := ["tests"];
       FileFilter.IncludeDirectories := [];
       FileFilter.FileExtensions := [] |} = true /\
  discovery.ShouldExcludeFile unix ("/home/dev/" +:+ "tests/unit/a.vue" +:+ "")
    {| FileFilter.ExcludePatterns := ["tests"];
       FileFilter.IncludeDirectories := [];
       FileFilter.FileExtensions := [] |} = true.
Proof.
  assert (H : discovery.ShouldExcludeFile unix "tests/unit/a.vue"
                {| FileFilter.ExcludePatterns := ["tests"];
                   FileFilter.IncludeDirectories := [];
                   FileFilter.FileExtensions := [] |} = true) by reflexivity.
  split; [exact H|].
  exact (proj1 (proj2 (proj2 (exclusion_is_by_substring unix)))
           "/home/dev/" "tests/unit/a.vue" "" _ H).
Defined.

Section ExtensionFacts.
Import GoStrings GoPath discovery scanner.

(** How the loop of [filepath.Ext] ends: on a dot, with the rest of the
    path, in which it met neither a dot nor a separator before. *)
Lemma scanExt_found (os : GOOS) (path ext : string) :
  scanExt os path = ExtFound ext ->
  exists stem tail,
    path = stem +:+ ext /\ ext = String "." tail /\
    scanExt os tail = ExtExhausted.
Proof.
  revert ext. induction path as [|c path IH]; intros ext; simpl; [done|].
  destruct (scanExt os path) as [ext'| |] eqn:E.
  - intros [= <-]. destruct (IH ext' eq_refl) as (stem & tail & -> & -> & Ht).
    by exists (String c stem), tail.
  - done.
  - destruct (IsPathSeparator os c); [done|].
    destruct (Ascii.eqb_spec c ".") as [->|]; [|done].
    intros [= <-]. by exists EmptyString, path.
Qed.

Lemma scanExt_exhausted (os : GOOS) (tail : string) :
  scanExt os tail = ExtExhausted <->
  allBytes (fun c => negb (IsPathSeparator os c) && negb (Ascii.eqb c ".")) tail = true.
Proof.
  induction tail as [|c tail IH]; simpl; [done|].
  rewrite !andb_true_iff, !negb_true_iff, <- IH.
  destruct (scanExt os tail); [split; [done|tauto]..|].
  destruct (IsPathSeparator os c); [split; [done|intros [[? ?] ?]; done]|].
  destruct (Ascii.eqb c "."); [split; [done|intros [[? ?] ?]; done]|done].
Qed.

Lemma substring_app_length (a b : string) :
  substring (String.length a) (String.length b) (a +:+ b) = b.
Proof.
  induction a as [|c a IH]; simpl.
  - rewrite append_nil_l. induction b as [|x b IHb]; simpl; [done|]. by rewrite IHb.
  - done.
Qed.

Lemma HasSuffix_app (a b : string) : HasSuffix (a +:+ b) b = true.
Proof.
  unfold HasSuffix. rewrite append_length.
  replace (String.length a + String.length b - String.length b)%nat
    with (String.length a) by lia.
  rewrite substring_app_length, String.eqb_refl, andb_true_r.
  apply Nat.leb_le. lia.
Qed.

Lemma isASCII_app (a b : string) :
  isASCII (a +:+ b) = isASCII a && isASCII b.
Proof.
  induction a as [|c a IH]; [done|]. rewrite append_cons. simpl.
  by rewrite IH, andb_assoc.
Qed.

(** On an ASCII path the lowered path keeps a lowercase extension. *)
Lemma ToLower_keeps_suffix `{U : UnicodeTables} (stem ext : string) :
  isASCII (stem +:+ ext) = true -> mapBytes lowerByte ext = ext ->
  HasSuffix (ToLower (stem +:+ ext)) ext = true.
Proof.
  intros Hascii Hext. rewrite ToLower_ascii by done.
  rewrite mapBytes_app, Hext. apply HasSuffix_app.
Qed.

End ExtensionFacts.

Section ExtensionClaims.
Import GoStrings GoPath discovery scanner.
Context `{U : UnicodeTables}.

(** An empty list of extensions lets every file through; otherwise a file
    passes exactly when the extension of its path is, byte for byte, in the
    list.  The extension is empty or is what follows the last dot of the
    last component of the path, dot included.  Every file name that
    passes the list of [executeScan] (ASCII path) is claimed by exactly one
    of the two parsers, so that the scanner never has to skip a discovered
    file for want of a parser. *)
Theorem extensions_select_parsable_files (os : GOOS) :
  (forall filePath : string, hasValidExtension os filePath [] = true) /\
  (forall (filePath : string) (extensions : list string),
     extensions <> [] ->
     (hasValidExtension os filePath extensions = true <->
      In (Ext os filePath) extensions)) /\
  (forall filePath : string,
     Ext os filePath = EmptyString \/
     exists stem tail,
       filePath = stem +:+ String "." tail /\
       Ext os filePath = String "." tail /\
       allBytes (fun c => negb (IsPathSeparator os c) && negb (Ascii.eqb c "."))
                tail = true) /\
  (forall (filePath : string) (options : CLIOptions.t),
     isASCII filePath = true ->
     hasValidExtension os filePath
       (FileFilter.FileExtensions (cli.scanFilter options)) = true ->
     exists parser,
       find (fun p => SupportsFile p filePath) (parsers cli.scanScanner)
         = Some parser /\
       (parser = NewVueParser /\ ReactParser_SupportsFile filePath = false \/
        parser = NewReactParser /\ VueParser_SupportsFile filePath = false)).
Proof.
  split_and!.
  - done.
  - intros filePath extensions Hne. unfold hasValidExtension.
    destruct extensions as [|e extensions]; [done|]. cbv zeta.
    rewrite existsb_exists. split.
    + intros (validExt & Hin & ->%String.eqb_eq). done.
    + intros Hin. exists (Ext os filePath). split; [done|]. apply String.eqb_refl.
  - intros filePath. unfold Ext.
    destruct (scanExt os filePath) as [ext| |] eqn:E; [|by left..].
    right. apply scanExt_found in E as (stem & tail & -> & -> & Ht).
    exists stem, tail. split_and!; [done..|]. by apply scanExt_exhausted.
  - intros filePath options Hascii Hext.
    cbn [cli.scanFilter FileFilter.FileExtensions] in Hext.
    unfold hasValidExtension in Hext. cbv zeta in Hext.
    apply existsb_exists in Hext as (validExt & Hin & Heq%String.eqb_eq).
    assert (Hstem : exists stem, filePath = stem +:+ validExt).
    { unfold Ext in Heq. destruct (scanExt os filePath) as [ext| |] eqn:E.
      - apply scanExt_found in E as (stem & tail & -> & _ & _). subst ext.
        by exists stem.
      - subst validExt. simpl in Hin. destruct Hin as [H|[H|[H|[]]]]; discriminate H.
      - subst validExt. simpl in Hin. destruct Hin as [H|[H|[H|[]]]]; discriminate H. }
    destruct Hstem as [stem ->].
    cbn [cli.scanScanner NewComponentScanner parsers find
         SupportsFile NewVueParser NewReactParser].
    assert (Hsuf : HasSuffix (ToLower (stem +:+ validExt)) validExt = true).
    { apply ToLower_keeps_suffix; [done|].
      simpl in Hin. destruct Hin as [<-|[<-|[<-|[]]]]; reflexivity. }
    simpl in Hin. destruct Hin as [<-|[<-|[<-|[]]]].
    + exists NewVueParser. unfold VueParser_SupportsFile. rewrite Hsuf.
      split; [done|]. left. split; [done|].
      unfold ReactParser_SupportsFile. cbv zeta.
      rewrite (HasSuffix_distinct _ ".vue" ".jsx"), (HasSuffix_distinct _ ".vue" ".tsx");
        done.
    + exists NewReactParser. unfold VueParser_SupportsFile.
      rewrite (HasSuffix_distinct _ ".jsx" ".vue") by done.
      unfold ReactParser_SupportsFile at 1. cbv zeta. rewrite Hsuf.
      split; [done|]. by right.
    + exists NewReactParser. unfold VueParser_SupportsFile.
      rewrite (HasSuffix_distinct _ ".tsx" ".vue") by done.
      unfold ReactParser_SupportsFile at 1. cbv zeta. rewrite Hsuf, orb_true_r.
      split; [done|]. by right.
Qed.

End ExtensionClaims.

Lemma extensions_select_parsable_files_witness :
  GoStrings.isASCII "src/components/Login.tsx" = true /\
  discovery.hasValidExtension unix "src/components/Login.tsx"
    (FileFilter.FileExtensions
       (cli.scanFilter (CLIOptions.mk "form" "." [] "terminal"))) = true /\
  exists parser,
    find (fun p => scanner.SupportsFile p "src/components/Login.tsx")
         (scanner.parsers (@cli.scanScanner asciiOnly)) = Some parser /\
    (parser = @scanner.NewVueParser asciiOnly /\
     @scanner.ReactParser_SupportsFile asciiOnly "src/components/Login.tsx" = false \/
     parser = @scanner.NewReactParser asciiOnly /\
     @scanner.VueParser_SupportsFile asciiOnly "src/components/Login.tsx" = false).
Proof.
  assert (Ha : GoStrings.isASCII "src/components/Login.tsx" = true) by reflexivity.
  assert (He : discovery.hasValidExtension unix "src/components/Login.tsx"
                 (FileFilter.FileExtensions
                    (cli.scanFilter (CLIOptions.mk "form" "." [] "terminal"))) = true)
    by reflexivity.
  split; [exact Ha|]. split; [exact He|].
  exact (proj2 (proj2 (proj2 (@extensions_select_parsable_files asciiOnly unix)))
           "src/components/Login.tsx" _ Ha He).
Defined.

Section WalkFacts.
Import GoStrings GoPath discovery.
Context `{R : FilepathRel}.
Variables (os : GOOS) (rootDir : string) (filter : FileFilter.t).

(** The function given to [filepath.Walk], all its early returns taken
    together. *)
Lemma visit_spec (files : list string) (call : walkCall) :
  visit os rootDir filter files call =
  match walkErr call with
  | Some err => (files, Some err)
  | None =>
      (if accepted os rootDir filter call then files ++ [walkPath call] else files,
       None)
  end.
Proof.
  unfold visit, accepted. destruct (walkErr call); [done|].
  destruct (walkIsDir call); [done|].
  destruct (ShouldExcludeFile _ _ _); [done|].
  destruct (hasValidExtension _ _ _); [|done]. simpl.
  destruct (FileFilter.IncludeDirectories filter) as [|d dirs]; [done|]. simpl.
  by destruct (isInIncludedDirectory _ _ _ _).
Qed.

Lemma Walk_spec (calls : list walkCall) (files : list string) :
  exists visited notVisited,
    calls = visited ++ notVisited /\
    Forall (fun call => walkErr call = None) visited /\
    (Walk os rootDir filter calls files).1 =
      files ++ map walkPath (List.filter (accepted os rootDir filter) visited) /\
    match (Walk os rootDir filter calls files).2 with
    | None => notVisited = []
    | Some err =>
        exists call rest, notVisited = call :: rest /\ walkErr call = Some err
    end.
Proof.
  revert files. induction calls as [|call calls IH]; intros files.
  { exists [], []. simpl. by rewrite app_nil_r. }
  cbn [Walk]. rewrite visit_spec.
  destruct (walkErr call) as [err|] eqn:Eerr.
  - exists [], (call :: calls). simpl. rewrite app_nil_r.
    split_and!; [done|constructor|done|]. by exists call, calls.
  - destruct (IH (if accepted os rootDir filter call
                  then files ++ [walkPath call] else files))
      as (visited & notVisited & -> & Hall & Hfiles & Herr).
    exists (call :: visited), notVisited.
    split_and!; [done|by constructor| |done].
    rewrite Hfiles. simpl.
    destruct (accepted os rootDir filter call); [|done].
    by rewrite <- app_assoc.
Qed.

End WalkFacts.

Section WalkClaims.
Import GoStrings GoPath discovery.
Context `{R : FilepathRel}.

(** [DiscoverFiles] returns, in the order of the walk, the paths of the
    entries visited before the first failing visit that are files, are not
    excluded, bear one of the extensions and, when directories to include
    are given, lie in one of them.  Without a failing visit every entry is
    visited and the error is nil; otherwise the error of that visit is
    returned, together with the files found so far. *)
Theorem DiscoverFiles_lists_accepted_files (os : GOOS) (calls : list walkCall)
    (rootDir : string) (filter : FileFilter.t) :
  (exists visited notVisited,
     calls = visited ++ notVisited /\
     Forall (fun call => walkErr call = None) visited /\
     (DiscoverFiles os calls rootDir filter).1 =
       map walkPath (List.filter (accepted os rootDir filter) visited) /\
     match (DiscoverFiles os calls rootDir filter).2 with
     | None => notVisited = []
     | Some err =>
         exists call rest, notVisited = call :: rest /\ walkErr call = Some err
     end) /\
  (forall filePath : string,
     In filePath (DiscoverFiles os calls rootDir filter).1 ->
     (exists call, In call calls /\ walkPath call = filePath /\
                   walkIsDir call = false) /\
     ShouldExcludeFile os filePath filter = false /\
     hasValidExtension os filePath (FileFilter.FileExtensions filter) = true /\
     (FileFilter.IncludeDirectories filter <> [] ->
      isInIncludedDirectory os filePath rootDir
        (FileFilter.IncludeDirectories filter) = true)) /\
  (Forall (fun call => walkErr call = None) calls ->
   DiscoverFiles os calls rootDir filter =
     (map walkPath (List.filter (accepted os rootDir filter) calls), None)).
Proof.
  destruct (Walk_spec os rootDir filter calls [])
    as (visited & notVisited & Hcalls & Hall & Hfiles & Herr).
  split_and!.
  - by exists visited, notVisited.
  - intros filePath Hin. unfold DiscoverFiles in Hin. rewrite Hfiles in Hin.
    simpl in Hin. apply in_map_iff in Hin as (call & <- & Hin).
    apply filter_In in Hin as [Hin Hacc].
    unfold accepted in Hacc.
    apply andb_true_iff in Hacc as [[[Hd He]%andb_true_iff Hx]%andb_true_iff Hi].
    apply negb_true_iff in Hd, He.
    split_and!; try done.
    + exists call. split_and!; try done. rewrite Hcalls. apply in_app_iff. by left.
    + intros Hne. by destruct (FileFilter.IncludeDirectories filter).
  - intros Hnoerr. unfold DiscoverFiles.
    destruct (Walk os rootDir filter calls []) as [files err] eqn:Ew.
    simpl in Hfiles, Herr. destruct err as [err|].
    + destruct Herr as (call & rest & -> & Hcall). subst calls.
      apply Forall_app in Hnoerr as [_ Hnoerr].
      apply Forall_cons in Hnoerr as [Hnoerr _]. congruence.
    + subst notVisited. rewrite app_nil_r in Hcalls. by subst.
Qed.

End WalkClaims.

Lemma DiscoverFiles_lists_accepted_files_witness :
  let filter := cli.scanFilter (CLIOptions.mk "form" "." [] "terminal") in
  Forall (fun call => discovery.walkErr call = None) sampleWalk /\
  @discovery.DiscoverFiles relFromDot unix sampleWalk "." filter =
    (["src/App.vue"; "src/Login.tsx"], None).
Proof.
  intros filter.
  assert (H : Forall (fun call => discovery.walkErr call = None) sampleWalk)
    by (repeat constructor).
  split; [exact H|].
  rewrite (proj2 (proj2 (@DiscoverFiles_lists_accepted_files relFromDot unix
                           sampleWalk "." filter)) H).
  reflexivity.
Defined.

(* ===================================================================== *)
(** * From the scan back to the files                                    *)
(* ===================================================================== *)

Section ScanOrigins.
Import GoStrings scanner.
Context `{U : UnicodeTables}.

(** Raw matches bear the path they were parsed under and no type yet. *)
Lemma parseWith_fields (re : tagRegex) (skipName : string -> bool)
    (content filePath : string) (base : Z) (m : ComponentMatch.t) :
  In m (parseWith re skipName content filePath base) ->
  ComponentMatch.FilePath m = filePath /\ ComponentMatch.ComponentType m = EmptyString.
Proof.
  by intros (k & line & name & _ & _ & _ & ->)%list_elem_of_In%parseWith_elem.
Qed.

Lemma VueParser_Parse_fields (fileContent filePath : string) (m : ComponentMatch.t) :
  In m (VueParser_Parse fileContent filePath).1 ->
  ComponentMatch.FilePath m = filePath /\ ComponentMatch.ComponentType m = EmptyString.
Proof.
  intros [(sc & sl & _ & _ & Hin)|(sc & sl & _ & _ & Hin)]%VueParser_Parse_cases;
    by eapply parseWith_fields.
Qed.

Lemma ReactParser_Parse_fields (fileContent filePath : string) (m : ComponentMatch.t) :
  In m (ReactParser_Parse fileContent filePath).1 ->
  ComponentMatch.FilePath m = filePath /\ ComponentMatch.ComponentType m = EmptyString.
Proof. unfold ReactParser_Parse. cbn [fst]. apply parseWith_fields. Qed.

Lemma builtin_Parse_real (parser : ComponentParser) (fileContent filePath : string)
    (m : ComponentMatch.t) :
  In parser [NewVueParser; NewReactParser] ->
  In m (Parse parser fileContent filePath).1 ->
  ComponentMatch.FilePath m = filePath /\
  1 <= ComponentMatch.Line m <= Z.of_nat (length (SplitLines fileContent)) /\
  onReportedLine fileContent m.
Proof.
  intros [<-|[<-|[]]] Hin; cbn [Parse NewVueParser NewReactParser] in Hin.
  - split; [by eapply VueParser_Parse_fields|].
    apply VueParser_Parse_cases in Hin
      as [(sc & sl & He & Hne & Hin)|(sc & sl & He & Hne & Hin)];
      by eapply pass_on_section.
  - split; [by eapply ReactParser_Parse_fields|].
    unfold ReactParser_Parse, parseReactJSXComponents in Hin. cbn [fst] in Hin.
    exact (pass_on_file _ _ _ _ _ Hin).
Qed.

Lemma contribution_elem (s : ComponentScanner) (fs : FileSystem)
    (requestedType path : string) (m : ComponentMatch.t) :
  In m (contribution s fs requestedType path) <->
  exists parser content raw,
    find (fun p => SupportsFile p path) (parsers s) = Some parser /\
    fs path = Some content /\
    Parse parser content path = (raw, None) /\
    exists m0, In m0 raw /\
      registry.MatchesComponentType (registry s)
        (ComponentMatch.ComponentName m0) requestedType = true /\
      m = withComponentType requestedType m0.
Proof.
  unfold contribution. split.
  - destruct (find _ _) as [parser|]; [|done].
    destruct (fs path) as [content|]; [|done].
    destruct (Parse parser content path) as [raw [err|]] eqn:Ep; [done|].
    intros (m0 & <- & [Hin Hc]%filter_In)%in_map_iff.
    exists parser, content, raw. split_and!; try done. by exists m0.
  - intros (parser & content & raw & -> & -> & -> & m0 & Hin & Hc & ->).
    apply in_map, filter_In. done.
Qed.

(** Every match [Scan] returns stems from a raw match of a file of the
    list, read and parsed by the first parser that supports it, whose name
    the registry accepts for the requested type, and every such raw match is
    returned.  With the two parsers of the program a returned match names
    a file of the list that could be read, bears the requested type and a
    name the registry accepts, and points to a line of that very file on
    which the tag stands. *)
Theorem Scan_reports_what_the_files_hold :
  (forall (s : ComponentScanner) (fs : FileSystem) (files : list string)
          (requestedType : string) (r : ScanResult.t) (e : option error)
          (m : ComponentMatch.t),
     Scan s fs files requestedType (r, e) ->
     (In m (ScanResult.Matches r) <->
      exists path parser content raw m0,
        In path files /\
        find (fun p => SupportsFile p path) (parsers s) = Some parser /\
        fs path = Some content /\
        Parse parser content path = (raw, None) /\
        In m0 raw /\
        registry.MatchesComponentType (registry s)
          (ComponentMatch.ComponentName m0) requestedType = true /\
        m = withComponentType requestedType m0)) /\
  (forall (reg : registry.ComponentMappingRegistry) (fs : FileSystem)
          (files : list string) (requestedType : string)
          (r : ScanResult.t) (e : option error) (m : ComponentMatch.t),
     Scan (NewComponentScanner [NewVueParser; NewReactParser] reg)
          fs files requestedType (r, e) ->
     In m (ScanResult.Matches r) ->
     exists content,
       In (ComponentMatch.FilePath m) files /\
       fs (ComponentMatch.FilePath m) = Some content /\
       ComponentMatch.ComponentType m = requestedType /\
       registry.MatchesComponentType reg (ComponentMatch.ComponentName m)
         requestedType = true /\
       1 <= ComponentMatch.Line m <= Z.of_nat (length (SplitLines content)) /\
       onReportedLine content m).
Proof.
  assert (Hgen : forall (s : ComponentScanner) (fs : FileSystem) (files : list string)
          (requestedType : string) (r : ScanResult.t) (e : option error)
          (m : ComponentMatch.t),
     Scan s fs files requestedType (r, e) ->
     (In m (ScanResult.Matches r) <->
      exists path parser content raw m0,
        In path files /\
        find (fun p => SupportsFile p path) (parsers s) = Some parser /\
        fs path = Some content /\
        Parse parser content path = (raw, None) /\
        In m0 raw /\
        registry.MatchesComponentType (registry s)
          (ComponentMatch.ComponentName m0) requestedType = true /\
        m = withComponentType requestedType m0)).
  { intros s fs files requestedType r e m Hscan.
    apply Scan_matches in Hscan.
    rewrite <- list_elem_of_In, Hscan, list_elem_of_In, in_flat_map.
    split.
    - intros (path & Hpath & (parser & content & raw & Hf & Hfs & Hp & m0 & H0 & Hc & ->)
                              %contribution_elem).
      by exists path, parser, content, raw, m0.
    - intros (path & parser & content & raw & m0 & Hpath & Hf & Hfs & Hp & H0 & Hc & ->).
      exists path. split; [done|]. apply contribution_elem.
      exists parser, content, raw. split_and!; try done. by exists m0. }
  split; [exact Hgen|].
  intros reg fs files requestedType r e m Hscan Hin.
  apply (Hgen _ _ _ _ _ _ m Hscan) in Hin
    as (path & parser & content & raw & m0 & Hpath & Hf & Hfs & Hp & H0 & Hc & ->).
  apply find_some in Hf as [Hparser _].
  cbn [NewComponentScanner parsers] in Hparser.
  assert (Hraw : In m0 (Parse parser content path).1) by by rewrite Hp.
  destruct (builtin_Parse_real parser content path m0 Hparser Hraw)
    as (Hfp & Hline & Hon).
  exists content.
  cbn [withComponentType ComponentMatch.FilePath ComponentMatch.ComponentType
       ComponentMatch.ComponentName ComponentMatch.Line].
  cbn [NewComponentScanner registry] in Hc.
  rewrite Hfp. split_and!; try done; lia.
Qed.

End ScanOrigins.

Lemma Scan_reports_what_the_files_hold_witness :
  let m := {| ComponentMatch.FilePath := "test.jsx"; ComponentMatch.Line := 6;
              ComponentMatch.ComponentName := "Button";
              ComponentMatch.ComponentType := "button" |} in
  let out := @scanner.ScanInOrder asciiOnly (@fixtures.testScanner asciiOnly)
               fixtures.testFS ["test.vue"; "test.jsx"] "button" 0 in
  @scanner.Scan asciiOnly (@fixtures.testScanner asciiOnly) fixtures.testFS
    ["test.vue"; "test.jsx"] "button" out /\
  In m (ScanResult.Matches out.1) /\
  exists content,
    In (ComponentMatch.FilePath m) ["test.vue"; "test.jsx"] /\
    fixtures.testFS (ComponentMatch.FilePath m) = Some content /\
    ComponentMatch.ComponentType m = "button" /\
    @registry.MatchesComponentType asciiOnly registry.NewComponentMappingRegistry
      (ComponentMatch.ComponentName m) "button" = true /\
    1 <= ComponentMatch.Line m <= Z.of_nat (length (GoStrings.SplitLines content)) /\
    onReportedLine content m.
Proof.
  intros m out.
  assert (Hrun : @scanner.Scan asciiOnly (@fixtures.testScanner asciiOnly)
                   fixtures.testFS ["test.vue"; "test.jsx"] "button" out)
    by (apply ScanInOrder_run; lia).
  assert (Hin : In m (ScanResult.Matches out.1)) by (vm_compute; tauto).
  split; [exact Hrun|]. split; [exact Hin|].
  exact (proj2 (@Scan_reports_what_the_files_hold asciiOnly)
           registry.NewComponentMappingRegistry fixtures.testFS
           ["test.vue"; "test.jsx"] "button" out.1 None m Hrun Hin).
Defined.

(* ===================================================================== *)
(** * Names, letter case and the Unicode tables                          *)
(* ===================================================================== *)

Section NameFacts.
Import GoStrings scanner.

Lemma matchTag_classes (re : tagRegex) (s name : string) (n : nat) :
  matchTag re s = Some (name, n) ->
  exists d run,
    name = String d run /\ nameStart re d = true /\
    allBytes (nameRest re) run = true.
Proof.
  unfold matchTag. destruct s as [|c [|d s'']]; try done.
  destruct (Ascii.eqb c "<" && nameStart re d) eqn:E; [|done].
  apply andb_true_iff in E as [_ Hd].
  destruct (span (nameRest re) s'') as [run tl] eqn:Es.
  apply span_spec in Es as (_ & Hall & _).
  intros Hm. exists d, run.
  destruct tl as [|e tl']; [|destruct (isTagEnd e); [|done]];
    injection Hm as <- _; done.
Qed.

Lemma FindAllStringSubmatch_classes (re : tagRegex) (line name : string) :
  name ∈ FindAllStringSubmatch re line ->
  exists d run,
    name = String d run /\ nameStart re d = true /\
    allBytes (nameRest re) run = true.
Proof.
  intros (before & s' & n & _ & Hm)%findAllFrom_elem.
  by eapply matchTag_classes.
Qed.

Lemma allBytes_impl (p q : ascii -> bool) (s : string) :
  (forall c, p c = true -> q c = true) ->
  allBytes p s = true -> allBytes q s = true.
Proof.
  intros Hpq. induction s as [|c s IH]; simpl; [done|].
  intros [Hc Hs]%andb_true_iff. by rewrite (Hpq c Hc), IH.
Qed.

Lemma allBytes_isASCII (s : string) :
  allBytes (fun c => (byte_of c <? RuneSelf)%N) s = isASCII s.
Proof. induction s as [|c s IH]; simpl; [done|]. by rewrite IH. Qed.

Lemma letter_is_ascii (c : ascii) :
  isLetterByte c = true -> (byte_of c <? RuneSelf)%N = true.
Proof.
  unfold isLetterByte, isUpperByte, isLowerByte, RuneSelf.
  rewrite orb_true_iff, !andb_true_iff, !N.leb_le, N.ltb_lt. lia.
Qed.

Lemma nameRest_template_is_ascii (c : ascii) :
  nameRest templateRegex c = true -> (byte_of c <? RuneSelf)%N = true.
Proof.
  simpl. rewrite !orb_true_iff. intros [[Hl|Hd]|Hh].
  - by apply letter_is_ascii.
  - unfold isDigitByte, RuneSelf in *.
    rewrite andb_true_iff, !N.leb_le in Hd. apply N.ltb_lt. lia.
  - by apply Ascii.eqb_eq in Hh as ->.
Qed.

Lemma jsx_classes_in_template_classes (c : ascii) :
  (nameStart jsxRegex c = true -> nameStart templateRegex c = true) /\
  (nameRest jsxRegex c = true -> nameRest templateRegex c = true).
Proof.
  simpl. unfold isLetterByte. split; intros H; rewrite H; by rewrite ?orb_true_r.
Qed.

(** The names of both expressions are names of the template expression,
    and those are ASCII. *)
Lemma found_name_shape (re : tagRegex) (line name : string) :
  re = templateRegex \/ re = jsxRegex ->
  name ∈ FindAllStringSubmatch re line ->
  (exists d run,
     name = String d run /\ isLetterByte d = true /\
     allBytes (nameRest templateRegex) run = true) /\
  isASCII name = true.
Proof.
  intros Hre (d & run & -> & Hd & Hrun)%FindAllStringSubmatch_classes.
  assert (Hd' : isLetterByte d = true).
  { destruct Hre as [-> | ->]; [done|]. by apply (jsx_classes_in_template_classes d). }
  assert (Hrun' : allBytes (nameRest templateRegex) run = true).
  { destruct Hre as [-> | ->]; [done|].
    eapply allBytes_impl; [|exact Hrun]. intros c. apply jsx_classes_in_template_classes. }
  split; [by exists d, run|].
  simpl. rewrite (letter_is_ascii d Hd'). simpl.
  rewrite <- allBytes_isASCII.
  eapply allBytes_impl; [|exact Hrun']. apply nameRest_template_is_ascii.
Qed.

Context `{U : UnicodeTables}.

Lemma builtin_Parse_names (parser : ComponentParser) (fileContent filePath : string)
    (m : ComponentMatch.t) :
  In parser [NewVueParser; NewReactParser] ->
  In m (Parse parser fileContent filePath).1 ->
  (exists d run,
     ComponentMatch.ComponentName m = String d run /\ isLetterByte d = true /\
     allBytes (nameRest templateRegex) run = true) /\
  isASCII (ComponentMatch.ComponentName m) = true.
Proof.
  intros [<-|[<-|[]]] Hin; cbn [Parse NewVueParser NewReactParser] in Hin.
  - apply VueParser_Parse_cases in Hin
      as [(sc & sl & _ & _ & Hin)|(sc & sl & _ & _ & Hin)];
      apply list_elem_of_In, parseWith_elem in Hin
        as (k & line & name & _ & Hn & _ & ->);
      (eapply found_name_shape; [|exact Hn]); tauto.
  - unfold ReactParser_Parse in Hin. cbn [fst] in Hin.
    apply list_elem_of_In, parseWith_elem in Hin
      as (k & line & name & _ & Hn & _ & ->).
    (eapply found_name_shape; [|exact Hn]); tauto.
Qed.

(** A raw match of either parser bears the path it was parsed under, an
    empty type, and a name that is never empty: a letter followed by
    letters, digits and hyphens, all of them ASCII. *)
Theorem raw_matches_are_tag_names (fileContent filePath : string)
    (m : ComponentMatch.t) :
  In m (VueParser_Parse fileContent filePath).1 \/
  In m (ReactParser_Parse fileContent filePath).1 ->
  ComponentMatch.FilePath m = filePath /\
  ComponentMatch.ComponentType m = EmptyString /\
  (exists d run,
     ComponentMatch.ComponentName m = String d run /\ isLetterByte d = true /\
     allBytes (fun c => isLetterByte c || isDigitByte c || Ascii.eqb c "-") run
       = true) /\
  isASCII (ComponentMatch.ComponentName m) = true.
Proof.
  intros Hin.
  assert (Hf : ComponentMatch.FilePath m = filePath /\
               ComponentMatch.ComponentType m = EmptyString).
  { destruct Hin; [by eapply VueParser_Parse_fields
                  | by eapply ReactParser_Parse_fields]. }
  assert (Hn : (exists d run,
                  ComponentMatch.ComponentName m = String d run /\
                  isLetterByte d = true /\
                  allBytes (nameRest templateRegex) run = true) /\
               isASCII (ComponentMatch.ComponentName m) = true).
  { destruct Hin as [Hin|Hin].
    - apply (builtin_Parse_names NewVueParser fileContent filePath); [simpl; tauto|done].
    - apply (builtin_Parse_names NewReactParser fileContent filePath);
        [simpl; tauto|done]. }
  destruct Hf, Hn. done.
Qed.

End NameFacts.

Lemma raw_matches_are_tag_names_witness :
  let m := matchOn "test.vue" 1 2 "q-form" in
  (In m (@scanner.VueParser_Parse asciiOnly fixtures.vueContent "test.vue").1 \/
   In m (scanner.ReactParser_Parse fixtures.vueContent "test.vue").1) /\
  ComponentMatch.FilePath m = "test.vue" /\
  ComponentMatch.ComponentType m = EmptyString /\
  (exists d run,
     ComponentMatch.ComponentName m = String d run /\
     scanner.isLetterByte d = true /\
     allBytes (fun c => scanner.isLetterByte c || GoStrings.isDigitByte c
                        || Ascii.eqb c "-") run = true) /\
  GoStrings.isASCII (ComponentMatch.ComponentName m) = true.
Proof.
  intros m.
  assert (Hin : In m (@scanner.VueParser_Parse asciiOnly fixtures.vueContent
                        "test.vue").1 \/
                In m (scanner.ReactParser_Parse fixtures.vueContent "test.vue").1)
    by (left; vm_compute; tauto).
  split; [exact Hin|].
  exact (@raw_matches_are_tag_names asciiOnly fixtures.vueContent "test.vue" m Hin).
Defined.

(* ===================================================================== *)
(** * The known types side by side                                       *)
(* ===================================================================== *)

Section TypeFacts.
Import GoStrings registry.
Context `{U : UnicodeTables}.

(** On an ASCII name and a type with an entry, the registry compares the
    lower-cased bytes of the name with those of the registered names. *)
Lemma MatchesComponentType_ascii (name ty : string) :
  isASCII name = true ->
  In (ToLower ty) knownTypes ->
  MatchesComponentType NewComponentMappingRegistry name ty = true <->
  exists pattern,
    registeredUnder NewComponentMappingRegistry (ToLower ty) pattern /\
    mapBytes lowerByte name = mapBytes lowerByte pattern.
Proof.
  intros Hname Hk. destruct (mappings_known _ Hk) as [mapping Hm].
  rewrite (MatchesComponentType_known _ _ _ mapping Hm). split.
  - intros (library & names & pattern & Hl & Hp & Hf). exists pattern.
    assert (Hr : registeredUnder NewComponentMappingRegistry (ToLower ty) pattern)
      by (by exists mapping, library, names).
    split; [done|].
    rewrite EqualFold_ascii in Hf; [by apply String.eqb_eq|done|].
    by eapply registeredUnder_ascii.
  - intros (pattern & Hr & Heq).
    pose proof (registeredUnder_ascii _ _ Hk Hr) as Hascii.
    destruct Hr as (mapping' & library & names & Hm' & Hl & Hp).
    rewrite Hm in Hm'. injection Hm' as <-.
    exists library, names, pattern. split_and!; try done.
    rewrite EqualFold_ascii by done. by apply String.eqb_eq.
Qed.

Lemma lists_apart (l1 l2 : list string) (p1 p2 : string) :
  forallb (fun a =>
             forallb (fun b => negb (String.eqb (mapBytes lowerByte a)
                                                (mapBytes lowerByte b))) l2) l1
    = true ->
  In p1 l1 -> In p2 l2 ->
  mapBytes lowerByte p1 <> mapBytes lowerByte p2.
Proof.
  intros Hall H1 H2 Heq.
  rewrite forallb_forall in Hall. specialize (Hall p1 H1).
  rewrite forallb_forall in Hall. specialize (Hall p2 H2).
  apply negb_true_iff, String.eqb_neq in Hall. done.
Qed.

(** No two entries of the registry share a name, letter case apart. *)
Lemma registered_names_apart (k1 k2 p1 p2 : string) :
  In k1 knownTypes -> In k2 knownTypes ->
  registeredUnder NewComponentMappingRegistry k1 p1 ->
  registeredUnder NewComponentMappingRegistry k2 p2 ->
  mapBytes lowerByte p1 = mapBytes lowerByte p2 ->
  k1 = k2.
Proof.
  intros [<-|[<-|[<-|[]]]] [<-|[<-|[<-|[]]]] H1 H2 Heq; try reflexivity;
    exfalso;
    first [apply registeredUnder_form in H1 | apply registeredUnder_button in H1
          | apply registeredUnder_dialog in H1];
    first [apply registeredUnder_form in H2 | apply registeredUnder_button in H2
          | apply registeredUnder_dialog in H2];
    refine (lists_apart _ _ p1 p2 _ H1 H2 Heq); reflexivity.
Qed.

Lemma lowerByte_idem (c : ascii) : lowerByte (lowerByte c) = lowerByte c.
Proof.
  unfold lowerByte at 1. destruct (isUpperByte (lowerByte c)) eqn:E; [|done].
  exfalso. revert E. unfold lowerByte.
  destruct (isUpperByte c) eqn:Ec.
  - unfold isUpperByte in *. apply andb_true_iff in Ec as [E1 E2].
    apply N.leb_le in E1, E2.
    unfold byte_of in *. rewrite N_ascii_embedding by lia.
    rewrite andb_true_iff, !N.leb_le. lia.
  - congruence.
Qed.

Lemma mapBytes_lowerByte_idem (s : string) :
  mapBytes lowerByte (mapBytes lowerByte s) = mapBytes lowerByte s.
Proof. induction s as [|c s IH]; simpl; [done|]. by rewrite lowerByte_idem, IH. Qed.

Lemma isASCII_lower (s : string) :
  isASCII s = true -> isASCII (mapBytes lowerByte s) = true.
Proof.
  induction s as [|c s IH]; simpl; [done|].
  intros [Hc Hs]%andb_true_iff. rewrite IH by done.
  rewrite andb_true_r. clear IH Hs. revert Hc.
  unfold lowerByte. destruct (isUpperByte c) eqn:Ec; [|done].
  unfold isUpperByte, RuneSelf, byte_of in *.
  apply andb_true_iff in Ec as [E1 E2]. apply N.leb_le in E1, E2.
  rewrite N_ascii_embedding by lia. rewrite !N.ltb_lt. lia.
Qed.

Lemma knownTypes_lower (k : string) : In k knownTypes -> ToLower k = k.
Proof.
  intros [<-|[<-|[<-|[]]]]; by rewrite ToLower_ascii.
Qed.

(** The entries of the registry do not overlap.  An ASCII name matches at
    most one of the known types, in whatever letter case the types are
    written; and every registered name matches the type it is registered
    under, as written in the registry and in lower case. *)
Theorem known_types_are_exclusive :
  (forall name ty1 ty2 : string,
     isASCII name = true ->
     In (ToLower ty1) knownTypes -> In (ToLower ty2) knownTypes ->
     MatchesComponentType NewComponentMappingRegistry name ty1 = true ->
     MatchesComponentType NewComponentMappingRegistry name ty2 = true ->
     ToLower ty1 = ToLower ty2) /\
  (forall k pattern : string,
     In k knownTypes ->
     registeredUnder NewComponentMappingRegistry k pattern ->
     MatchesComponentType NewComponentMappingRegistry pattern k = true /\
     MatchesComponentType NewComponentMappingRegistry
       (mapBytes lowerByte pattern) k = true).
Proof.
  split.
  - intros name ty1 ty2 Hname Hk1 Hk2 H1 H2.
    apply MatchesComponentType_ascii in H1 as (p1 & Hr1 & He1); [|done..].
    apply MatchesComponentType_ascii in H2 as (p2 & Hr2 & He2); [|done..].
    apply (registered_names_apart _ _ p1 p2); try done. congruence.
  - intros k pattern Hk Hr.
    pose proof (registeredUnder_ascii _ _ Hk Hr) as Hascii.
    pose proof (knownTypes_lower k Hk) as Hlow.
    assert (Hk' : In (ToLower k) knownTypes) by by rewrite Hlow.
    split.
    + apply MatchesComponentType_ascii; [done..|].
      exists pattern. by rewrite Hlow.
    + apply MatchesComponentType_ascii; [by apply isASCII_lower|done|].
      exists pattern. rewrite Hlow. split; [done|]. apply mapBytes_lowerByte_idem.
Qed.

End TypeFacts.

Lemma known_types_are_exclusive_witness :
  GoStrings.isASCII "QBtn" = true /\
  In (@GoStrings.ToLower asciiOnly "Button") knownTypes /\
  In (@GoStrings.ToLower asciiOnly "BUTTON") knownTypes /\
  @registry.MatchesComponentType asciiOnly registry.NewComponentMappingRegistry
    "QBtn" "Button" = true /\
  @registry.MatchesComponentType asciiOnly registry.NewComponentMappingRegistry
    "QBtn" "BUTTON" = true /\
  @GoStrings.ToLower asciiOnly "Button" = @GoStrings.ToLower asciiOnly "BUTTON".
Proof.
  assert (H1 : GoStrings.isASCII "QBtn" = true) by reflexivity.
  assert (H2 : In (@GoStrings.ToLower asciiOnly "Button") knownTypes)
    by (vm_compute; tauto).
  assert (H3 : In (@GoStrings.ToLower asciiOnly "BUTTON") knownTypes)
    by (vm_compute; tauto).
  assert (H4 : @registry.MatchesComponentType asciiOnly
                 registry.NewComponentMappingRegistry "QBtn" "Button" = true)
    by (vm_compute; reflexivity).
  assert (H5 : @registry.MatchesComponentType asciiOnly
                 registry.NewComponentMappingRegistry "QBtn" "BUTTON" = true)
    by (vm_compute; reflexivity).
  refine (conj H1 (conj H2 (conj H3 (conj H4 (conj H5 _))))).
  exact (proj1 (@known_types_are_exclusive asciiOnly) "QBtn" "Button" "BUTTON"
           H1 H2 H3 H4 H5).
Defined.

(* ===================================================================== *)
(** * The controller: discovery, scan and registry put together          *)
(* ===================================================================== *)

Section ControllerFacts.
Import GoStrings GoPath scanner discovery cli.
Context `{U : UnicodeTables} `{R : FilepathRel}.

Lemma DiscoverFiles_elem (os : GOOS) (calls : list walkCall) (rootDir : string)
    (filter : FileFilter.t) (filePath : string) :
  In filePath (DiscoverFiles os calls rootDir filter).1 ->
  exists call,
    In call calls /\ walkPath call = filePath /\ walkErr call = None /\
    accepted os rootDir filter call = true.
Proof.
  unfold DiscoverFiles.
  destruct (Walk_spec os rootDir filter calls [])
    as (visited & notVisited & -> & Hall & Hfiles & _).
  rewrite Hfiles. simpl.
  intros (call & <- & [Hin Hacc]%filter_In)%in_map_iff.
  exists call. split_and!; try done.
  - apply in_app_iff. by left.
  - rewrite Forall_forall in Hall. apply Hall. by apply list_elem_of_In.
Qed.

Lemma Scan_elem (s : ComponentScanner) (fs : FileSystem) (files : list string)
    (requestedType : string) (r : ScanResult.t) (e : option error)
    (m : ComponentMatch.t) :
  Scan s fs files requestedType (r, e) ->
  In m (ScanResult.Matches r) ->
  exists path parser content raw m0,
    In path files /\
    find (fun p => SupportsFile p path) (parsers s) = Some parser /\
    fs path = Some content /\
    Parse parser content path = (raw, None) /\
    In m0 raw /\
    registry.MatchesComponentType (registry s)
      (ComponentMatch.ComponentName m0) requestedType = true /\
    m = withComponentType requestedType m0.
Proof.
  intros Hscan%Scan_matches.
  rewrite <- list_elem_of_In, Hscan, list_elem_of_In, in_flat_map.
  intros (path & Hpath & (parser & content & raw & Hf & Hfs & Hp & m0 & H0 & Hc & ->)
                            %contribution_elem).
  by exists path, parser, content, raw, m0.
Qed.

Lemma validTypes_cases (notExist : string -> bool) (options : CLIOptions.t) :
  validateOptions notExist options = None ->
  In (CLIOptions.ComponentType options) validTypes /\
  In (CLIOptions.OutputFormat options) validOutputs /\
  notExist (CLIOptions.Directory options) = false.
Proof.
  unfold validateOptions.
  destruct (existsb _ validTypes) eqn:Et; [|done].
  destruct (existsb _ validOutputs) eqn:Eo; [|done].
  destruct (notExist _) eqn:Ed; [done|]. intros _.
  apply existsb_exists in Et as (ty & Hty & ->%String.eqb_eq).
  apply existsb_exists in Eo as (o & Ho & ->%String.eqb_eq).
  done.
Qed.

(** What the registry does with the types the controller lets through. *)
Lemma MatchesComponentType_valid (name ty : string) :
  In ty validTypes ->
  isASCII name = true ->
  registry.MatchesComponentType registry.NewComponentMappingRegistry name ty = true ->
  (ty = "custom" /\ mapBytes lowerByte name = "custom") \/
  (In ty knownTypes /\
   exists pattern,
     registeredUnder registry.NewComponentMappingRegistry ty pattern /\
     mapBytes lowerByte name = mapBytes lowerByte pattern).
Proof.
  intros Hty Hname Hm.
  assert (Hcases : In ty knownTypes \/ ty = "custom").
  { unfold validTypes, knownTypes in *. simpl in *. intuition. }
  destruct Hcases as [Hk| ->].
  - right. split; [done|].
    pose proof (knownTypes_lower ty Hk) as Hlow.
    apply MatchesComponentType_ascii in Hm; [|done|by rewrite Hlow].
    by rewrite Hlow in Hm.
  - left. split; [done|].
    rewrite MatchesComponentType_unknown in Hm.
    + rewrite EqualFold_ascii in Hm by done. by apply String.eqb_eq in Hm.
    + unfold registry.GetMapping. rewrite ToLower_ascii by done.
      apply mappings_unknown. unfold knownTypes. simpl.
      intros [?|[?|[?|[]]]]; discriminate.
Qed.

(** [executeScan] always returns, and returns an error exactly when the
    walk of the directory fails: the error of the walk, wrapped.  The
    error of [Scan] it provides for never comes.  Otherwise it returns a
    result for the requested type that counts the discovered files and
    its own matches, which are, up to their order, what the discovered
    files contribute one by one. *)
Theorem executeScan_outcomes (os : GOOS) (calls : list walkCall)
    (fs : FileSystem) (options : CLIOptions.t) :
  let discovered :=
    DiscoverFiles os calls (CLIOptions.Directory options) (scanFilter options) in
  (exists outcome, executeScan os calls fs options outcome) /\
  (forall outcome,
     executeScan os calls fs options outcome ->
     match discovered.2 with
     | Some err => outcome = (None, Some ("failed to discover files: " +:+ err))
     | None =>
         exists result,
           outcome = (Some result, None) /\
           ScanResult.ComponentType result = CLIOptions.ComponentType options /\
           ScanResult.ScannedFiles result = Z.of_nat (length discovered.1) /\
           ScanResult.TotalCount result =
             Z.of_nat (length (ScanResult.Matches result)) /\
           0 <= ScanResult.ScanTimeMs result /\
           ScanResult.Matches result ≡ₚ
             flat_map (contribution scanScanner fs
                         (CLIOptions.ComponentType options)) discovered.1
     end).
Proof.
  intros discovered. subst discovered.
  destruct (DiscoverFiles os calls (CLIOptions.Directory options)
              (scanFilter options)) as [files [err|]] eqn:Ed; cbn [fst snd].
  - split.
    + eexists. by eapply executeScan_discovery_fails.
    + intros outcome Hex. inversion Hex; subst; congruence.
  - split.
    + destruct files as [|f files].
      * eexists. by apply executeScan_no_files.
      * destruct (Scan_exists scanScanner fs (f :: files)
                    (CLIOptions.ComponentType options)) as [r Hr].
        exists (Some r, None). by eapply executeScan_scans.
    + intros outcome Hex.
      inversion Hex as [files' err Hd|Hd|files' result err Hd Hne Hscan
                       |files' result Hd Hne Hscan]; subst.
      * congruence.
      * assert (files = []) as -> by congruence.
        eexists. split; [done|]. simpl. done.
      * by apply Scan_fields in Hscan as [? _].
      * assert (files' = files) as -> by congruence.
        exists result. split; [done|].
        pose proof (Scan_matches _ _ _ _ _ _ Hscan) as Hm.
        inversion Hscan; subst; simpl in *. done.
Qed.

(** A run the controller lets through and that ends well reports only
    what a user asked for.  Every match bears the requested type; its
    file was met by the walk as a file, is not excluded, ends in one of
    the three extensions in lower case, lies in an included directory
    when any is given, and could be read; its line is one of that file on
    which the tag stands; and its name is, letter case apart, a name
    registered under the requested type, or the word custom itself when
    that is the type. *)
Theorem validated_run_reports_requested_components
    (notExist : string -> bool) (os : GOOS) (calls : list walkCall)
    (fs : FileSystem) (options : CLIOptions.t) (result : ScanResult.t)
    (m : ComponentMatch.t) :
  validateOptions notExist options = None ->
  executeScan os calls fs options (Some result, None) ->
  In m (ScanResult.Matches result) ->
  ComponentMatch.ComponentType m = CLIOptions.ComponentType options /\
  (exists call,
     In call calls /\ walkPath call = ComponentMatch.FilePath m /\
     walkIsDir call = false /\ walkErr call = None) /\
  ShouldExcludeFile os (ComponentMatch.FilePath m) (scanFilter options) = false /\
  In (Ext os (ComponentMatch.FilePath m)) [".vue"; ".jsx"; ".tsx"] /\
  (CLIOptions.Filter options <> [] ->
   isInIncludedDirectory os (ComponentMatch.FilePath m)
     (CLIOptions.Directory options) (CLIOptions.Filter options) = true) /\
  (exists content,
     fs (ComponentMatch.FilePath m) = Some content /\
     1 <= ComponentMatch.Line m <= Z.of_nat (length (SplitLines content)) /\
     onReportedLine content m) /\
  ((CLIOptions.ComponentType options = "custom" /\
    mapBytes lowerByte (ComponentMatch.ComponentName m) = "custom") \/
   (In (CLIOptions.ComponentType options) knownTypes /\
    exists pattern,
      registeredUnder registry.NewComponentMappingRegistry
        (CLIOptions.ComponentType options) pattern /\
      mapBytes lowerByte (ComponentMatch.ComponentName m) =
      mapBytes lowerByte pattern)).
Proof.
  intros (Hty & _ & _)%validTypes_cases Hex Hin.
  inversion Hex as [|Hd|
                   |files result' Hd Hne Hscan]; subst.
  { done. }
  destruct (Scan_elem _ _ _ _ _ _ m Hscan Hin)
    as (path & parser & content & raw & m0 & Hpath & Hf & Hfs & Hp & H0 & Hc & ->).
  apply find_some in Hf as [Hparser _].
  cbn [scanScanner NewComponentScanner parsers] in Hparser.
  cbn [scanScanner NewComponentScanner registry] in Hc.
  assert (Hraw : In m0 (Parse parser content path).1) by by rewrite Hp.
  destruct (builtin_Parse_real parser content path m0 Hparser Hraw)
    as (Hfp & Hline & Hon).
  destruct (builtin_Parse_names parser content path m0 Hparser Hraw)
    as (_ & Hascii).
  assert (Hdisc : In path (DiscoverFiles os calls (CLIOptions.Directory options)
                             (scanFilter options)).1) by by rewrite Hd.
  apply DiscoverFiles_elem in Hdisc as (call & Hcall & <- & Herr & Hacc).
  unfold accepted in Hacc.
  apply andb_true_iff in Hacc as [[[Hdir He]%andb_true_iff Hx]%andb_true_iff Hi].
  apply negb_true_iff in Hdir, He.
  cbn [withComponentType ComponentMatch.FilePath ComponentMatch.ComponentType
       ComponentMatch.ComponentName ComponentMatch.Line].
  rewrite Hfp.
  refine (conj eq_refl (conj _ (conj He (conj _ (conj _ (conj _ _)))))).
  - by exists call.
  - cbn [scanFilter FileFilter.FileExtensions hasValidExtension] in Hx.
    apply existsb_exists in Hx as (ext & Hext & ->%String.eqb_eq). done.
  - intros Hne'. cbn [scanFilter FileFilter.IncludeDirectories] in Hi.
    by destruct (CLIOptions.Filter options).
  - exists content. split_and!; try done; lia.
  - by apply MatchesComponentType_valid.
Qed.

End ControllerFacts.

Lemma validated_run_reports_requested_components_witness :
  let files := ["src/App.vue"; "src/Login.tsx"] in
  let result := (@scanner.ScanInOrder asciiOnly (@cli.scanScanner asciiOnly)
                   sampleFS files "button" 0).1 in
  let m := {| ComponentMatch.FilePath := "src/Login.tsx"; ComponentMatch.Line := 6;
              ComponentMatch.ComponentName := "Button";
              ComponentMatch.ComponentType := "button" |} in
  cli.validateOptions (fun _ => false) sampleOptions = None /\
  @cli.executeScan asciiOnly relFromDot unix sampleWalk sampleFS sampleOptions
    (Some result, None) /\
  In m (ScanResult.Matches result) /\
  ComponentMatch.ComponentType m = CLIOptions.ComponentType sampleOptions /\
  In (GoPath.Ext unix (ComponentMatch.FilePath m)) [".vue"; ".jsx"; ".tsx"].
Proof.
  intros files result m.
  assert (Hv : cli.validateOptions (fun _ => false) sampleOptions = None)
    by reflexivity.
  assert (Hrun : @cli.executeScan asciiOnly relFromDot unix sampleWalk sampleFS
                   sampleOptions (Some result, None)).
  { apply (@cli.executeScan_scans asciiOnly relFromDot unix sampleWalk sampleFS
             sampleOptions files result); [reflexivity|discriminate|].
    apply (@ScanInOrder_run asciiOnly (@cli.scanScanner asciiOnly) sampleFS
             "button" files 0). lia. }
  assert (Hin : In m (ScanResult.Matches result)) by (vm_compute; tauto).
  refine (conj Hv (conj Hrun (conj Hin _))).
  pose proof (@validated_run_reports_requested_components asciiOnly relFromDot
                (fun _ => false) unix sampleWalk sampleFS sampleOptions result m
                Hv Hrun Hin) as H.
  exact (conj (proj1 H) (proj1 (proj2 (proj2 (proj2 H))))).
Defined.

(* ===================================================================== *)
(** * The terminal report                                                *)
(* ===================================================================== *)

Section ReportFacts.
Import GoStrings GoPath output.

Lemma CountNewlines_app (a b : string) :
  CountNewlines (a +:+ b) = CountNewlines a + CountNewlines b.
Proof.
  induction a as [|c a IH]; [done|].
  rewrite append_cons. cbn [CountNewlines]. rewrite IH. lia.
Qed.

Lemma CountNewlines_uint (d : Decimal.uint) :
  CountNewlines (NilEmpty.string_of_uint d) = 0.
Proof. induction d; simpl; [done|exact IHd..]. Qed.

(** The verb [%d] never writes a newline. *)
Lemma CountNewlines_formatInt (n : Z) : CountNewlines (formatInt n) = 0.
Proof.
  unfold formatInt. destruct (Z.to_int n) as [d|d]; simpl;
    apply CountNewlines_uint.
Qed.

Lemma SplitLines_lf (b : string) :
  SplitLines (lf +:+ b) = EmptyString :: SplitLines b.
Proof. reflexivity. Qed.

(** Text without a newline put before a text lengthens its first line. *)
Lemma SplitLines_text (a b : string) :
  CountNewlines a = 0 ->
  SplitLines (a +:+ b) = (a +:+ hd EmptyString (SplitLines b)) :: tl (SplitLines b).
Proof.
  induction a as [|c a IH]; intros Ha.
  - rewrite !append_nil_l. pose proof (SplitLines_nonempty b).
    by destruct (SplitLines b).
  - rewrite !append_cons. cbn [SplitLines CountNewlines] in *.
    pose proof (CountNewlines_nonneg a).
    destruct (Ascii.eqb c newline); [lia|].
    rewrite IH by lia. done.
Qed.

Lemma concat_empty_cons (x : string) (l : list string) :
  String.concat EmptyString (x :: l) = x +:+ String.concat EmptyString l.
Proof. destruct l; simpl; [by rewrite append_nil_r|done]. Qed.

Lemma SplitLines_matchLines (matches : list ComponentMatch.t) (rest : string) :
  (forall m, In m matches ->
     CountNewlines (ComponentMatch.FilePath m) = 0 /\
     CountNewlines (ComponentMatch.ComponentName m) = 0) ->
  SplitLines (String.concat EmptyString (map matchLine matches) +:+ rest) =
  map matchText matches ++ SplitLines rest.
Proof.
  induction matches as [|m matches IH]; intros Hall.
  { by rewrite append_nil_l. }
  destruct (Hall m (or_introl eq_refl)) as [Hp Hn].
  cbn [map]. rewrite concat_empty_cons.
  unfold matchLine at 1. rewrite !append_assoc.
  repeat first
    [ rewrite SplitLines_lf; cbn [hd tl]
    | rewrite SplitLines_text
        by first [assumption | reflexivity | apply CountNewlines_formatInt] ].
  rewrite IH by (intros m' Hm'; apply Hall; by right).
  cbn [hd tl app]. unfold matchText. by rewrite append_nil_r.
Qed.

(** Read line by line, the report is the header, a line per match in the
    order of the result (or the one line saying there is none) and the
    three counts, as long as neither the type nor a path or a name holds a
    newline.  The match of rank [i] is thus on the line of rank [6 + i],
    and the report has eleven lines without matches and twelve and one
    per match otherwise, the empty one after the last newline counted. *)
Theorem FormatTerminal_line_by_line (result : ScanResult.t) :
  CountNewlines (ScanResult.ComponentType result) = 0 ->
  (forall m, In m (ScanResult.Matches result) ->
     CountNewlines (ComponentMatch.FilePath m) = 0 /\
     CountNewlines (ComponentMatch.ComponentName m) = 0) ->
  SplitLines (FormatTerminal result) = reportLines result /\
  (forall (i : nat) (m : ComponentMatch.t),
     ScanResult.Matches result !! i = Some m ->
     SplitLines (FormatTerminal result) !! (6 + i)%nat = Some (matchText m)) /\
  length (SplitLines (FormatTerminal result)) =
    match ScanResult.Matches result with
    | [] => 11%nat
    | matches => (12 + length matches)%nat
    end.
Proof.
  intros Hty Hall.
  assert (Hlines : SplitLines (FormatTerminal result) = reportLines result).
  { unfold FormatTerminal, reportLines.
    destruct (ScanResult.Matches result) as [|m0 matches] eqn:Em.
    - rewrite !append_assoc.
      repeat first
        [ rewrite SplitLines_lf; cbn [hd tl]
        | rewrite SplitLines_text
            by first [assumption | reflexivity | apply CountNewlines_formatInt] ].
      change (SplitLines lf) with [EmptyString; EmptyString].
      cbn [hd tl app]. by rewrite !append_nil_r.
    - rewrite !append_assoc.
      repeat first
        [ rewrite SplitLines_matchLines by exact Hall
        | rewrite SplitLines_lf; cbn [hd tl]
        | rewrite SplitLines_text
            by first [assumption | reflexivity | apply CountNewlines_formatInt] ].
      change (SplitLines lf) with [EmptyString; EmptyString].
      cbn [hd tl app]. by rewrite !append_nil_r. }
  rewrite Hlines. unfold reportLines. split; [done|]. split.
  - intros i m Hi.
    destruct (ScanResult.Matches result) as [|m0 matches] eqn:Em; [done|].
    cbn [app]. change (6 + i)%nat with (S (S (S (S (S (S i)))))).
    lazymatch goal with
    | |- (_ :: _ :: _ :: _ :: _ :: _ :: ?l) !! _ = ?r => change (l !! i = r)
    end.
    rewrite lookup_app_l by (rewrite length_map; by eapply lookup_lt_Some).
    by rewrite list_lookup_fmap, Hi.
  - destruct (ScanResult.Matches result) as [|m0 matches]; [done|].
    rewrite !length_app, length_map. simpl. lia.
Qed.

End ReportFacts.

Lemma FormatTerminal_line_by_line_witness :
  let result :=
    {| ScanResult.Matches :=
         [ {| ComponentMatch.FilePath := "src/Login.tsx"; ComponentMatch.Line := 6;
              ComponentMatch.ComponentName := "Button";
              ComponentMatch.ComponentType := "button" |} ];
       ScanResult.TotalCount := 1; ScanResult.ScanTimeMs := 3;
       ScanResult.ComponentType := "button"; ScanResult.ScannedFiles := 2 |} in
  GoStrings.CountNewlines (ScanResult.ComponentType result) = 0 /\
  (forall m, In m (ScanResult.Matches result) ->
     GoStrings.CountNewlines (ComponentMatch.FilePath m) = 0 /\
     GoStrings.CountNewlines (ComponentMatch.ComponentName m) = 0) /\
  GoStrings.SplitLines (output.FormatTerminal result) !! 6%nat =
    Some "  src/Login.tsx (line 6): Button" /\
  length (GoStrings.SplitLines (output.FormatTerminal result)) = 13%nat.
Proof.
  intros result.
  assert (Hty : GoStrings.CountNewlines (ScanResult.ComponentType result) = 0)
    by reflexivity.
  assert (Hall : forall m, In m (ScanResult.Matches result) ->
            GoStrings.CountNewlines (ComponentMatch.FilePath m) = 0 /\
            GoStrings.CountNewlines (ComponentMatch.ComponentName m) = 0).
  { intros m [<-|[]]. split; reflexivity. }
  refine (conj Hty (conj Hall _)).
  destruct (FormatTerminal_line_by_line result Hty Hall) as (_ & Hline & Hlen).
  split; [|exact Hlen].
  exact (Hline 0%nat _ eq_refl).
Defined.

(* ===================================================================== *)
(** * Included directories                                               *)
(* ===================================================================== *)

Section InclusionClaims.
Import GoStrings GoPath discovery.
Context `{R : FilepathRel}.

(** Unlike exclusion, inclusion goes by whole directories.  A file whose
    path relative to the root is [rel] is in an included directory exactly
    when [rel], with slashes, is one of the directories or continues one
    of them after a slash; a path that merely begins like a directory is
    not.  A directory given with a slash at its end therefore includes
    nothing of what [filepath.Rel] returns, which neither ends in a slash
    nor holds two in a row; and nothing is included when [filepath.Rel]
    fails. *)
Theorem inclusion_is_by_directory (os : GOOS) (filePath rootDir rel : string)
    (includeDirectories : list string) :
  Rel rootDir filePath = (rel, None) ->
  (isInIncludedDirectory os filePath rootDir includeDirectories = true <->
   exists includeDir,
     In includeDir includeDirectories /\
     (ToSlash os rel = ToSlash os includeDir \/
      exists rest, ToSlash os rel = ToSlash os includeDir +:+ "/" +:+ rest)) /\
  (forall includeDir : string,
     Contains (ToSlash os rel) "//" = false ->
     HasSuffix (ToSlash os rel) "/" = false ->
     isInIncludedDirectory os filePath rootDir [includeDir +:+ "/"] = false) /\
  (forall (other relPath : string) (err : error),
     Rel rootDir other = (relPath, Some err) ->
     isInIncludedDirectory os other rootDir includeDirectories = false).
Proof.
  intros Hrel.
  assert (Hiff : forall dirs,
    isInIncludedDirectory os filePath rootDir dirs = true <->
    exists includeDir,
      In includeDir dirs /\
      (ToSlash os rel = ToSlash os includeDir \/
       exists rest, ToSlash os rel = ToSlash os includeDir +:+ "/" +:+ rest)).
  { intros dirs. unfold isInIncludedDirectory. rewrite Hrel. cbv zeta.
    rewrite existsb_exists. split.
    - intros (dir & Hin & [Hp|He]%orb_true_iff); exists dir; (split; [done|]).
      + right. apply HasPrefix_shape in Hp as [rest Hp]. exists rest.
        by rewrite Hp, append_assoc.
      + left. by apply String.eqb_eq.
    - intros (dir & Hin & [He|[rest Hp]]); exists dir; (split; [done|]);
        apply orb_true_iff.
      + right. by apply String.eqb_eq.
      + left. rewrite Hp, <- append_assoc. apply HasPrefix_app, HasPrefix_self. }
  split; [apply Hiff|]. split.
  - intros includeDir Hdouble Hend.
    destruct (isInIncludedDirectory os filePath rootDir [includeDir +:+ "/"])
      eqn:E; [|done].
    apply Hiff in E as (dir & [<-|[]] & Hcases).
    assert (Hslash : ToSlash os "/" = "/") by by destruct os.
    rewrite ToSlash_app, Hslash in Hcases.
    destruct Hcases as [He|[rest Hp]].
    + rewrite He, HasSuffix_app in Hend. done.
    + rewrite append_assoc in Hp.
      change ("/" +:+ "/" +:+ rest) with ("//" +:+ rest) in Hp.
      rewrite Hp, Contains_app in Hdouble. done.
  - intros other relPath err Hfail. unfold isInIncludedDirectory.
    by rewrite Hfail.
Qed.

End InclusionClaims.

Lemma inclusion_is_by_directory_witness :
  @Rel relFromDot "." "src/App.vue" = ("src/App.vue", None) /\
  @discovery.isInIncludedDirectory relFromDot unix "src/App.vue" "." ["src"] = true /\
  @discovery.isInIncludedDirectory relFromDot unix "src/App.vue" "." ["sr"] = false /\
  @discovery.isInIncludedDirectory relFromDot unix "src/App.vue" "." ["src/"] = false.
Proof.
  assert (Hrel : @Rel relFromDot "." "src/App.vue" = ("src/App.vue", None))
    by reflexivity.
  split; [exact Hrel|].
  split; [|split; [reflexivity|]].
  - apply (proj1 (@inclusion_is_by_directory relFromDot unix "src/App.vue" "."
                    "src/App.vue" ["src"] Hrel)).
    exists "src". split; [by left|]. right. by exists "App.vue".
  - exact (proj1 (proj2 (@inclusion_is_by_directory relFromDot unix "src/App.vue"
                           "." "src/App.vue" [] Hrel)) "src" eq_refl eq_refl).
Defined.
